(** * PatternDetector: multi-pattern matching and homography refinement

    A shallow embedding of [src/lib/PatternDetector.cpp].

    - C++ [float] arithmetic is an interface ([FloatOps]); its instance
      is IEEE-754 binary32 as specified by the Standard Library's
      [SpecFloat].  Metric facts about stored coordinates are stated on
      the rational value of each binary32 number.
    - OpenCV is an external collaborator: its values ([cv::Mat]) and
      operations (detector, extractor, brute-force matcher, RANSAC
      homography, warping) form the interface [OpenCV].  The matrix
      product is partial: it throws on an empty operand.
    - What a run can do wrong is explicit and ends it with [Fatal]: a
      failed [assert], an [operator[]] on a [std::vector] with an index
      out of range (undefined behaviour in C++), and a [cv::Exception]
      thrown by the matrix product.
    - The object's member variables are the record [PatternDetector];
      member functions pass it explicitly. *)

From Stdlib Require Import ZArith List Bool Lia QArith Qminmax Qabs Qpower Lqa.
From Stdlib Require Import Floats.SpecFloat.
From stdpp Require Import base list.

Set Default Proof Using "Type".
Open Scope Z_scope.

(** ** Outcomes of a run *)

Inductive fault : Type :=
| AssertFailed   (* [assert(...)] evaluated to false *)
| OutOfRange     (* [v[i]] with [i >= v.size()] *)
| CvException.   (* a [cv::Exception] thrown inside OpenCV *)

Inductive outcome (A : Type) : Type :=
| Ok (a : A)
| Fatal (why : fault).
Arguments Ok {A} a.
Arguments Fatal {A} why.

Definition bind {A B} (m : outcome A) (k : A -> outcome B) : outcome B :=
  match m with
  | Ok a => k a
  | Fatal w => Fatal w
  end.

Notation "x <- m ;; k" := (bind m (fun x => k))
  (at level 62, m at next level, right associativity).

Definition is_ok {A} (m : outcome A) : bool :=
  match m with Ok _ => true | Fatal _ => false end.

(** A run ends in a contract violation. *)
Definition fails_loudly {A} (m : outcome A) : Prop := exists w, m = Fatal w.

(** [v[i]] for a [std::vector] and an [int] or [size_t] index.  A negative
    [int] converts to a huge [size_t], which is out of range as well.
    [operator[]] does not check its index: out of range the behaviour of
    the C++ program is undefined, and the model ends the run there.
    [Fatal OutOfRange] therefore says that such an access happens, not
    that the program stops. *)
Definition vec_at {A} (v : list A) (i : Z) : outcome A :=
  if i <? 0 then Fatal OutOfRange
  else match v !! Z.to_nat i with
       | Some a => Ok a
       | None => Fatal OutOfRange
       end.

(** [v[i] = x]. *)
Definition vec_set {A} (v : list A) (i : Z) (x : A) : outcome (list A) :=
  if i <? 0 then Fatal OutOfRange
  else if i <? Z.of_nat (length v) then Ok (<[Z.to_nat i := x]> v)
  else Fatal OutOfRange.

(** Conversions between [size_t] (64 bits, unsigned) and [int]
    (32 bits, two's complement), as in [maxFound = m_matches[i].size()]
    and [(size_t)maxFound]. *)
Definition int_of_size_t (n : Z) : Z :=
  let r := n mod 2 ^ 32 in
  if r <? 2 ^ 31 then r else r - 2 ^ 32.

Definition size_t_of_int (i : Z) : Z := i mod 2 ^ 64.

Definition vec_size {A} (v : list A) : Z := Z.of_nat (length v).

(** ** Floating-point arithmetic *)

Class FloatOps (F : Type) : Type := {
  of_int : Z -> F;          (* implicit conversion [int] to [float] *)
  of_dyadic : Z -> Z -> F;  (* the literal [m * 2^e] *)
  fneg : F -> F;            (* unary minus *)
  fdiv : F -> F -> F;       (* [/] *)
  fltb : F -> F -> bool     (* [<] *)
}.

(** [std::max(a, b)] is [(a < b) ? b : a]. *)
Definition fmax {F} `{FloatOps F} (a b : F) : F :=
  if fltb a b then b else a.

(** IEEE-754 binary32. *)
Module Binary32.
Definition prec : Z := 24.
Definition emax : Z := 128.
Definition float : Type := spec_float.
Definition of_int (z : Z) : float := binary_normalize prec emax z 0 false.
Definition of_dyadic (m e : Z) : float := binary_normalize prec emax m e false.
Definition neg : float -> float := SFopp.
Definition div : float -> float -> float := SFdiv prec emax.
Definition ltb : float -> float -> bool := SFltb.
Definition is_nan (x : float) : bool :=
  match x with S754_nan => true | _ => false end.
Definition is_finite (x : float) : bool :=
  match x with
  | S754_finite _ _ _ | S754_zero _ => true
  | _ => false
  end.
(** The rational number a finite binary32 value stands for: [m * 2^e]
    with its sign, and [0] for the two zeros.  Infinities and NaN stand
    for no number; they are given [0] and told apart by [is_finite]. *)
Definition to_Q (x : float) : Q :=
  match x with
  | S754_finite s m e => (inject_Z (if s then Z.neg m else Z.pos m) * 2 ^ e)%Q
  | _ => 0%Q
  end.
End Binary32.

#[export] Instance binary32_ops : FloatOps Binary32.float := {|
  of_int := Binary32.of_int;
  of_dyadic := Binary32.of_dyadic;
  fneg := Binary32.neg;
  fdiv := Binary32.div;
  fltb := Binary32.ltb
|}.

(** ** Data model *)

(** [cv::Size]. *)
Record Size : Type := mkSize { width : Z; height : Z }.

(** The two conversions [getGray] asks [cv::cvtColor] for. *)
Inductive ColorConversionCode : Type := COLOR_BGR2GRAY | COLOR_BGRA2GRAY.

Section Detector.
Context {F : Type} {FO : FloatOps F}.

(** [cv::Point2f], [cv::Point3f]. *)
Record Point2f : Type := mkPoint2f { p2_x : F; p2_y : F }.
Record Point3f : Type := mkPoint3f { p3_x : F; p3_y : F; p3_z : F }.

(** [cv::KeyPoint]; [pt] is the only field the code reads. *)
Record KeyPoint : Type := mkKeyPoint { pt : Point2f }.

(** [cv::DMatch]. *)
Record DMatch : Type := mkDMatch {
  queryIdx : Z;
  trainIdx : Z;
  imgIdx : Z;
  distance : F
}.

(** [cv::Mat]: an image, a descriptor matrix or a 3 x 3 transform. *)
Context {Mat : Type}.

(** The OpenCV operations the detector calls.  [detect] and [compute]
    stand for [m_detector->detect] and [m_extractor->compute] of the
    detector and extractor given to the constructor; [knnMatch] and
    [matchNearest] for [cv::BFMatcher(NORM_HAMMING)::knnMatch] and
    [::match] on a matcher holding the given train descriptors. *)
Class OpenCV : Type := {
  Mat_new : Mat;                              (* [cv::Mat()] *)
  Mat_cols : Mat -> Z;
  Mat_rows : Mat -> Z;
  Mat_channels : Mat -> Z;
  Mat_empty : Mat -> bool;
  Mat_eye3 : Mat;                             (* [cv::Mat::eye(3, 3, CV_64FC1)] *)
  Mat_mul : Mat -> Mat -> Mat;                (* [a * b] on matrices that have entries *)
  cvtColor : Mat -> ColorConversionCode -> Mat;
  detect : Mat -> list KeyPoint;
  compute : Mat -> list KeyPoint -> list KeyPoint * Mat;
  knnMatch : list Mat -> Mat -> Z -> list (list DMatch);
  matchNearest : list Mat -> Mat -> list DMatch;
  findHomography : list Point2f -> list Point2f -> F -> Mat * list Z;
  warpPerspective : Mat -> Mat -> Size -> Mat;
  perspectiveTransform : list Point2f -> Mat -> list Point2f
}.

Context {CV : OpenCV}.

(** [Pattern], [PatternTrackingInfo]: declared in [PatternDetector.hpp];
    the fields are the ones [PatternDetector.cpp] reads and writes. *)
Record Pattern : Type := mkPattern {
  pattern_size : Size;
  pattern_points2d : list Point2f;
  pattern_points3d : list Point3f;
  pattern_keypoints : list KeyPoint;
  pattern_descriptors : Mat
}.

Record PatternTrackingInfo : Type := mkInfo {
  info_patternIdx : Z;
  info_homography : Mat;
  info_points2d : list Point2f
}.

(** A default-constructed [Pattern]. *)
Definition Pattern_new : Pattern :=
  mkPattern (mkSize 0 0) [] [] [] Mat_new.

(** [cv::BFMatcher]: the descriptor sets added so far. *)
Record DescriptorMatcher : Type := mkMatcher { trainDescCollection : list Mat }.

Definition matcher_clear (m : DescriptorMatcher) : DescriptorMatcher := mkMatcher [].
Definition matcher_add (descriptors : list Mat) (m : DescriptorMatcher) : DescriptorMatcher :=
  mkMatcher (trainDescCollection m ++ descriptors).
(** Brute force matching has no index to build. *)
Definition matcher_train (m : DescriptorMatcher) : DescriptorMatcher := m.

(** The member variables of [PatternDetector]. *)
Record PatternDetector : Type := mkDetector {
  enableRatioTest : bool;
  enableHomographyRefinement : bool;
  homographyReprojectionThreshold : F;
  m_patterns : list Pattern;
  m_matchers : list DescriptorMatcher;
  m_grayImg : Mat;
  m_warpedImg : Mat;
  m_queryKeypoints : list KeyPoint;
  m_queryDescriptors : Mat;
  m_matches : list (list DMatch);
  m_matches_homographyFound : list bool;
  m_matches_homography : list Mat;
  m_roughHomography : Mat;
  m_refinedHomography : Mat;
  m_pattern : Pattern
}.

Definition set_trained (ps : list Pattern) (ms : list DescriptorMatcher)
  (d : PatternDetector) : PatternDetector :=
  mkDetector (enableRatioTest d) (enableHomographyRefinement d)
    (homographyReprojectionThreshold d) ps ms (m_grayImg d) (m_warpedImg d)
    (m_queryKeypoints d) (m_queryDescriptors d) (m_matches d)
    (m_matches_homographyFound d) (m_matches_homography d)
    (m_roughHomography d) (m_refinedHomography d) (m_pattern d).

Definition set_query (gray : Mat) (kps : list KeyPoint) (descs : Mat)
  (d : PatternDetector) : PatternDetector :=
  mkDetector (enableRatioTest d) (enableHomographyRefinement d)
    (homographyReprojectionThreshold d) (m_patterns d) (m_matchers d) gray
    (m_warpedImg d) kps descs (m_matches d)
    (m_matches_homographyFound d) (m_matches_homography d)
    (m_roughHomography d) (m_refinedHomography d) (m_pattern d).

Definition set_slots (ms : list (list DMatch)) (fs : list bool) (hs : list Mat)
  (d : PatternDetector) : PatternDetector :=
  mkDetector (enableRatioTest d) (enableHomographyRefinement d)
    (homographyReprojectionThreshold d) (m_patterns d) (m_matchers d)
    (m_grayImg d) (m_warpedImg d) (m_queryKeypoints d) (m_queryDescriptors d)
    ms fs hs (m_roughHomography d) (m_refinedHomography d) (m_pattern d).

Definition set_winner (rough : Mat) (p : Pattern)
  (d : PatternDetector) : PatternDetector :=
  mkDetector (enableRatioTest d) (enableHomographyRefinement d)
    (homographyReprojectionThreshold d) (m_patterns d) (m_matchers d)
    (m_grayImg d) (m_warpedImg d) (m_queryKeypoints d) (m_queryDescriptors d)
    (m_matches d) (m_matches_homographyFound d) (m_matches_homography d)
    rough (m_refinedHomography d) p.

Definition set_refined (warped refined : Mat)
  (d : PatternDetector) : PatternDetector :=
  mkDetector (enableRatioTest d) (enableHomographyRefinement d)
    (homographyReprojectionThreshold d) (m_patterns d) (m_matchers d)
    (m_grayImg d) warped (m_queryKeypoints d) (m_queryDescriptors d)
    (m_matches d) (m_matches_homographyFound d) (m_matches_homography d)
    (m_roughHomography d) refined (m_pattern d).

(** The two switches are assigned from outside the class. *)
Definition set_enableRatioTest (b : bool) (d : PatternDetector) : PatternDetector :=
  mkDetector b (enableHomographyRefinement d)
    (homographyReprojectionThreshold d) (m_patterns d) (m_matchers d)
    (m_grayImg d) (m_warpedImg d) (m_queryKeypoints d) (m_queryDescriptors d)
    (m_matches d) (m_matches_homographyFound d) (m_matches_homography d)
    (m_roughHomography d) (m_refinedHomography d) (m_pattern d).

Definition set_enableHomographyRefinement (b : bool) (d : PatternDetector)
  : PatternDetector :=
  mkDetector (enableRatioTest d) b
    (homographyReprojectionThreshold d) (m_patterns d) (m_matchers d)
    (m_grayImg d) (m_warpedImg d) (m_queryKeypoints d) (m_queryDescriptors d)
    (m_matches d) (m_matches_homographyFound d) (m_matches_homography d)
    (m_roughHomography d) (m_refinedHomography d) (m_pattern d).

(** ** The constructor (lines 13-21) *)

Definition PatternDetector_new (ratioTest : bool) : PatternDetector :=
  mkDetector ratioTest true (of_int 3) [] [] Mat_new Mat_new [] Mat_new
    [] [] [] Mat_new Mat_new Pattern_new.

(** ** [train] (lines 23-38) *)

Definition train_matcher (p : Pattern) : DescriptorMatcher :=
  let matcher := mkMatcher [] in
  let matcher := matcher_clear matcher in
  let descriptors := [pattern_descriptors p] in
  let matcher := matcher_add descriptors matcher in
  matcher_train matcher.

Definition train (patterns : list Pattern) (d : PatternDetector) : PatternDetector :=
  set_trained patterns (map train_matcher patterns) d.

(** ** [getGray] (lines 262-269) *)

Definition getGray (image gray : Mat) : Mat :=
  if Mat_channels image =? 3 then cvtColor image COLOR_BGR2GRAY
  else if Mat_channels image =? 4 then cvtColor image COLOR_BGRA2GRAY
  else if Mat_channels image =? 1 then image
  else gray.

(** ** [extractFeatures] (lines 271-290)

    [keypoints] and [descriptors] are the values the two reference
    parameters hold on entry; the result carries them on exit. *)

Definition extractFeatures (image : Mat) (keypoints : list KeyPoint)
  (descriptors : Mat) : outcome (bool * list KeyPoint * Mat) :=
  if Mat_empty image then Fatal AssertFailed
  else if negb (Mat_channels image =? 1) then Fatal AssertFailed
  else
    let keypoints := detect image in
    match keypoints with
    | [] => Ok (false, keypoints, descriptors)
    | _ :: _ =>
        let '(keypoints, descriptors) := compute image keypoints in
        match keypoints with
        | [] => Ok (false, keypoints, descriptors)
        | _ :: _ => Ok (true, keypoints, descriptors)
        end
    end.

(** The two assertions of [extractFeatures] hold for [image]. *)
Definition assertions_hold (image : Mat) : Prop :=
  Mat_empty image = false /\ Mat_channels image = 1.

(** ** [buildPatternsFromImages] (lines 40-79) *)

Definition buildPattern (image : Mat) : outcome Pattern :=
  let size := mkSize (Mat_cols image) (Mat_rows image) in
  let grayImage := getGray image Mat_new in
  let w := of_int (Mat_cols image) in
  let h := of_int (Mat_rows image) in
  let maxSize := fmax w h in
  let unitW := fdiv w maxSize in
  let unitH := fdiv h maxSize in
  let zero := of_int 0 in
  let points2d :=
    [mkPoint2f zero zero; mkPoint2f w zero; mkPoint2f w h; mkPoint2f zero h] in
  let points3d :=
    [mkPoint3f (fneg unitW) (fneg unitH) zero;
     mkPoint3f unitW (fneg unitH) zero;
     mkPoint3f unitW unitH zero;
     mkPoint3f (fneg unitW) unitH zero] in
  r <- extractFeatures grayImage [] Mat_new ;;
  let '(_, keypoints, descriptors) := r in
  Ok (mkPattern size points2d points3d keypoints descriptors).

(** What [buildPattern] stores for one image. *)
Definition registered (image : Mat) (p : Pattern) : Prop :=
  let w := of_int (Mat_cols image) in
  let h := of_int (Mat_rows image) in
  assertions_hold (getGray image Mat_new) /\
  pattern_size p = mkSize (Mat_cols image) (Mat_rows image) /\
  pattern_points2d p =
    [mkPoint2f (of_int 0) (of_int 0); mkPoint2f w (of_int 0);
     mkPoint2f w h; mkPoint2f (of_int 0) h] /\
  exists b, extractFeatures (getGray image Mat_new) [] Mat_new
            = Ok (b, pattern_keypoints p, pattern_descriptors p).

Fixpoint buildPatternsLoop (images : list Mat) (patterns : list Pattern)
  : outcome (list Pattern) :=
  match images with
  | [] => Ok patterns
  | image :: rest =>
      pattern <- buildPattern image ;;
      buildPatternsLoop rest (patterns ++ [pattern])
  end.

Definition buildPatternsFromImages (images : list Mat) : outcome (list Pattern) :=
  buildPatternsLoop images [].

(** ** The ratio test (lines 129-149 and 296-316)

    The two member functions carry the same loop; [matches] is the vector
    being filled. *)

(** [1.f / 1.5f]. *)
Definition minRatio : F := fdiv (of_dyadic 1 0) (of_dyadic 3 (-1)).

Definition distanceRatio (bestMatch betterMatch : DMatch) : F :=
  fdiv (distance bestMatch) (distance betterMatch).

Fixpoint ratioTestLoop (knnMatches : list (list DMatch)) (matches : list DMatch)
  : outcome (list DMatch) :=
  match knnMatches with
  | [] => Ok matches
  | row :: rest =>
      bestMatch <- vec_at row 0 ;;
      betterMatch <- vec_at row 1 ;;
      if fltb (distanceRatio bestMatch betterMatch) minRatio
      then ratioTestLoop rest (matches ++ [bestMatch])
      else ratioTestLoop rest matches
  end.

(** What the loop keeps of one row of [knnMatch]. *)
Definition ratio_kept_of (row : list DMatch) : list DMatch :=
  match row with
  | bestMatch :: betterMatch :: _ =>
      if fltb (distanceRatio bestMatch betterMatch) minRatio then [bestMatch] else []
  | _ => []
  end.

(** The body shared by [findPatternMatch] (lines 127-153) and [getMatches]
    (lines 294-320), after [m_matchers[patternIdx]] has been read. *)
Definition matchDescriptors (ratioTest : bool) (matcher : DescriptorMatcher)
  (queryDescriptors : Mat) : outcome (list DMatch) :=
  if ratioTest then
    let knnMatches := knnMatch (trainDescCollection matcher) queryDescriptors 2 in
    ratioTestLoop knnMatches []
  else
    Ok (matchNearest (trainDescCollection matcher) queryDescriptors).

(** ** [getMatches] (lines 292-321) *)

Definition getMatches (queryDescriptors : Mat) (patternIdx : Z)
  (d : PatternDetector) : outcome (list DMatch) :=
  matcher <- vec_at (m_matchers d) patternIdx ;;
  matchDescriptors (enableRatioTest d) matcher queryDescriptors.

(** ** [refineMatchesWithHomography] (lines 323-360) *)

Definition minNumberMatchesAllowed : Z := 25.

(** Lines 337-340. *)
Fixpoint collectPoints (queryKeypoints trainKeypoints : list KeyPoint)
  (matches : list DMatch) : outcome (list Point2f * list Point2f) :=
  match matches with
  | [] => Ok ([], [])
  | m :: rest =>
      src <- vec_at trainKeypoints (trainIdx m) ;;
      dst <- vec_at queryKeypoints (queryIdx m) ;;
      r <- collectPoints queryKeypoints trainKeypoints rest ;;
      Ok (pt src :: fst r, pt dst :: snd r)
  end.

(** Lines 352-356; [i] is the index of the head of [inliersMask]. *)
Fixpoint collectInliers (inliersMask : list Z) (i : nat) (matches inliers : list DMatch)
  : outcome (list DMatch) :=
  match inliersMask with
  | [] => Ok inliers
  | b :: rest =>
      if b =? 0 then collectInliers rest (S i) matches inliers
      else
        m <- vec_at matches (Z.of_nat i) ;;
        collectInliers rest (S i) matches (inliers ++ [m])
  end.

(** The result is the returned [bool] with the final values of the
    reference parameters [matches] and [homography]. *)
Definition refineMatchesWithHomography (queryKeypoints trainKeypoints : list KeyPoint)
  (reprojectionThreshold : F) (matches : list DMatch) (homography : Mat)
  : outcome (bool * list DMatch * Mat) :=
  if vec_size matches <? minNumberMatchesAllowed then Ok (false, matches, homography)
  else
    pts <- collectPoints queryKeypoints trainKeypoints matches ;;
    let '(srcPoints, dstPoints) := pts in
    let '(homography, inliersMask) :=
      findHomography srcPoints dstPoints reprojectionThreshold in
    let homography := if Mat_empty homography then Mat_eye3 else homography in
    inliers <- collectInliers inliersMask 0 matches [] ;;
    Ok (minNumberMatchesAllowed <? vec_size inliers, inliers, homography).

(** What [cv::findHomography] returns for the correspondences [matches]:
    the transform and the inlier mask. *)
Definition estimateOf (queryKeypoints trainKeypoints : list KeyPoint)
  (reprojectionThreshold : F) (matches : list DMatch) : Mat * list Z :=
  match collectPoints queryKeypoints trainKeypoints matches with
  | Ok (srcPoints, dstPoints) => findHomography srcPoints dstPoints reprojectionThreshold
  | Fatal _ => (Mat_new, [])
  end.

(** The matches whose mask entry is not zero, in their order. *)
Fixpoint select_by_mask (inliersMask : list Z) (matches : list DMatch) : list DMatch :=
  match inliersMask, matches with
  | b :: mask, m :: rest =>
      if b =? 0 then select_by_mask mask rest else m :: select_by_mask mask rest
  | _, _ => []
  end.

(** Both indices of a match point into the keypoint vectors. *)
Definition keypoints_in_range (queryKeypoints trainKeypoints : list KeyPoint)
  (m : DMatch) : Prop :=
  (0 <= trainIdx m < vec_size trainKeypoints) /\
  (0 <= queryIdx m < vec_size queryKeypoints).

#[global] Instance keypoints_in_range_dec (queryKeypoints trainKeypoints : list KeyPoint)
  (m : DMatch) : Decision (keypoints_in_range queryKeypoints trainKeypoints m).
Proof. unfold keypoints_in_range. apply _. Defined.

(** ** [findPatternMatch] (lines 125-164) *)

Definition findPatternMatch (queryDescriptors : Mat) (patternIdx : Z)
  (d : PatternDetector) : outcome PatternDetector :=
  matcher <- vec_at (m_matchers d) patternIdx ;;
  matches <- matchDescriptors (enableRatioTest d) matcher queryDescriptors ;;
  let roughHomography := Mat_new in
  pattern <- vec_at (m_patterns d) patternIdx ;;
  r <- refineMatchesWithHomography (m_queryKeypoints d) (pattern_keypoints pattern)
         (homographyReprojectionThreshold d) matches roughHomography ;;
  let '(homographyFoundinPattern, matches, roughHomography) := r in
  ms <- vec_set (m_matches d) patternIdx matches ;;
  hs <- vec_set (m_matches_homography d) patternIdx roughHomography ;;
  fs <- vec_set (m_matches_homographyFound d) patternIdx homographyFoundinPattern ;;
  Ok (set_slots ms fs hs d).

(** The two halves of [findPatternMatch]: what the job computes (lines
    127-158) and the three assignments to its result slot (lines
    160-163). *)
Definition matchJob (queryDescriptors : Mat) (patternIdx : Z)
  (d : PatternDetector) : outcome (bool * list DMatch * Mat) :=
  matcher <- vec_at (m_matchers d) patternIdx ;;
  matches <- matchDescriptors (enableRatioTest d) matcher queryDescriptors ;;
  pattern <- vec_at (m_patterns d) patternIdx ;;
  refineMatchesWithHomography (m_queryKeypoints d) (pattern_keypoints pattern)
    (homographyReprojectionThreshold d) matches Mat_new.

Definition writeSlot (patternIdx : Z) (r : bool * list DMatch * Mat)
  (d : PatternDetector) : outcome PatternDetector :=
  let '(found, matches, homography) := r in
  ms <- vec_set (m_matches d) patternIdx matches ;;
  hs <- vec_set (m_matches_homography d) patternIdx homography ;;
  fs <- vec_set (m_matches_homographyFound d) patternIdx found ;;
  Ok (set_slots ms fs hs d).

(** The three result vectors have a slot [i]. *)
Definition has_slot (i : nat) (d : PatternDetector) : bool :=
  (i <? length (m_matches d))%nat && (i <? length (m_matches_homography d))%nat &&
  (i <? length (m_matches_homographyFound d))%nat.


(** Modelled from the spec: the loop body [PatternMatch] handed to
    [cv::parallel_for_] is declared in [PatternDetector.hpp], which is not
    among the sources.  Section 4.4: one job per pattern in the store,
    each running the candidate matcher against the same query descriptors
    and writing only its own result slot; the result does not depend on
    the schedule, so the jobs are run in index order. *)
Fixpoint PatternMatch (queryDescriptors : Mat) (range : list nat)
  (d : PatternDetector) : outcome PatternDetector :=
  match range with
  | [] => Ok d
  | i :: rest =>
      d' <- findPatternMatch queryDescriptors (Z.of_nat i) d ;;
      PatternMatch queryDescriptors rest d'
  end.

(** ** [findPattern] (lines 166-260) *)

(** Lines 168-182: grey conversion, feature extraction, fresh result
    slots, one matching job per pattern. *)
Definition matchStage (image : Mat) (d : PatternDetector) : outcome PatternDetector :=
  let gray := getGray image (m_grayImg d) in
  r <- extractFeatures gray (m_queryKeypoints d) (m_queryDescriptors d) ;;
  let '(_, keypoints, descriptors) := r in
  let d := set_query gray keypoints descriptors d in
  let n := length (m_patterns d) in
  let d := set_slots (replicate n []) (replicate n false) (replicate n Mat_new) d in
  PatternMatch (m_queryDescriptors d) (seq 0 n) d.

(** Lines 184-196: the three locals of the selection loop. *)
Record Selection : Type := mkSelection {
  homographyFound : bool;
  maxFound : Z;
  maxFoundIdx : Z
}.

Definition selectStep (found : list bool) (matches : list (list DMatch))
  (acc : Selection) (i : nat) : outcome Selection :=
  f <- vec_at found (Z.of_nat i) ;;
  if (f : bool) then
    ms <- vec_at matches (Z.of_nat i) ;;
    if size_t_of_int (maxFound acc) <? vec_size ms
    then Ok (mkSelection true (int_of_size_t (vec_size ms)) (int_of_size_t (Z.of_nat i)))
    else Ok acc
  else Ok acc.

Fixpoint selectLoop (found : list bool) (matches : list (list DMatch))
  (range : list nat) (acc : Selection) : outcome Selection :=
  match range with
  | [] => Ok acc
  | i :: rest =>
      acc' <- selectStep found matches acc i ;;
      selectLoop found matches rest acc'
  end.

Definition selectBest (d : PatternDetector) : outcome Selection :=
  selectLoop (m_matches_homographyFound d) (m_matches d)
    (seq 0 (length (m_patterns d))) (mkSelection false 0 (-1)).

(** Pattern [i] has a homography and [c] matches left. *)
Definition candidate (found : list bool) (matches : list (list DMatch))
  (i : nat) (c : Z) : Prop :=
  found !! i = Some true /\ exists ms, matches !! i = Some ms /\ vec_size ms = c.

(** [i] is the first pattern with a homography and the largest number of
    matches, [c]. *)
Definition first_largest (found : list bool) (matches : list (list DMatch))
  (i : nat) (c : Z) : Prop :=
  candidate found matches i c /\
  (forall j c', candidate found matches j c' -> c' <= c) /\
  (forall j c', (j < i)%nat -> candidate found matches j c' -> c' < c).

(** What the loop has established after the indices below [k]. *)
Definition scanned (found : list bool) (matches : list (list DMatch))
  (k : nat) (acc : Selection) : Prop :=
  0 <= maxFound acc < 2 ^ 31 /\
  (forall j c, (j < k)%nat -> candidate found matches j c -> c <= maxFound acc) /\
  match homographyFound acc with
  | false => maxFound acc = 0 /\ maxFoundIdx acc = -1
  | true =>
      0 < maxFound acc /\
      exists i, (i < k)%nat /\ maxFoundIdx acc = Z.of_nat i /\
                candidate found matches i (maxFound acc) /\
                forall j c, (j < i)%nat -> candidate found matches j c -> c < maxFound acc
  end.

(** Every result slot that reports a homography holds more than 25
    matches. *)
Definition slots_sound (found : list bool) (matches : list (list DMatch)) : Prop :=
  forall i ms, found !! i = Some true -> matches !! i = Some ms -> 25 < vec_size ms.

(** Lines 216-235: warp the frame by the rough homography, extract
    features from the warped view, match them against the winning
    pattern, estimate the refinement homography.  The result is the
    returned [bool] with the new [m_warpedImg] and [m_refinedHomography]. *)
Definition estimateRefinement (maxFoundIdx : Z) (d : PatternDetector)
  : outcome (bool * Mat * Mat) :=
  let warpedImg :=
    warpPerspective (m_grayImg d) (m_roughHomography d) (pattern_size (m_pattern d)) in
  r <- extractFeatures warpedImg [] Mat_new ;;
  let '(_, warpedKeypoints, newQueryDescriptors) := r in
  refinedMatches <- getMatches newQueryDescriptors maxFoundIdx d ;;
  r <- refineMatchesWithHomography warpedKeypoints (pattern_keypoints (m_pattern d))
         (homographyReprojectionThreshold d) refinedMatches (m_refinedHomography d) ;;
  let '(found, _, refinedHomography) := r in
  Ok (found, warpedImg, refinedHomography).

(** [d'] differs from [d] at most in the scratch members of the
    refinement stage: [m_warpedImg], [m_roughHomography],
    [m_refinedHomography] and [m_pattern]. *)
Definition same_but_scratch (d d' : PatternDetector) : Prop :=
  enableRatioTest d' = enableRatioTest d /\
  enableHomographyRefinement d' = enableHomographyRefinement d /\
  homographyReprojectionThreshold d' = homographyReprojectionThreshold d /\
  m_patterns d' = m_patterns d /\
  m_matchers d' = m_matchers d /\
  m_grayImg d' = m_grayImg d /\
  m_queryKeypoints d' = m_queryKeypoints d /\
  m_queryDescriptors d' = m_queryDescriptors d /\
  m_matches d' = m_matches d /\
  m_matches_homographyFound d' = m_matches_homographyFound d /\
  m_matches_homography d' = m_matches_homography d.

(** [a * b] assigned to a [cv::Mat] (line 240).  The product is
    evaluated by [cv::gemm], which checks the type and the dimensions of
    its operands and throws a [cv::Exception] for a matrix without
    entries, as a [cv::Mat] that was never assigned is. *)
Definition Mat_product (a b : Mat) : outcome Mat :=
  if Mat_empty a || Mat_empty b then Fatal CvException else Ok (Mat_mul a b).

(** Lines 202-259, reached when the selection loop found a pattern. *)
Definition reportWinner (sel : Selection) (info : PatternTrackingInfo)
  (d : PatternDetector) : outcome (bool * PatternTrackingInfo * PatternDetector) :=
  rough <- vec_at (m_matches_homography d) (maxFoundIdx sel) ;;
  pattern <- vec_at (m_patterns d) (maxFoundIdx sel) ;;
  let d := set_winner rough pattern d in
  if enableHomographyRefinement d then
    r <- estimateRefinement (maxFoundIdx sel) d ;;
    let '(found, warpedImg, refinedHomography) := r in
    let d := set_refined warpedImg refinedHomography d in
    homography <- Mat_product (m_roughHomography d) (m_refinedHomography d) ;;
    let points2d := perspectiveTransform (pattern_points2d (m_pattern d)) homography in
    Ok (found, mkInfo (maxFoundIdx sel) homography points2d, d)
  else
    let homography := m_roughHomography d in
    let points2d :=
      perspectiveTransform (pattern_points2d (m_pattern d)) (m_roughHomography d) in
    Ok (homographyFound sel, mkInfo (maxFoundIdx sel) homography points2d, d).

Definition findPattern (image : Mat) (info : PatternTrackingInfo)
  (d : PatternDetector) : outcome (bool * PatternTrackingInfo * PatternDetector) :=
  d <- matchStage image d ;;
  sel <- selectBest d ;;
  if negb (homographyFound sel) then Ok (false, info, d)
  else reportWinner sel info d.

End Detector.

(** ** A small concrete OpenCV

    An instance of the interface on which the detector can be run: images
    are lists of feature pixels, descriptors are bytes compared by Hamming
    distance, the homography estimator only ever fits the identity.  It
    serves to run the code on concrete inputs. *)
Module Stub.
Section WithFloat.
Context {F : Type} {FO : FloatOps F}.

Inductive mat : Type :=
| Empty                                                   (* [cv::Mat()] *)
| Image (channels rows cols : Z) (features : list (Z * Z * Z))  (* x, y, code *)
| Descriptors (rows : list Z)
| Homography (word : list Z).

Definition cols (m : mat) : Z :=
  match m with
  | Empty => 0
  | Image _ _ c _ => c
  | Descriptors _ => 1
  | Homography _ => 3
  end.

Definition rows (m : mat) : Z :=
  match m with
  | Empty => 0
  | Image _ r _ _ => r
  | Descriptors ds => Z.of_nat (length ds)
  | Homography _ => 3
  end.

Definition channels (m : mat) : Z :=
  match m with
  | Image ch _ _ _ => ch
  | _ => 1
  end.

Definition empty (m : mat) : bool := (rows m =? 0) || (cols m =? 0).

Definition mul (a b : mat) : mat :=
  match a, b with
  | Homography u, Homography v => Homography (u ++ v)
  | _, _ => Empty
  end.

Definition gray (m : mat) (code : ColorConversionCode) : mat :=
  match m with
  | Image _ r c fs => Image 1 r c fs
  | _ => m
  end.

Definition keypoint_at (f : Z * Z * Z) : KeyPoint (F:=F) :=
  mkKeyPoint (mkPoint2f (of_int (fst (fst f))) (of_int (snd (fst f)))).

Definition keypoints_of (m : mat) : list (KeyPoint (F:=F)) :=
  match m with
  | Image _ _ _ fs => map keypoint_at fs
  | _ => []
  end.

Definition describe (m : mat) (kps : list (KeyPoint (F:=F))) : list KeyPoint * mat :=
  match m with
  | Image _ _ _ fs => (kps, Descriptors (map snd (take (length kps) fs)))
  | _ => (kps, Descriptors [])
  end.

(** Hamming distance of two bytes. *)
Definition hamming (a b : Z) : Z :=
  let x := Z.lxor a b in
  fold_right (fun i n => if Z.testbit x (Z.of_nat i) then n + 1 else n) 0 (seq 0 8).

Fixpoint insert_by_distance (c : Z * Z) (l : list (Z * Z)) : list (Z * Z) :=
  match l with
  | [] => [c]
  | c' :: l' => if snd c <? snd c' then c :: l else c' :: insert_by_distance c l'
  end.

(** Train indices with their distance to [q], nearest first. *)
Definition ranked (train : list Z) (q : Z) : list (Z * Z) :=
  fold_left (fun acc c => insert_by_distance c acc)
    (imap (fun i t => (Z.of_nat i, hamming q t)) train) [].

Definition descriptor_rows (m : mat) : list Z :=
  match m with Descriptors ds => ds | _ => [] end.

Definition knn (train : list mat) (query : mat) (k : Z) : list (list (DMatch (F:=F))) :=
  let ts := concat (map descriptor_rows train) in
  match ts with
  | [] => []
  | _ :: _ =>
      imap (fun i q =>
              map (fun c => mkDMatch (Z.of_nat i) (fst c) 0 (of_int (snd c)))
                (take (Z.to_nat k) (ranked ts q)))
        (descriptor_rows query)
  end.

Definition nearest (train : list mat) (query : mat) : list (DMatch (F:=F)) :=
  concat (map (take 1) (knn train query 1)).

Definition same_point (a b : Point2f (F:=F)) : bool :=
  negb (fltb (p2_x a) (p2_x b)) && negb (fltb (p2_x b) (p2_x a)) &&
  negb (fltb (p2_y a) (p2_y b)) && negb (fltb (p2_y b) (p2_y a)).

Fixpoint identity_mask (src dst : list (Point2f (F:=F))) : list Z :=
  match src with
  | [] => []
  | s :: src' =>
      match dst with
      | [] => 0 :: identity_mask src' []
      | t :: dst' => (if same_point s t then 1 else 0) :: identity_mask src' dst'
      end
  end.

Definition homography (src dst : list (Point2f (F:=F))) (threshold : F) : mat * list Z :=
  let mask := identity_mask src dst in
  let inliers := Z.of_nat (length (filter (fun b => b <> 0) mask)) in
  (if inliers <? 4 then Empty else Homography [inliers], mask).

Definition inside (s : Size) (f : Z * Z * Z) : bool :=
  (0 <=? fst (fst f)) && (fst (fst f) <? width s) &&
  (0 <=? snd (fst f)) && (snd (fst f) <? height s).

Definition warp (m h : mat) (s : Size) : mat :=
  match m with
  | Image ch _ _ fs => Image ch (height s) (width s) (List.filter (inside s) fs)
  | _ => Empty
  end.

Definition transform (pts : list (Point2f (F:=F))) (h : mat) : list Point2f := pts.

#[global] Instance cv : OpenCV (F:=F) (Mat:=mat) := {|
  Mat_new := Empty;
  Mat_cols := cols;
  Mat_rows := rows;
  Mat_channels := channels;
  Mat_empty := empty;
  Mat_eye3 := Homography [];
  Mat_mul := mul;
  cvtColor := gray;
  detect := keypoints_of;
  compute := describe;
  knnMatch := knn;
  matchNearest := nearest;
  findHomography := homography;
  warpPerspective := warp;
  perspectiveTransform := transform
|}.

End WithFloat.
End Stub.

(** ** Geometry of the normalised pattern plane

    Metric notions over rational coordinates, with squared lengths so
    that no square root is needed: a side of length [l] has
    [sqdist = l^2]. *)
Module Plane.

Definition point : Type := Point3f (F:=Q).

Definition sqdist (p q : point) : Q :=
  ((p3_x q - p3_x p) ^ 2 + (p3_y q - p3_y p) ^ 2 + (p3_z q - p3_z p) ^ 2)%Q.

Definition dot (o p q : point) : Q :=
  ((p3_x p - p3_x o) * (p3_x q - p3_x o) +
   (p3_y p - p3_y o) * (p3_y q - p3_y o) +
   (p3_z p - p3_z o) * (p3_z q - p3_z o))%Q.

(** Squared lengths of the sides of the closed polygon [ps]. *)
Definition sides_sq (ps : list point) : list Q :=
  zip_with sqdist ps (rotate 1 ps).

Definition longest_side_sq (ps : list point) : Q :=
  fold_right Qmax 0%Q (sides_sq ps).

Definition on_plane_z0 (ps : list point) : Prop :=
  Forall (fun p => p3_z p == 0)%Q ps.

(** The centroid of the corners is the origin. *)
Definition centred_at_origin (ps : list point) : Prop :=
  (fold_right Qplus 0 (map p3_x ps) == 0 /\
   fold_right Qplus 0 (map p3_y ps) == 0 /\
   fold_right Qplus 0 (map p3_z ps) == 0)%Q.

(** Four corners in order: opposite sides are equal as vectors, adjacent
    sides are perpendicular and not degenerate. *)
Definition rectangle (ps : list point) : Prop :=
  match ps with
  | [p0; p1; p2; p3] =>
      (p3_x p1 - p3_x p0 == p3_x p2 - p3_x p3 /\
       p3_y p1 - p3_y p0 == p3_y p2 - p3_y p3 /\
       p3_z p1 - p3_z p0 == p3_z p2 - p3_z p3 /\
       dot p0 p1 p3 == 0 /\
       0 < sqdist p0 p1 /\ 0 < sqdist p0 p3)%Q
  | _ => False
  end.

(** Width (side [p0 p1]) to height (side [p0 p3]) is [w] to [h]. *)
Definition aspect (ps : list point) (w h : Z) : Prop :=
  match ps with
  | [p0; p1; p2; p3] =>
      (sqdist p0 p1 * inject_Z h ^ 2 == sqdist p0 p3 * inject_Z w ^ 2)%Q
  | _ => False
  end.

(** The same up to a relative error [eps]: with [W] and [H] the sides
    along [x] and [y], [W * h] and [H * w] differ by at most [eps] times
    the larger of the two. *)
Definition aspect_within (eps : Q) (ps : list point) (w h : Z) : Prop :=
  match ps with
  | [p0; p1; p2; p3] =>
      let W := (p3_x p1 - p3_x p0)%Q in
      let H := (p3_y p3 - p3_y p0)%Q in
      (Qabs (W * inject_Z h - H * inject_Z w)
       <= eps * Qmax (W * inject_Z h) (H * inject_Z w))%Q
  | _ => False
  end.

(** The point a stored [cv::Point3f] stands for, and whether its three
    coordinates are numbers. *)
Definition of_binary32 (p : Point3f (F:=Binary32.float)) : point :=
  mkPoint3f (Binary32.to_Q (p3_x p)) (Binary32.to_Q (p3_y p)) (Binary32.to_Q (p3_z p)).

Definition finite (p : Point3f (F:=Binary32.float)) : bool :=
  Binary32.is_finite (p3_x p) && Binary32.is_finite (p3_y p) &&
  Binary32.is_finite (p3_z p).

(** The rectangle with half extents [a] and [b] around the origin. *)
Definition corners (a b : Q) : list point :=
  [mkPoint3f (-a) (-b) (inject_Z 0); mkPoint3f a (-b) (inject_Z 0);
   mkPoint3f a b (inject_Z 0); mkPoint3f (-a) b (inject_Z 0)]%Q.

End Plane.

(** ** Sample inputs *)
Module Sample.

(** [n] feature pixels with pairwise different codes. *)
Definition features (n : nat) : list (Z * Z * Z) :=
  map (fun i => (Z.of_nat i, Z.of_nat (i mod 7) * 3, Z.of_nat i)) (seq 0 n).

(** A 200 x 100 reference image, and a 3 x 7 one. *)
Definition reference : Stub.mat := Stub.Image 1 100 200 (features 30).
Definition narrow : Stub.mat := Stub.Image 1 7 3 [].

(** A 40 x 30 colour frame showing 30 features, and a blank one. *)
Definition frame : Stub.mat := Stub.Image 3 30 40 (features 30).
Definition blank : Stub.mat := Stub.Image 1 30 40 [].

(** A frame with two channels. *)
Definition two_channel : Stub.mat := Stub.Image 2 30 40 (features 30).

Section WithFloat.
Context {F : Type} {FO : FloatOps F}.

Definition info0 : PatternTrackingInfo (F:=F) (Mat:=Stub.mat) :=
  mkInfo 0 Stub.Empty [].

Definition keypoints (n : nat) : list (KeyPoint (F:=F)) :=
  Stub.keypoints_of (Stub.Image 1 30 40 (features n)).

(** A pattern showing the same feature twice: two keypoints with the
    descriptor 5. *)
Definition twins : Pattern (F:=F) (Mat:=Stub.mat) :=
  mkPattern (mkSize 40 30) [] [] (keypoints 2) (Stub.Descriptors [5; 5]).

(** The descriptors of the first [n] features. *)
Definition descriptors (n : nat) : Stub.mat := Stub.Descriptors (map snd (features n)).

(** One query descriptor, equal to both descriptors of [twins]. *)
Definition query5 : Stub.mat := Stub.Descriptors [5].

(** The pattern read off a 40 x 30 image showing the first [n] features. *)
Definition pattern_of (n : nat) : Pattern (F:=F) (Mat:=Stub.mat) :=
  match buildPattern (CV:=Stub.cv) (Stub.Image 1 30 40 (features n)) with
  | Ok p => p
  | Fatal _ => Pattern_new (CV:=Stub.cv)
  end.

(** The same 30 features, registered with a size of 10 x 10. *)
Definition cramped : Pattern (F:=F) (Mat:=Stub.mat) :=
  mkPattern (mkSize 10 10) (pattern_points2d (pattern_of 30))
    (pattern_points3d (pattern_of 30)) (pattern_keypoints (pattern_of 30))
    (pattern_descriptors (pattern_of 30)).

(** A detector trained with four patterns; the second and the third are
    the same. *)
Definition trained (ratioTest : bool) : PatternDetector (F:=F) (Mat:=Stub.mat) :=
  train [pattern_of 28; pattern_of 30; pattern_of 30; pattern_of 10]
    (PatternDetector_new ratioTest).

Definition trained_cramped (ratioTest : bool) : PatternDetector (F:=F) (Mat:=Stub.mat) :=
  train [cramped] (PatternDetector_new ratioTest).

(** [n] correspondences pairing keypoint [i] with keypoint [i], and the
    same with the first two pairs crossed. *)
Definition pairs (n : nat) : list (DMatch (F:=F)) :=
  map (fun i => mkDMatch (Z.of_nat i) (Z.of_nat i) 0 (of_int 0)) (seq 0 n).

Definition crossed (n : nat) : list (DMatch (F:=F)) :=
  mkDMatch 0 1 0 (of_int 0) :: mkDMatch 1 0 0 (of_int 0) :: drop 2 (pairs n).

End WithFloat.

End Sample.

(** The binary32 ratio test on the integer distances [a] and [b] decides
    as the exact comparison [3 a < 2 b] does, for all [a, b <= n]. *)
Definition ratio_decision_agrees (n : nat) : bool :=
  let range := map Z.of_nat (seq 0 (S n)) in
  let threshold := minRatio (F:=Binary32.float) in
  forallb (fun a =>
    forallb (fun b =>
      Bool.eqb (fltb (fdiv (Binary32.of_int a) (Binary32.of_int b)) threshold)
               (3 * a <? 2 * b)) range) range.

(** The concrete OpenCV over binary32 and over exact rationals. *)
Abbreviation cv32 := (Stub.cv (F:=Binary32.float)).

(** * Properties *)

(** ** Generic facts about outcomes and vectors *)

Lemma bind_Ok {A B} (m : outcome A) (k : A -> outcome B) (b : B) :
  bind m k = Ok b -> exists a, m = Ok a /\ k a = Ok b.
Proof. destruct m as [a|w]; simpl; [eauto | discriminate]. Qed.

Lemma vec_at_Ok {A} (v : list A) (i : Z) (a : A) :
  vec_at v i = Ok a <-> 0 <= i /\ v !! Z.to_nat i = Some a.
Proof.
  unfold vec_at. destruct (Z.ltb_spec i 0) as [Hneg|Hpos].
  - split; [discriminate | lia].
  - destruct (v !! Z.to_nat i) as [x|]; split.
    + intros [= ->]. by split.
    + intros [_ [= ->]]. reflexivity.
    + discriminate.
    + intros [_ [=]].
Qed.

Lemma vec_at_nat {A} (v : list A) (i : nat) :
  vec_at v (Z.of_nat i) = match v !! i with Some a => Ok a | None => Fatal OutOfRange end.
Proof.
  unfold vec_at. destruct (Z.ltb_spec (Z.of_nat i) 0); [lia|].
  by rewrite Nat2Z.id.
Qed.

(** ** Pattern registration *)

Section Registration.
Context {F : Type} {FO : FloatOps F} {Mat : Type} {CV : OpenCV (F:=F) (Mat:=Mat)}.

(** The corners [buildPattern] stores, in terms of the image size. *)
Lemma buildPattern_points3d (image : Mat) (p : Pattern (F:=F) (Mat:=Mat)) :
  buildPattern image = Ok p ->
  let w := of_int (Mat_cols image) in
  let h := of_int (Mat_rows image) in
  let unitW := fdiv w (fmax w h) in
  let unitH := fdiv h (fmax w h) in
  pattern_points3d p =
    [mkPoint3f (fneg unitW) (fneg unitH) (of_int 0);
     mkPoint3f unitW (fneg unitH) (of_int 0);
     mkPoint3f unitW unitH (of_int 0);
     mkPoint3f (fneg unitW) unitH (of_int 0)].
Proof.
  unfold buildPattern. intros Hb.
  apply bind_Ok in Hb as ([[b kps] ds] & _ & Hb).
  injection Hb as <-. reflexivity.
Qed.

(** The [i]-th pattern is built from the [i]-th image. *)
Lemma buildPatternsLoop_Forall2 (images : list Mat) (acc patterns : list (Pattern (F:=F) (Mat:=Mat))) :
  buildPatternsLoop images acc = Ok patterns ->
  exists ps, patterns = acc ++ ps /\
             Forall2 (fun image p => buildPattern image = Ok p) images ps.
Proof.
  revert acc. induction images as [|image rest IH]; intros acc; simpl.
  - intros [= <-]. exists []. by rewrite app_nil_r.
  - intros Hb. apply bind_Ok in Hb as (p & Hp & Hb).
    apply IH in Hb as (ps & -> & Hall).
    exists (p :: ps). split; [by rewrite <- app_assoc | by constructor].
Qed.

Lemma buildPatternsFromImages_lookup (images : list Mat) (patterns : list (Pattern (F:=F) (Mat:=Mat)))
  (i : nat) (image : Mat) (p : Pattern (F:=F) (Mat:=Mat)) :
  buildPatternsFromImages images = Ok patterns ->
  images !! i = Some image -> patterns !! i = Some p ->
  buildPattern image = Ok p.
Proof.
  unfold buildPatternsFromImages. intros Hb Hi Hp.
  apply buildPatternsLoop_Forall2 in Hb as (ps & -> & Hall). simpl in Hp.
  eapply Forall2_lookup_lr in Hall; eauto.
Qed.

End Registration.
(** ** Binary32 arithmetic on converted integers *)

Lemma digits2_pos_lower (p : positive) :
  2 ^ (Z.pos (digits2_pos p) - 1) <= Z.pos p.
Proof.
  induction p as [p IH|p IH|]; simpl digits2_pos.
  - rewrite Pos2Z.inj_succ. replace (Z.succ (Z.pos (digits2_pos p)) - 1)
      with (Z.succ (Z.pos (digits2_pos p) - 1)) by lia.
    rewrite Z.pow_succ_r by lia. lia.
  - rewrite Pos2Z.inj_succ. replace (Z.succ (Z.pos (digits2_pos p)) - 1)
      with (Z.succ (Z.pos (digits2_pos p) - 1)) by lia.
    rewrite Z.pow_succ_r by lia. lia.
  - simpl. lia.
Qed.

Lemma digits2_pos_upper (p : positive) :
  Z.pos p < 2 ^ Z.pos (digits2_pos p).
Proof.
  induction p as [p IH|p IH|]; simpl digits2_pos.
  - rewrite Pos2Z.inj_succ, Z.pow_succ_r by lia. lia.
  - rewrite Pos2Z.inj_succ, Z.pow_succ_r by lia. lia.
  - simpl. lia.
Qed.

(** The number of binary digits of [p] is [n] exactly when [p] lies in [2^(n-1), 2^n). *)
Lemma digits2_pos_eq (p : positive) (n : Z) :
  2 ^ (n - 1) <= Z.pos p < 2 ^ n -> Z.pos (digits2_pos p) = n.
Proof.
  intros [Hl Hu].
  pose proof (digits2_pos_lower p) as Hl'. pose proof (digits2_pos_upper p) as Hu'.
  assert (0 < n).
  { destruct (Z.lt_ge_cases 0 n); [assumption|].
    assert (2 ^ n <= 2 ^ 0) by (destruct (Z.eq_dec n 0) as [->|]; [lia|rewrite Z.pow_neg_r by lia; lia]).
    simpl in *. lia. }
  assert (Z.pos (digits2_pos p) - 1 < n).
  { apply (Z.pow_lt_mono_r_iff 2); lia. }
  assert (n - 1 < Z.pos (digits2_pos p)).
  { apply (Z.pow_lt_mono_r_iff 2); lia. }
  lia.
Qed.

Lemma digits2_pos_bounds (p : positive) (n : Z) :
  Z.pos (digits2_pos p) = n -> 2 ^ (n - 1) <= Z.pos p < 2 ^ n.
Proof.
  intros <-. split; [apply digits2_pos_lower | apply digits2_pos_upper].
Qed.

(** Where the remainder [r] of a division by [b] lies. *)
Lemma new_location_spec (b r : Z) :
  0 <= r < b ->
  match new_location b r with
  | loc_Exact => r = 0
  | loc_Inexact Lt => 0 < r /\ 2 * r < b
  | loc_Inexact Eq => 2 * r = b
  | loc_Inexact Gt => b < 2 * r
  end.
Proof.
  intros Hr. unfold new_location, new_location_even, new_location_odd.
  destruct (Z.even b) eqn:Hev.
  - destruct (Z.eqb_spec r 0); [assumption|].
    destruct (Z.compare_spec (2 * r) b); lia.
  - destruct (Z.eqb_spec r 0); [assumption|].
    assert (Hodd : Z.odd b = true) by (rewrite <- Z.negb_even, Hev; reflexivity).
    apply Z.odd_spec in Hodd as [k Hk].
    destruct (Z.compare_spec (2 * r + 1) b); lia.
Qed.

Lemma shr_1_pos (m : positive) (r s : bool) :
  shr_1 (Build_shr_record (Z.pos m) r s)
  = Build_shr_record (Z.pos m / 2) (Z.odd (Z.pos m)) (r || s).
Proof.
  destruct m as [p|p|]; cbn [shr_1 Z.odd].
  - f_equal. rewrite Pos2Z.inj_xI. apply Z.div_unique with 1; lia.
  - f_equal. rewrite Pos2Z.inj_xO. apply Z.div_unique with 0; lia.
  - reflexivity.
Qed.

(** Division of two positive binary32 numbers with full 24-bit
    mantissas: the quotient is finite, positive, and correctly rounded. *)
Lemma SFdiv_normal (mx my : positive) (ex ey : Z) :
  Z.pos (digits2_pos mx) = 24 -> Z.pos (digits2_pos my) = 24 ->
  -23 <= ex <= 0 -> -23 <= ey <= 0 ->
  exists (m : positive) (e v u : Z),
    Binary32.div (S754_finite false mx ex) (S754_finite false my ey)
    = S754_finite false m e /\
    ex - ey - 24 <= e /\
    Z.pos m * 2 ^ (e - (ex - ey - 24)) = v * u /\
    (u = 1 \/ u = 2) /\
    2 * Z.abs (v * u * Z.pos my - Z.pos mx * 2 ^ 24) <= u * Z.pos my /\
    u * Z.pos my <= 2 * Z.pos mx.
Proof.
  intros Hdx Hdy Hex Hey.
  apply digits2_pos_bounds in Hdx as Hbx. apply digits2_pos_bounds in Hdy as Hby.
  change (2 ^ (24 - 1)) with 8388608 in *. change (2 ^ 24) with 16777216 in *.
  unfold Binary32.div, Binary32.prec, Binary32.emax, SFdiv, SFdiv_core_binary, Zdigits2.
  rewrite Hdx, Hdy.
  unfold fexp, emin.
  replace (Z.min (Z.max (24 + ex - (24 + ey) - 24) (3 - 128 - 24)) (ex - ey))
    with (ex - ey - 24) by lia.
  replace (ex - ey - (ex - ey - 24)) with 24 by lia.
  cbv iota beta. rewrite Z.shiftl_mul_pow2 by lia. change (2 ^ 24) with 16777216.
  pose proof (Z.div_eucl_eq (Z.pos mx * 16777216) (Z.pos my) ltac:(lia)) as Heq.
  pose proof (Z.mod_pos_bound (Z.pos mx * 16777216) (Z.pos my) ltac:(lia)) as Hrb.
  unfold Z.modulo in Hrb.
  destruct (Z.div_eucl (Z.pos mx * 16777216) (Z.pos my)) as [q r].
  assert (Hq : 8388608 <= q < 33554432) by nia.
  pose proof (new_location_spec (Z.pos my) r Hrb) as Hloc.
  set (e0 := ex - ey - 24) in *.
  set (l := new_location (Z.pos my) r) in *. clearbody l.
  destruct q as [|q|q]; try lia.
  assert (Hrec_m : forall m, shr_m (shr_record_of_loc m l) = m)
    by (intros; destruct l as [|[]]; reflexivity).
  assert (Hrec_l : forall m, loc_of_shr_record (shr_record_of_loc m l) = l)
    by (intros; destruct l as [|[]]; reflexivity).
  destruct (Z.lt_ge_cases (Z.pos q) 16777216) as [Hlt|Hge].
  - assert (Hdq : Z.pos (digits2_pos q) = 24)
      by (apply digits2_pos_eq; change (2 ^ (24 - 1)) with 8388608;
          change (2 ^ 24) with 16777216; lia).
    unfold binary_round_aux, shr_fexp, Zdigits2. rewrite Hdq. unfold fexp, emin.
    replace (Z.max (24 + e0 - 24) (3 - 128 - 24) - e0) with 0 by lia.
    cbn [shr]. rewrite Hrec_m, Hrec_l.
    set (m1 := round_nearest_even (Z.pos q) l).
    assert (Hm1 : (m1 = Z.pos q \/ m1 = Z.pos q + 1) /\
                  2 * Z.abs (m1 * Z.pos my - Z.pos mx * 16777216) <= Z.pos my).
    { subst m1. unfold round_nearest_even.
      destruct l as [|[]]; [| destruct (Z.even (Z.pos q)) | |]; split; auto; lia. }
    destruct Hm1 as [Hm1 Herr]. clearbody m1.
    destruct m1 as [|m1|m1]; try lia.
    destruct (Z.lt_ge_cases (Z.pos m1) 16777216) as [Hlt1|Hge1].
    + assert (Hd1 : Z.pos (digits2_pos m1) = 24)
        by (apply digits2_pos_eq; change (2 ^ (24 - 1)) with 8388608;
            change (2 ^ 24) with 16777216; lia).
      rewrite Hd1.
      replace (Z.max (24 + e0 - 24) (3 - 128 - 24) - e0) with 0 by lia.
      cbn [shr shr_record_of_loc shr_m].
      destruct (Z.leb_spec e0 (128 - 24)); [|lia].
      exists m1, e0, (Z.pos m1), 1. split; [reflexivity|].
      split; [lia|]. replace (e0 - e0) with 0 by lia. 
      split; [simpl; lia|]. split; [by left|]. split; lia.
    + assert (Hm16 : m1 = 16777216%positive) by lia. subst m1.
      change (Z.pos (digits2_pos 16777216)) with 25.
      replace (Z.max (25 + e0 - 24) (3 - 128 - 24) - e0) with 1 by lia.
      cbn [shr shr_record_of_loc iter_pos shr_1 shr_m].
      destruct (Z.leb_spec (e0 + 1) (128 - 24)); [|lia].
      exists 8388608%positive, (e0 + 1), 16777216, 1. split; [reflexivity|].
      split; [lia|]. replace (e0 + 1 - e0) with 1 by lia.
      split; [reflexivity|]. split; [by left|]. split; lia.
  - assert (Hdq : Z.pos (digits2_pos q) = 25)
      by (apply digits2_pos_eq; change (2 ^ (25 - 1)) with 16777216;
          change (2 ^ 25) with 33554432; lia).
    unfold binary_round_aux, shr_fexp, Zdigits2. rewrite Hdq. unfold fexp, emin.
    replace (Z.max (25 + e0 - 24) (3 - 128 - 24) - e0) with 1 by lia.
    cbn [shr iter_pos].
    assert (Hxy : Z.pos my <= Z.pos mx) by nia.
    assert (Hrec : exists rb sb,
               shr_record_of_loc (Z.pos q) l = Build_shr_record (Z.pos q) rb sb /\
               (rb || sb = false -> r = 0) /\ (rb || sb = true -> 0 < r)).
    { destruct l as [|[]]; do 2 eexists; (split; [reflexivity|]);
        split; intros; try discriminate; lia. }
    destruct Hrec as (rb & sb & -> & Hst0 & Hst1). rewrite shr_1_pos.
    cbn [shr_m loc_of_shr_record].
    assert (Hq2 : Z.pos q = 2 * (Z.pos q / 2) + (if Z.odd (Z.pos q) then 1 else 0)).
    { pose proof (Z.div_mod (Z.pos q) 2 ltac:(lia)) as Hdm.
      pose proof (Zmod_odd (Z.pos q)) as Hmo. destruct (Z.odd (Z.pos q)); lia. }
    set (q2 := Z.pos q / 2) in *. clearbody q2.
    set (m1 := round_nearest_even q2 _).
    assert (Hm1 : (m1 = q2 \/ m1 = q2 + 1) /\
                  2 * Z.abs (m1 * 2 * Z.pos my - Z.pos mx * 16777216) <= 2 * Z.pos my).
    { subst m1. unfold round_nearest_even. revert Hq2 Hst0 Hst1.
      destruct (Z.odd (Z.pos q)), (rb || sb); intros Hq2 Hst0 Hst1;
        [specialize (Hst1 eq_refl) | specialize (Hst0 eq_refl)
         | specialize (Hst1 eq_refl) | specialize (Hst0 eq_refl)];
        cbn [loc_of_shr_record]; [| destruct (Z.even q2) | |];
        (split; [auto|]); rewrite Heq, Hq2; lia. }
    destruct Hm1 as [Hm1 Herr]. clearbody m1.
    assert (Hq2b : 8388608 <= q2 < 16777216) by (destruct (Z.odd (Z.pos q)); lia).
    destruct m1 as [|m1|m1]; try lia.
    destruct (Z.lt_ge_cases (Z.pos m1) 16777216) as [Hlt1|Hge1].
    + assert (Hd1 : Z.pos (digits2_pos m1) = 24)
        by (apply digits2_pos_eq; change (2 ^ (24 - 1)) with 8388608;
            change (2 ^ 24) with 16777216; lia).
      rewrite Hd1.
      replace (Z.max (24 + (e0 + 1) - 24) (3 - 128 - 24) - (e0 + 1)) with 0 by lia.
      cbn [shr shr_record_of_loc shr_m].
      destruct (Z.leb_spec (e0 + 1) (128 - 24)); [|lia].
      exists m1, (e0 + 1), (Z.pos m1), 2. split; [reflexivity|].
      split; [lia|]. replace (e0 + 1 - e0) with 1 by lia.
      split; [reflexivity|]. split; [by right|]. split; lia.
    + assert (Hm16 : m1 = 16777216%positive) by lia. subst m1.
      change (Z.pos (digits2_pos 16777216)) with 25.
      replace (Z.max (25 + (e0 + 1) - 24) (3 - 128 - 24) - (e0 + 1)) with 1 by lia.
      cbn [shr shr_record_of_loc iter_pos shr_1 shr_m].
      destruct (Z.leb_spec (e0 + 1 + 1) (128 - 24)); [|lia].
      exists 8388608%positive, (e0 + 1 + 1), 16777216, 2. split; [reflexivity|].
      split; [lia|]. replace (e0 + 1 + 1 - e0) with 2 by lia.
      split; [reflexivity|]. split; [by right|]. split; lia.
Qed.


(** Any finite binary32 number divided by itself is exactly [1.0f]. *)
Lemma Binary32_div_self (s : bool) (m : positive) (e : Z) :
  Binary32.div (S754_finite s m e) (S754_finite s m e) = S754_finite false 8388608 (-23).
Proof.
  unfold Binary32.div, SFdiv, SFdiv_core_binary.
  rewrite Z.sub_diag. rewrite Z.sub_diag.
  change (Z.min (fexp Binary32.prec Binary32.emax 0) 0) with (-24).
  change (0 - -24) with 24.
  cbv iota beta.
  assert (Hd : Z.div_eucl (Z.shiftl (Z.pos m) 24) (Z.pos m) = (16777216, 0)).
  { rewrite Z.shiftl_mul_pow2 by lia.
    pose proof (Z.div_eucl_eq (Z.pos m * 2 ^ 24) (Z.pos m) ltac:(lia)) as Heq.
    pose proof (Z.mod_pos_bound (Z.pos m * 2 ^ 24) (Z.pos m) ltac:(lia)) as Hb.
    unfold Z.modulo in Hb.
    destruct (Z.div_eucl (Z.pos m * 2 ^ 24) (Z.pos m)) as [q r].
    assert (q = 2 ^ 24) by nia. assert (r = 0) by nia. by subst. }
  rewrite Hd. unfold new_location.
  destruct (Z.even (Z.pos m)); destruct s; reflexivity.
Qed.


Lemma Pos_iter_xO (p k : positive) :
  Z.pos (Pos.iter xO p k) = Z.pos p * 2 ^ Z.pos k.
Proof.
  induction k as [|k IH] using Pos.peano_ind.
  - simpl. lia.
  - rewrite Pos.iter_succ, Pos2Z.inj_xO, IH, Pos2Z.inj_succ, Z.pow_succ_r by lia. lia.
Qed.

Lemma digits2_pos_iter_xO (p k : positive) :
  digits2_pos (Pos.iter xO p k) = (digits2_pos p + k)%positive.
Proof.
  induction k as [|k IH] using Pos.peano_ind.
  - simpl. lia.
  - rewrite Pos.iter_succ. simpl. rewrite IH. lia.
Qed.

(** An integer below [2^24] converts to a normal number with the same value. *)
Lemma Binary32_of_int_normal (z : Z) :
  0 < z < 2 ^ 24 ->
  exists m e, Binary32.of_int z = S754_finite false m e /\
              Z.pos (digits2_pos m) = 24 /\ -23 <= e <= 0 /\
              Z.pos m = z * 2 ^ (- e).
Proof.
  intros Hz. destruct z as [|p|p]; try lia.
  assert (Hd : 0 < Z.pos (digits2_pos p) <= 24).
  { pose proof (digits2_pos_lower p) as Hl. split; [lia|].
    destruct (Z.le_gt_cases (Z.pos (digits2_pos p)) 24) as [|Hgt]; [assumption|].
    assert (2 ^ 24 <= 2 ^ (Z.pos (digits2_pos p) - 1)) by (apply Z.pow_le_mono_r; lia).
    lia. }
  unfold Binary32.of_int, binary_normalize, binary_round.
  assert (Hal : exists mz ez, shl_align p 0 (fexp Binary32.prec Binary32.emax
                                              (Z.pos (digits2_pos p) + 0)) = (mz, ez) /\
                              Z.pos (digits2_pos mz) = 24 /\ -23 <= ez <= 0 /\
                              Z.pos mz = Z.pos p * 2 ^ (- ez)).
  { unfold shl_align, fexp, emin, Binary32.prec, Binary32.emax.
    rewrite Z.add_0_r, Z.sub_0_r. rewrite Z.max_l by lia.
    destruct (Z.pos (digits2_pos p) - 24) as [|k|k] eqn:Hk.
    - exists p, 0. repeat split; simpl; lia.
    - lia.
    - exists (Pos.iter xO p k), (Z.neg k). split; [reflexivity|].
      rewrite digits2_pos_iter_xO, Pos_iter_xO. repeat split; lia. }
  destruct Hal as (mz & ez & -> & Hmz & Hez & Hval).
  unfold binary_round_aux, shr_fexp, Zdigits2. rewrite Hmz.
  unfold fexp, emin, Binary32.prec, Binary32.emax.
  replace (Z.max (24 + ez - 24) (3 - 128 - 24) - ez) with 0 by lia.
  cbn [shr shr_record_of_loc shr_m loc_of_shr_record round_nearest_even Zdigits2].
  rewrite Hmz.
  replace (Z.max (24 + ez - 24) (3 - 128 - 24) - ez) with 0 by lia.
  cbn [shr shr_m].
  destruct (Z.leb_spec ez (128 - 24)); [|lia].
  exists mz, ez. split; [reflexivity|]. split; [exact Hmz|]. split; [exact Hez | exact Hval].
Qed.

(** Comparison of converted integers is comparison of the integers. *)
Lemma Binary32_ltb_of_int (a b : Z) :
  0 < a < 2 ^ 24 -> 0 < b < 2 ^ 24 ->
  Binary32.ltb (Binary32.of_int a) (Binary32.of_int b) = (a <? b).
Proof.
  intros Ha Hb.
  destruct (Binary32_of_int_normal a Ha) as (ma & ea & -> & Hda & Hea & Hva).
  destruct (Binary32_of_int_normal b Hb) as (mb & eb & -> & Hdb & Heb & Hvb).
  apply digits2_pos_bounds in Hda, Hdb.
  change (2 ^ (24 - 1)) with 8388608 in *. change (2 ^ 24) with 16777216 in *.
  unfold Binary32.ltb, SFltb, SFcompare.
  assert (Hpow : forall s t, 0 <= s < t -> 2 * 2 ^ s <= 2 ^ t).
  { intros s t Hst. rewrite <- Z.pow_succ_r by lia. apply Z.pow_le_mono_r; lia. }
  assert (Hpa : 0 < 2 ^ (- ea)) by (apply Z.pow_pos_nonneg; lia).
  assert (Hpb : 0 < 2 ^ (- eb)) by (apply Z.pow_pos_nonneg; lia).
  destruct (Z.compare_spec ea eb) as [E|L|G].
  - subst eb. change (Pos.compare_cont Eq ma mb) with (Z.pos ma ?= Z.pos mb).
    destruct (Z.compare_spec (Z.pos ma) (Z.pos mb)); destruct (Z.ltb_spec a b); try reflexivity; nia.
  - pose proof (Hpow (- eb) (- ea) ltac:(lia)).
    destruct (Z.ltb_spec a b); [reflexivity | nia].
  - pose proof (Hpow (- ea) (- eb) ltac:(lia)).
    destruct (Z.ltb_spec a b); [nia | reflexivity].
Qed.

Lemma Qpow2_pos (e : Z) : (0 < 2 ^ e)%Q.
Proof. by apply Qpower_0_lt. Qed.

Lemma Qpow2_add (a b : Z) : (2 ^ (a + b) == 2 ^ a * 2 ^ b)%Q.
Proof. apply Qpower_plus. discriminate. Qed.

Lemma Qpow2_inject (n : Z) : 0 <= n -> (2 ^ n == inject_Z (2 ^ n))%Q.
Proof. intros Hn. by rewrite Zpower_Qpower. Qed.

(** The quotient of two converted integers is the binary32 number
    nearest to the exact quotient: positive, at most [1] when the
    quotient is, and off by at most [2^-24] of it. *)
Lemma Binary32_div_of_int (a b : Z) :
  0 < a < 2 ^ 24 -> 0 < b < 2 ^ 24 ->
  exists m e,
    Binary32.div (Binary32.of_int a) (Binary32.of_int b) = S754_finite false m e /\
    (0 < Binary32.to_Q (S754_finite false m e))%Q /\
    (a <= b -> (Binary32.to_Q (S754_finite false m e) <= 1)%Q) /\
    (Qabs (Binary32.to_Q (S754_finite false m e) - inject_Z a / inject_Z b)
     <= (inject_Z a / inject_Z b) * (1 # 16777216))%Q.
Proof.
  intros Ha Hb.
  destruct (Binary32_of_int_normal a Ha) as (ma & ea & -> & Hda & Hea & Hva).
  destruct (Binary32_of_int_normal b Hb) as (mb & eb & -> & Hdb & Heb & Hvb).
  destruct (SFdiv_normal ma mb ea eb Hda Hdb Hea Heb)
    as (m & e & v & u & Hdiv & He & Hv & Hu & Herr & Hmag).
  exists m, e. split; [exact Hdiv|].
  cbn [Binary32.to_Q].
  set (e0 := ea - eb - 24) in *.
  pose proof (Qpow2_pos e) as Hpe. pose proof (Qpow2_pos ea) as Hpa.
  pose proof (Qpow2_pos eb) as Hpb. pose proof (Qpow2_pos e0) as Hp0.
  assert (HM : (0 < inject_Z (Z.pos m))%Q) by (rewrite <- (Zlt_Qlt 0); lia).
  assert (HA : (inject_Z a == inject_Z (Z.pos ma) * 2 ^ ea)%Q).
  { rewrite Hva, inject_Z_mult, <- Qpow2_inject by lia.
    rewrite <- Qmult_assoc, <- Qpow2_add. replace (- ea + ea) with 0 by lia.
    simpl. ring. }
  assert (HB : (inject_Z b == inject_Z (Z.pos mb) * 2 ^ eb)%Q).
  { rewrite Hvb, inject_Z_mult, <- Qpow2_inject by lia.
    rewrite <- Qmult_assoc, <- Qpow2_add. replace (- eb + eb) with 0 by lia.
    simpl. ring. }
  assert (HX : (inject_Z (Z.pos m) * 2 ^ e == inject_Z (v * u) * 2 ^ e0)%Q).
  { rewrite <- Hv, inject_Z_mult, <- Qpow2_inject by lia.
    rewrite <- Qmult_assoc, <- Qpow2_add. replace (e - e0 + e0) with e by lia.
    reflexivity. }
  assert (HE0 : (2 ^ e0 * (2 ^ eb * inject_Z 16777216) == 2 ^ ea)%Q).
  { change (inject_Z 16777216) with (inject_Z (2 ^ 24)).
    rewrite <- Qpow2_inject, <- !Qpow2_add by lia.
    replace (e0 + (eb + 24)) with ea by lia. reflexivity. }
  assert (HMB : (0 < inject_Z (Z.pos mb))%Q) by (rewrite <- (Zlt_Qlt 0); lia).
  split; [by apply Qmult_lt_0_compat|].
  split.
  - intros Hab. rewrite HX.
    assert (HV : v * u <= 2 ^ (- e0)).
    { assert (Hsplit : 2 ^ (- eb) * 2 ^ (- e0) = 2 ^ (- ea) * 2 ^ 24).
      { rewrite <- !Z.pow_add_r by lia. f_equal. lia. }
      assert (Heven : 2 ^ (- e0) = 2 * 2 ^ (- e0 - 1)).
      { rewrite <- Z.pow_succ_r by lia. f_equal. lia. }
      assert (Hpa' : 0 < 2 ^ (- ea)) by (apply Z.pow_pos_nonneg; lia).
      assert (Hpb' : 0 < 2 ^ (- eb)) by (apply Z.pow_pos_nonneg; lia).
      assert (Hle : Z.pos ma * 2 ^ 24 <= Z.pos mb * 2 ^ (- e0)).
      { rewrite Hva, Hvb. rewrite <- (Z.mul_assoc b), Hsplit. nia. }
      set (P := 2 ^ (- e0)) in *. set (P' := 2 ^ (- e0 - 1)) in *.
      clearbody P P'.
      assert (H2 : 2 * (v * u) * Z.pos mb <= (2 * P + u) * Z.pos mb) by lia.
      assert (H3 : 2 * (v * u) <= 2 * P + u) by nia.
      destruct Hu as [-> | ->]; lia. }
    rewrite Zle_Qle in HV. rewrite <- Qpow2_inject in HV by lia.
    apply Qle_trans with (2 ^ (- e0) * 2 ^ e0)%Q.
    + apply Qmult_le_compat_r; [exact HV | by apply Qlt_le_weak].
    + rewrite <- Qpow2_add. replace (- e0 + e0) with 0 by lia. simpl. lra.
  - change (2 ^ 24) with 16777216 in *.
    assert (Ht1 : (- inject_Z (Z.pos ma)
                   <= inject_Z (v * u) * inject_Z (Z.pos mb)
                      + - (inject_Z (Z.pos ma) * inject_Z 16777216))%Q).
    { rewrite <- !inject_Z_mult, <- !inject_Z_opp, <- inject_Z_plus, <- Zle_Qle. lia. }
    assert (Ht2 : (inject_Z (v * u) * inject_Z (Z.pos mb)
                   + - (inject_Z (Z.pos ma) * inject_Z 16777216)
                   <= inject_Z (Z.pos ma))%Q).
    { rewrite <- !inject_Z_mult, <- !inject_Z_opp, <- inject_Z_plus, <- Zle_Qle. lia. }
    rewrite HX, HA, HB, <- HE0.
    set (VQ := inject_Z (v * u)) in *. set (MA := inject_Z (Z.pos ma)) in *.
    set (MB := inject_Z (Z.pos mb)) in *. set (K := inject_Z 16777216) in *.
    set (p0 := (2 ^ e0)%Q) in *. set (pb := (2 ^ eb)%Q) in *.
    assert (HK : (K == 16777216)%Q) by reflexivity.
    assert (HMA : (0 < MA)%Q) by (subst MA; rewrite <- (Zlt_Qlt 0); lia).
    assert (E1 : (VQ * p0 - MA * (p0 * (pb * K)) / (MB * pb)
                  == p0 / MB * (VQ * MB + - (MA * K)))%Q) by (field; lra).
    assert (E2 : (MA * (p0 * (pb * K)) / (MB * pb) * (1 # 16777216)
                  == p0 / MB * MA)%Q).
    { setoid_replace (1 # 16777216)%Q with (/ K)%Q using relation Qeq by reflexivity.
      field. lra. }
    rewrite E1, E2.
    assert (Hc : (0 < p0 / MB)%Q) by (apply Qlt_shift_div_l; lra).
    set (c := (p0 / MB)%Q) in *. set (t := (VQ * MB + - (MA * K))%Q) in *.
    apply Qabs_Qle_condition. split.
    + setoid_replace (- (c * MA))%Q with (c * - MA)%Q using relation Qeq by ring.
      apply Qmult_le_l; assumption.
    + apply Qmult_le_l; assumption.
Qed.
(** ** The normalised pattern plane *)

Lemma longest_side_sq_corners (a b : Q) :
  (0 < a -> 0 < b -> a <= 1 -> b <= 1 -> a == 1 \/ b == 1 ->
   Plane.longest_side_sq (Plane.corners a b) == 4)%Q.
Proof.
  intros Ha Hb Ha1 Hb1 Hab.
  unfold Plane.longest_side_sq, Plane.sides_sq, Plane.corners, Plane.sqdist.
  cbn [rotate zip_with fold_right p3_x p3_y p3_z length Nat.modulo drop take app].
  simpl.
  assert (Ea : ((a - - a) ^ 2 + (- b - - b) ^ 2 + (inject_Z 0 - inject_Z 0) ^ 2 == 4 * (a * a))%Q) by (simpl; ring).
  assert (Eb : ((a - a) ^ 2 + (b - - b) ^ 2 + (inject_Z 0 - inject_Z 0) ^ 2 == 4 * (b * b))%Q) by (simpl; ring).
  assert (Ec : ((- a - a) ^ 2 + (b - b) ^ 2 + (inject_Z 0 - inject_Z 0) ^ 2 == 4 * (a * a))%Q) by (simpl; ring).
  assert (Ed : ((- a - - a) ^ 2 + (- b - b) ^ 2 + (inject_Z 0 - inject_Z 0) ^ 2 == 4 * (b * b))%Q) by (simpl; ring).
  assert (Haa : (a * a <= 1)%Q) by nra.
  assert (Hbb : (b * b <= 1)%Q) by nra.
  assert (Hone : (a * a == 1 \/ b * b == 1)%Q) by (destruct Hab as [E|E]; [left|right]; rewrite E; reflexivity).
  assert (Hpa : (0 < a * a)%Q) by nra.
  assert (Hpb : (0 < b * b)%Q) by nra.
  simpl in Ea, Eb, Ec, Ed.
  repeat match goal with
         | |- context [Qmax ?x ?y] =>
             let H := fresh "Hmax" in
             pose proof (Q.max_spec x y) as H; revert H;
             generalize (Qmax x y); intros ?
         end.
  intros. destruct Hone; lra.
Qed.

Lemma corners_geometry (a b : Q) :
  (0 < a -> 0 < b ->
   Plane.on_plane_z0 (Plane.corners a b) /\ Plane.rectangle (Plane.corners a b) /\
   Plane.centred_at_origin (Plane.corners a b))%Q.
Proof.
  intros Ha Hb. unfold Plane.corners. split; [|split].
  - repeat constructor.
  - unfold Plane.rectangle, Plane.dot, Plane.sqdist. cbn [p3_x p3_y p3_z].
    repeat split; simpl; try ring; nra.
  - unfold Plane.centred_at_origin. simpl. repeat split; ring.
Qed.

(** An extent that is within [eps] of its ideal value, relative to it,
    next to an extent that is exact. *)
Lemma corners_aspect_within (eps a b : Q) (w h : Z) :
  0 < w -> 0 < h ->
  (0 <= eps ->
   (a == 1 /\ Qabs (b - inject_Z h / inject_Z w) <= inject_Z h / inject_Z w * eps) \/
   (b == 1 /\ Qabs (a - inject_Z w / inject_Z h) <= inject_Z w / inject_Z h * eps) ->
   Plane.aspect_within eps (Plane.corners a b) w h)%Q.
Proof.
  intros Hw Hh Heps Hab.
  assert (HW : (0 < inject_Z w)%Q) by (rewrite <- (Zlt_Qlt 0); lia).
  assert (HH : (0 < inject_Z h)%Q) by (rewrite <- (Zlt_Qlt 0); lia).
  unfold Plane.aspect_within, Plane.corners. cbn [p3_x p3_y]. cbv zeta.
  set (W := inject_Z w) in *. set (H := inject_Z h) in *.
  assert (Hscale : forall x y z : Q, (0 < z -> Qabs (x - y / z) <= y / z * eps ->
                                      Qabs (x * z - y) <= y * eps)%Q).
  { intros x y z Hz Hb. apply Qabs_Qle_condition in Hb as [Hb1 Hb2].
    apply Qabs_Qle_condition.
    assert (E1 : (x * z - y == (x - y / z) * z)%Q) by (field; lra).
    assert (E2 : (y * eps == y / z * eps * z)%Q) by (field; lra).
    rewrite E1, E2. split.
    - setoid_replace (- (y / z * eps * z))%Q with (- (y / z * eps) * z)%Q
        using relation Qeq by ring.
      apply Qmult_le_compat_r; [assumption | lra].
    - apply Qmult_le_compat_r; [assumption | lra]. }
  destruct Hab as [[Ea Hb]|[Eb Ha]].
  - apply Hscale in Hb; [|assumption].
    apply Qabs_Qle_condition in Hb as [Hb1 Hb2].
    apply Qle_trans with (eps * ((a - - a) * H))%Q.
    + apply Qabs_Qle_condition. rewrite Ea. split; nra.
    + rewrite (Qmult_comm eps ((a - - a) * H)), (Qmult_comm eps (Qmax _ _)).
      apply Qmult_le_compat_r; [apply Q.le_max_l | assumption].
  - apply Hscale in Ha; [|assumption].
    apply Qabs_Qle_condition in Ha as [Ha1 Ha2].
    apply Qle_trans with (eps * ((b - - b) * W))%Q.
    + apply Qabs_Qle_condition. rewrite Eb. split; nra.
    + rewrite (Qmult_comm eps ((b - - b) * W)), (Qmult_comm eps (Qmax _ _)).
      apply Qmult_le_compat_r; [apply Q.le_max_r | assumption].
Qed.

Lemma Binary32_to_Q_opp (m : positive) (e : Z) :
  Binary32.to_Q (S754_finite true m e) = (- Binary32.to_Q (S754_finite false m e))%Q.
Proof.
  cbn [Binary32.to_Q]. unfold Qmult, Qopp, inject_Z. cbn [Qnum Qden].
  f_equal. by destruct (Qnum (2 ^ e)).
Qed.

Lemma Binary32_to_Q_one : (Binary32.to_Q (S754_finite false 8388608 (-23)) == 1)%Q.
Proof. reflexivity. Qed.

(** The stored corners, as points of the plane. *)
Lemma corners_of_binary32 (mu mv : positive) (eu ev : Z) :
  let U := S754_finite false mu eu in
  let V := S754_finite false mv ev in
  map Plane.of_binary32
    [mkPoint3f (fneg U) (fneg V) (of_int 0); mkPoint3f U (fneg V) (of_int 0);
     mkPoint3f U V (of_int 0); mkPoint3f (fneg U) V (of_int 0)]
  = Plane.corners (Binary32.to_Q U) (Binary32.to_Q V).
Proof.
  cbv zeta. unfold Plane.corners, Plane.of_binary32.
  cbn [map p3_x p3_y p3_z fneg binary32_ops Binary32.neg SFopp negb].
  rewrite !Binary32_to_Q_opp. reflexivity.
Qed.

(** C1 (as amended).  Every pattern built by [buildPatternsFromImages]
    from a [w] by [h] image, with [w] and [h] positive and below [2^24]
    (the integers a [float] holds exactly), has four [points3d] corners
    whose coordinates are finite binary32 numbers.  As points they lie on
    the plane [z = 0] and form a rectangle centred at the origin.  Its
    longest side has length exactly 2 (squared length 4): it is the
    longest half side, from the centre to an edge, that is scaled to unit
    length.  Its sides are as [w] is to [h] up to the rounding of one
    binary32 division: a relative error of at most [2^-24]. *)
Theorem points3d_normalised_plane {Mat : Type} {CV : OpenCV (F:=Binary32.float) (Mat:=Mat)}
  (images : list Mat) (patterns : list (Pattern (F:=Binary32.float) (Mat:=Mat)))
  (i : nat) (image : Mat) (p : Pattern (F:=Binary32.float) (Mat:=Mat)) :
  buildPatternsFromImages images = Ok patterns ->
  images !! i = Some image -> patterns !! i = Some p ->
  0 < Mat_cols image < 2 ^ 24 -> 0 < Mat_rows image < 2 ^ 24 ->
  forallb Plane.finite (pattern_points3d p) = true /\
  let corners := map Plane.of_binary32 (pattern_points3d p) in
  Plane.on_plane_z0 corners /\
  Plane.rectangle corners /\
  Plane.centred_at_origin corners /\
  Plane.aspect_within (1 # 16777216) corners (Mat_cols image) (Mat_rows image) /\
  (Plane.longest_side_sq corners == 4)%Q.
Proof.
  intros Hb Hi Hp Hw Hh.
  pose proof (buildPatternsFromImages_lookup _ _ _ _ _ Hb Hi Hp) as Hbp.
  apply buildPattern_points3d in Hbp. cbv zeta in Hbp.
  set (w := Mat_cols image) in *. set (h := Mat_rows image) in *.
  assert (Hext : exists mu eu mv ev,
             fdiv (F:=Binary32.float) (of_int w) (fmax (of_int w) (of_int h))
             = S754_finite false mu eu /\
             fdiv (F:=Binary32.float) (of_int h) (fmax (of_int w) (of_int h))
             = S754_finite false mv ev /\
             let a := Binary32.to_Q (S754_finite false mu eu) in
             let b := Binary32.to_Q (S754_finite false mv ev) in
             (0 < a /\ 0 < b /\ a <= 1 /\ b <= 1 /\
              ((a == 1 /\ Qabs (b - inject_Z h / inject_Z w)
                          <= inject_Z h / inject_Z w * (1 # 16777216)) \/
               (b == 1 /\ Qabs (a - inject_Z w / inject_Z h)
                          <= inject_Z w / inject_Z h * (1 # 16777216))))%Q).
  { unfold fmax. cbn [of_int fdiv fltb binary32_ops].
    rewrite (Binary32_ltb_of_int w h Hw Hh).
    destruct (Binary32_of_int_normal w Hw) as (mw & ew & Ew & _).
    destruct (Binary32_of_int_normal h Hh) as (mh & eh & Eh & _).
    destruct (Z.ltb_spec w h) as [Hlt|Hge].
    - destruct (Binary32_div_of_int w h Hw Hh) as (m & e & Hd & Hpos & Hle & Herr).
      exists m, e, 8388608%positive, (-23). split; [exact Hd|].
      split; [rewrite Eh; apply Binary32_div_self|]. cbv zeta.
      pose proof Binary32_to_Q_one as Hone.
      split; [exact Hpos|]. split; [lra|]. split; [apply Hle; lia|]. split; [lra|].
      right. split; [exact Hone | exact Herr].
    - destruct (Binary32_div_of_int h w Hh Hw) as (m & e & Hd & Hpos & Hle & Herr).
      exists 8388608%positive, (-23), m, e.
      split; [rewrite Ew; apply Binary32_div_self|]. split; [exact Hd|]. cbv zeta.
      pose proof Binary32_to_Q_one as Hone.
      split; [lra|]. split; [exact Hpos|]. split; [lra|]. split; [apply Hle; lia|].
      left. split; [exact Hone | exact Herr]. }
  destruct Hext as (mu & eu & mv & ev & Eu & Ev & Hab). cbv zeta in Hab.
  destruct Hab as (Ha & Hb' & Ha1 & Hb1 & Hasp).
  rewrite Eu, Ev in Hbp. rewrite Hbp. split; [reflexivity|]. cbv zeta.
  rewrite corners_of_binary32.
  destruct (corners_geometry _ _ Ha Hb') as (Hz & Hrect & Hcen).
  do 3 (split; [assumption|]). split.
  - apply corners_aspect_within; [lia | lia | discriminate | exact Hasp].
  - apply longest_side_sq_corners; try assumption.
    destruct Hasp as [[E _]|[E _]]; [left | right]; exact E.
Qed.

Lemma points3d_normalised_plane_witness :
  exists p,
    buildPatternsFromImages (CV:=cv32) [Sample.reference] = Ok [p] /\
    forallb Plane.finite (pattern_points3d p) = true /\
    let corners := map Plane.of_binary32 (pattern_points3d p) in
    Plane.on_plane_z0 corners /\
    Plane.rectangle corners /\
    Plane.centred_at_origin corners /\
    Plane.aspect_within (1 # 16777216) corners 200 100 /\
    (Plane.longest_side_sq corners == 4)%Q.
Proof.
  assert (Hrun : exists p, buildPatternsFromImages (CV:=cv32) [Sample.reference] = Ok [p])
    by (eexists; vm_compute; reflexivity).
  destruct Hrun as [p Hrun]. exists p. split; [exact Hrun|].
  apply (points3d_normalised_plane (CV:=cv32) [Sample.reference] [p] 0%nat
           Sample.reference p Hrun eq_refl eq_refl);
    vm_compute; by split.
Defined.

(** C1 as stated fails.  For a 3 x 7 image the longest side of the
    [points3d] rectangle does not have length 1, and its sides are not
    exactly as 3 is to 7: [3.f / 7.f] is rounded. *)
Lemma unit_longest_side_refuted :
  exists p,
    buildPatternsFromImages (CV:=cv32) [Sample.narrow] = Ok [p] /\
    let corners := map Plane.of_binary32 (pattern_points3d p) in
    ~ (Plane.longest_side_sq corners == 1)%Q /\
    ~ Plane.aspect corners 3 7.
Proof.
  eexists. split; [vm_compute; reflexivity|]. cbv zeta.
  split; intros H; vm_compute in H; discriminate.
Qed.

(** The 200 x 100 reference image: the corners are exactly
    [(-1, -0.5, 0)], [(1, -0.5, 0)], [(1, 0.5, 0)], [(-1, 0.5, 0)]. *)
Example reference_corners_binary32 :
  exists p,
    buildPatternsFromImages (CV:=cv32) [Sample.reference] = Ok [p] /\
    pattern_points3d p =
      [mkPoint3f (S754_finite true 8388608 (-23)) (S754_finite true 8388608 (-24)) (S754_zero false);
       mkPoint3f (S754_finite false 8388608 (-23)) (S754_finite true 8388608 (-24)) (S754_zero false);
       mkPoint3f (S754_finite false 8388608 (-23)) (S754_finite false 8388608 (-24)) (S754_zero false);
       mkPoint3f (S754_finite true 8388608 (-23)) (S754_finite false 8388608 (-24)) (S754_zero false)].
Proof. eexists. split; vm_compute; reflexivity. Qed.

(** ** The ratio test *)


(** C2.  The code divides the best distance by the second-best one, in
    [getMatches] as in [findPatternMatch].  When a query descriptor
    equals two train descriptors both distances are zero and the ratio
    is [0.f / 0.f], a NaN; the comparison with [minRatio] is then false
    and the perfect match is dropped. *)
Theorem distanceRatio_zero_by_zero_is_nan :
  let d := train [Sample.twins] (PatternDetector_new (CV:=cv32) true) in
  exists (matcher : DescriptorMatcher (Mat:=Stub.mat)) bestMatch betterMatch,
    vec_at (m_matchers d) 0 = Ok matcher /\
    knnMatch (OpenCV:=cv32) (trainDescCollection matcher) Sample.query5 2
      = [[bestMatch; betterMatch]] /\
    distance bestMatch = of_int 0 /\
    distance betterMatch = of_int 0 /\
    Binary32.is_nan (distanceRatio bestMatch betterMatch) = true /\
    fltb (distanceRatio bestMatch betterMatch) minRatio = false /\
    getMatches (CV:=cv32) Sample.query5 0 d = Ok [] /\
    matchDescriptors (CV:=cv32) (enableRatioTest d) matcher Sample.query5 = Ok [].
Proof.
  do 3 eexists. repeat split; vm_compute; reflexivity.
Qed.

(** A zero best distance alone is harmless: over a non-zero finite
    second-best distance the ratio is a zero. *)
Lemma distanceRatio_zero_best (bestMatch betterMatch : DMatch (F:=Binary32.float))
  (s : bool) (m : positive) (e : Z) :
  distance bestMatch = of_int 0 ->
  distance betterMatch = S754_finite s m e ->
  distanceRatio bestMatch betterMatch = S754_zero s.
Proof.
  unfold distanceRatio. intros -> ->. reflexivity.
Qed.

(** ** Feature extraction and the untrained detector *)

Section Untrained.
Context {F : Type} {FO : FloatOps F} {Mat : Type} {CV : OpenCV (F:=F) (Mat:=Mat)}.

Lemma extractFeatures_Ok (image : Mat) (keypoints : list (KeyPoint (F:=F))) (descriptors : Mat) :
  assertions_hold image ->
  exists b kps ds, extractFeatures image keypoints descriptors = Ok (b, kps, ds).
Proof.
  intros [He Hc]. unfold extractFeatures. rewrite He, Hc. simpl.
  destruct (detect image) as [|k ks]; [by eauto|].
  destruct (compute image (k :: ks)) as [[|k' ks'] ds]; by eauto.
Qed.

(** C3 (as amended).  With no pattern in the store, [findPattern] on a
    frame that passes the assertions of [extractFeatures] dispatches no
    matching job, reads no matcher, and returns [false], leaving [info]
    as it was: the call is tolerated, not a contract violation. *)
Theorem findPattern_untrained_returns_false (image : Mat) (info : PatternTrackingInfo (F:=F) (Mat:=Mat))
  (d : PatternDetector (F:=F) (Mat:=Mat)) :
  m_patterns d = [] ->
  assertions_hold (getGray image (m_grayImg d)) ->
  exists d', findPattern image info d = Ok (false, info, d') /\ m_patterns d' = [].
Proof.
  intros Hp Ha.
  destruct (extractFeatures_Ok _ (m_queryKeypoints d) (m_queryDescriptors d) Ha)
    as (b & kps & ds & He).
  unfold findPattern, matchStage. rewrite He. cbn [bind].
  cbn [set_query set_slots m_patterns]. rewrite Hp. cbn [length seq PatternMatch bind].
  unfold selectBest. cbn [set_query set_slots m_patterns]. rewrite Hp.
  cbn [length seq selectLoop bind homographyFound negb].
  eexists. split; [reflexivity | exact Hp].
Qed.

End Untrained.

(** The constructor leaves the pattern store empty, and the sample frame
    passes the assertions. *)
Lemma findPattern_untrained_returns_false_witness :
  exists d', findPattern (CV:=cv32) Sample.frame Sample.info0 (PatternDetector_new true)
             = Ok (false, Sample.info0, d') /\ m_patterns d' = [].
Proof.
  apply (findPattern_untrained_returns_false (CV:=cv32) Sample.frame Sample.info0
           (PatternDetector_new true)).
  - reflexivity.
  - split; reflexivity.
Defined.

(** C3 as stated fails: [findPattern] on a freshly constructed detector
    is not a fatal error, it returns [false]. *)
Lemma findPattern_before_train_is_tolerated :
  let run := findPattern (CV:=cv32) Sample.frame Sample.info0 (PatternDetector_new true) in
  ~ fails_loudly run /\ exists d', run = Ok (false, Sample.info0, d').
Proof.
  split.
  - intros [w Hw]. vm_compute in Hw. discriminate.
  - eexists. vm_compute. reflexivity.
Qed.

(** ** Robust homography estimation *)

Section Estimation.
Context {F : Type} {FO : FloatOps F} {Mat : Type} {CV : OpenCV (F:=F) (Mat:=Mat)}.

(** C5.  With fewer than 25 correspondences [refineMatchesWithHomography]
    returns [false] and leaves the match list (and the homography) as it
    received them. *)
Theorem refineMatchesWithHomography_too_few
  (queryKeypoints trainKeypoints : list (KeyPoint (F:=F))) (reprojectionThreshold : F)
  (matches : list (DMatch (F:=F))) (homography : Mat) :
  vec_size matches < 25 ->
  refineMatchesWithHomography queryKeypoints trainKeypoints reprojectionThreshold
    matches homography = Ok (false, matches, homography).
Proof.
  intros Hlt. unfold refineMatchesWithHomography, minNumberMatchesAllowed.
  destruct (Z.ltb_spec (vec_size matches) 25); [reflexivity | lia].
Qed.

Lemma collectPoints_Ok (queryKeypoints trainKeypoints : list (KeyPoint (F:=F)))
  (matches : list (DMatch (F:=F))) :
  Forall (keypoints_in_range queryKeypoints trainKeypoints) matches ->
  exists srcPoints dstPoints,
    collectPoints queryKeypoints trainKeypoints matches = Ok (srcPoints, dstPoints) /\
    length srcPoints = length matches /\ length dstPoints = length matches.
Proof.
  induction 1 as [|m rest [[Ht1 Ht2] [Hq1 Hq2]] _ (src & dst & IH & Hs & Hd)]; simpl.
  - by exists [], [].
  - unfold vec_size in *.
    destruct (lookup_lt_is_Some_2 trainKeypoints (Z.to_nat (trainIdx m))) as [kt Hkt]; [lia|].
    destruct (lookup_lt_is_Some_2 queryKeypoints (Z.to_nat (queryIdx m))) as [kq Hkq]; [lia|].
    rewrite (proj2 (vec_at_Ok _ _ kt)) by auto.
    rewrite (proj2 (vec_at_Ok _ _ kq)) by auto.
    rewrite IH. simpl. do 2 eexists. split; [reflexivity|]. simpl. by rewrite Hs, Hd.
Qed.

Lemma collectInliers_select (inliersMask : list Z) (matches : list (DMatch (F:=F))) :
  forall (i : nat) (inliers : list (DMatch (F:=F))),
    (i + length inliersMask <= length matches)%nat ->
    collectInliers inliersMask i matches inliers
    = Ok (inliers ++ select_by_mask inliersMask (drop i matches)).
Proof.
  induction inliersMask as [|b mask IH]; intros i inliers Hlen; simpl in *.
  - by rewrite app_nil_r.
  - destruct (lookup_lt_is_Some_2 matches i) as [m Hm]; [lia|].
    rewrite (drop_S _ _ _ Hm). destruct (b =? 0).
    + apply IH. lia.
    + rewrite vec_at_nat, Hm. simpl. rewrite IH by lia.
      by rewrite <- app_assoc.
Qed.

Lemma select_by_mask_sublist (inliersMask : list Z) (matches : list (DMatch (F:=F))) :
  sublist (select_by_mask inliersMask matches) matches.
Proof.
  revert matches. induction inliersMask as [|b mask IH]; intros [|m rest]; simpl;
    try apply sublist_nil_l.
  destruct (b =? 0); [apply sublist_cons | apply sublist_skip]; apply IH.
Qed.

(** C6.  With at least 25 correspondences whose indices point into the
    keypoint vectors, and an inlier mask that has no entry beyond the
    correspondences, [refineMatchesWithHomography] replaces the match
    list by the matches whose mask entry is set: a sublist of the input,
    so at most as long; and it returns [true] exactly when more than 25
    inliers remain. *)
Theorem refineMatchesWithHomography_keeps_inliers
  (queryKeypoints trainKeypoints : list (KeyPoint (F:=F))) (reprojectionThreshold : F)
  (matches : list (DMatch (F:=F))) (homography : Mat) :
  25 <= vec_size matches ->
  Forall (keypoints_in_range queryKeypoints trainKeypoints) matches ->
  let est := estimateOf queryKeypoints trainKeypoints reprojectionThreshold matches in
  (length (snd est) <= length matches)%nat ->
  exists found inliers,
    refineMatchesWithHomography queryKeypoints trainKeypoints reprojectionThreshold
      matches homography
    = Ok (found, inliers, if Mat_empty (fst est) then Mat_eye3 else fst est) /\
    inliers = select_by_mask (snd est) matches /\
    sublist inliers matches /\
    (length inliers <= length matches)%nat /\
    (found = true <-> 25 < vec_size inliers).
Proof.
  intros Hge Hrange est Hmask. subst est. unfold estimateOf in *.
  unfold refineMatchesWithHomography, minNumberMatchesAllowed.
  destruct (Z.ltb_spec (vec_size matches) 25); [lia|].
  destruct (collectPoints_Ok _ _ _ Hrange) as (src & dst & Hcp & _ & _).
  rewrite Hcp in *.
  cbn [bind] in *.
  destruct (findHomography src dst reprojectionThreshold) as [h mask]. cbn [fst snd] in *.
  rewrite collectInliers_select by (simpl; lia). cbn [bind app drop].
  exists (25 <? vec_size (select_by_mask mask matches)), (select_by_mask mask matches).
  pose proof (select_by_mask_sublist mask matches) as Hsub.
  split; [reflexivity|]. split; [reflexivity|]. split; [exact Hsub|].
  split; [by apply sublist_length|]. apply Z.ltb_lt.
Qed.

End Estimation.

Lemma refineMatchesWithHomography_too_few_witness :
  refineMatchesWithHomography (CV:=cv32) (Sample.keypoints 30) (Sample.keypoints 30)
    (of_int 3) (Sample.pairs 24) Stub.Empty
  = Ok (false, Sample.pairs 24, Stub.Empty).
Proof.
  apply (refineMatchesWithHomography_too_few (CV:=cv32)). vm_compute. reflexivity.
Defined.

Lemma refineMatchesWithHomography_keeps_inliers_witness :
  exists found inliers,
    refineMatchesWithHomography (CV:=cv32) (Sample.keypoints 30) (Sample.keypoints 30)
      (of_int 3) (Sample.crossed 30) Stub.Empty
    = Ok (found, inliers, Stub.Homography [28]) /\
    inliers = drop 2 (Sample.crossed 30) /\
    sublist inliers (Sample.crossed 30) /\
    (length inliers <= 30)%nat /\
    (found = true <-> 25 < vec_size inliers).
Proof.
  pose proof (refineMatchesWithHomography_keeps_inliers (CV:=cv32) (Sample.keypoints 30)
                (Sample.keypoints 30) (of_int 3) (Sample.crossed 30) Stub.Empty) as H.
  cbv zeta in H.
  destruct H as (found & inliers & H1 & H2 & H3 & H4 & H5).
  - vm_compute. discriminate.
  - compute_done.
  - vm_compute. lia.
  - exists found, inliers. vm_compute in H2. subst inliers.
    split; [vm_compute in H1 |- *; exact H1|].
    split; [vm_compute; reflexivity|].
    split; [exact H3|]. split; [exact H4 | exact H5].
Defined.

(** ** The best-candidate selector *)

Lemma int_of_size_t_small (n : Z) : 0 <= n < 2 ^ 31 -> int_of_size_t n = n.
Proof.
  intros Hn. unfold int_of_size_t. rewrite Z.mod_small by lia.
  destruct (Z.ltb_spec n (2 ^ 31)); [reflexivity | lia].
Qed.

Lemma size_t_of_int_nonneg (i : Z) : 0 <= i < 2 ^ 31 -> size_t_of_int i = i.
Proof. intros Hi. unfold size_t_of_int. apply Z.mod_small. lia. Qed.

Section Selector.
Context {F : Type} {FO : FloatOps F}.
Implicit Types (found : list bool) (matches : list (list (DMatch (F:=F)))).

Lemma selectLoop_app found matches (r1 r2 : list nat) (acc : Selection) :
  selectLoop found matches (r1 ++ r2) acc
  = bind (selectLoop found matches r1 acc) (selectLoop found matches r2).
Proof.
  revert acc. induction r1 as [|i r1 IH]; intros acc; simpl; [reflexivity|].
  destruct (selectStep found matches acc i) as [acc'|w]; simpl; [apply IH | reflexivity].
Qed.

Lemma selectStep_scanned found matches (k : nat) (acc : Selection) :
  (k < length found)%nat -> (k < length matches)%nat ->
  Z.of_nat k < 2 ^ 31 ->
  Forall (fun ms => vec_size ms < 2 ^ 31) matches ->
  scanned found matches k acc ->
  exists acc', selectStep found matches acc k = Ok acc' /\
               scanned found matches (S k) acc'.
Proof.
  intros Hkf Hkm Hk Hsz (Hmax & Hle & Hacc).
  destruct (lookup_lt_is_Some_2 found k Hkf) as [f Hf].
  destruct (lookup_lt_is_Some_2 matches k Hkm) as [ms Hms].
  assert (Hms31 : 0 <= vec_size ms < 2 ^ 31).
  { split; [unfold vec_size; lia|].
    eapply (proj1 (Forall_lookup _ _) Hsz); eauto. }
  assert (Hcand : forall c, candidate found matches k c -> f = true /\ c = vec_size ms).
  { intros c (Hf' & ms' & Hms' & <-). split; congruence. }
  unfold selectStep. rewrite !vec_at_nat, Hf. cbn [bind]. destruct f.
  - rewrite Hms. cbn [bind]. rewrite size_t_of_int_nonneg by lia.
    destruct (Z.ltb_spec (maxFound acc) (vec_size ms)) as [Hlt|Hge].
    + eexists. split; [reflexivity|].
      rewrite !int_of_size_t_small by lia.
      split; [exact Hms31|]. cbn [maxFound homographyFound maxFoundIdx]. split.
      * intros j c Hj Hc. destruct (decide (j = k)) as [->|Hne].
        -- apply Hcand in Hc as [_ ->]. lia.
        -- specialize (Hle j c ltac:(lia) Hc). lia.
      * split; [lia|]. exists k. split; [lia|]. split; [reflexivity|]. split.
        -- split; [exact Hf|]. by exists ms.
        -- intros j c Hj Hc. specialize (Hle j c ltac:(lia) Hc). lia.
    + exists acc. split; [reflexivity|]. split; [exact Hmax|]. split.
      * intros j c Hj Hc. destruct (decide (j = k)) as [->|Hne].
        -- apply Hcand in Hc as [_ ->]. lia.
        -- apply (Hle j c); [lia | exact Hc].
      * destruct (homographyFound acc); [|exact Hacc].
        destruct Hacc as (Hpos & i & Hi & Hidx & Hc & Hfirst).
        split; [exact Hpos|]. exists i. repeat split; try assumption; try lia;
          destruct Hc as (? & ? & ? & ?); eauto.
  - exists acc. split; [reflexivity|]. split; [exact Hmax|]. split.
    + intros j c Hj Hc. destruct (decide (j = k)) as [->|Hne].
      * apply Hcand in Hc as [? _]. discriminate.
      * apply (Hle j c); [lia | exact Hc].
    + destruct (homographyFound acc); [|exact Hacc].
      destruct Hacc as (Hpos & i & Hi & Hidx & Hc & Hfirst).
      split; [exact Hpos|]. exists i. repeat split; try assumption; try lia;
        destruct Hc as (? & ? & ? & ?); eauto.
Qed.

Lemma selectLoop_scanned found matches (k : nat) :
  (k <= length found)%nat -> (k <= length matches)%nat ->
  Z.of_nat k <= 2 ^ 31 ->
  Forall (fun ms => vec_size ms < 2 ^ 31) matches ->
  exists sel, selectLoop found matches (seq 0 k) (mkSelection false 0 (-1)) = Ok sel /\
              scanned found matches k sel.
Proof.
  intros Hkf Hkm Hk Hsz. induction k as [|k IH].
  - eexists. split; [reflexivity|]. split; [simpl; lia|]. split; [intros; lia|].
    simpl. split; reflexivity.
  - destruct IH as (acc & Hacc & Hinv); try lia.
    rewrite seq_S, selectLoop_app, Hacc. cbn [bind selectLoop Nat.add].
    destruct (selectStep_scanned found matches k acc) as (acc' & -> & Hinv');
      try assumption; try lia.
    exists acc'. split; [reflexivity | exact Hinv'].
Qed.

End Selector.

(** ** The matching stage *)

Section MatchStage.
Context {F : Type} {FO : FloatOps F} {Mat : Type} {CV : OpenCV (F:=F) (Mat:=Mat)}.

Lemma refineMatchesWithHomography_found
  (queryKeypoints trainKeypoints : list (KeyPoint (F:=F))) (reprojectionThreshold : F)
  (matches matches' : list (DMatch (F:=F))) (homography homography' : Mat) (found : bool) :
  refineMatchesWithHomography queryKeypoints trainKeypoints reprojectionThreshold
    matches homography = Ok (found, matches', homography') ->
  found = true -> 25 < vec_size matches'.
Proof.
  unfold refineMatchesWithHomography, minNumberMatchesAllowed.
  destruct (vec_size matches <? 25); [intros [= <- _ _]; discriminate|].
  intros Hr. apply bind_Ok in Hr as ([src dst] & _ & Hr).
  destruct (findHomography src dst reprojectionThreshold) as [h mask].
  apply bind_Ok in Hr as (inliers & _ & [= <- <- _]).
  apply Z.ltb_lt.
Qed.

Lemma vec_set_Ok {A} (v v' : list A) (i : Z) (x : A) :
  vec_set v i x = Ok v' ->
  0 <= i /\ (Z.to_nat i < length v)%nat /\ v' = <[Z.to_nat i := x]> v.
Proof.
  unfold vec_set. destruct (Z.ltb_spec i 0); [discriminate|].
  destruct (Z.ltb_spec i (Z.of_nat (length v))); [|discriminate].
  intros [= <-]. repeat split; lia.
Qed.

Lemma slots_sound_insert (found : list bool) (matches : list (list (DMatch (F:=F))))
  (i : nat) (f : bool) (ms : list (DMatch (F:=F))) :
  (i < length found)%nat -> (i < length matches)%nat ->
  (f = true -> 25 < vec_size ms) ->
  slots_sound found matches ->
  slots_sound (<[i := f]> found) (<[i := ms]> matches).
Proof.
  intros Hf Hm Hnew Hold j ms' Hj Hms'.
  destruct (decide (i = j)) as [<-|Hne].
  - rewrite list_lookup_insert_eq in Hj by assumption.
    rewrite list_lookup_insert_eq in Hms' by assumption.
    injection Hj as ->. injection Hms' as <-. by apply Hnew.
  - rewrite list_lookup_insert_ne in Hj by assumption.
    rewrite list_lookup_insert_ne in Hms' by assumption. by eapply Hold.
Qed.

Lemma set_slots_id (d : PatternDetector (F:=F) (Mat:=Mat)) :
  set_slots (m_matches d) (m_matches_homographyFound d) (m_matches_homography d) d = d.
Proof. by destruct d. Qed.

(** One matching job rewrites the result slots and nothing else. *)
Lemma findPatternMatch_slots (queryDescriptors : Mat) (patternIdx : Z)
  (d d' : PatternDetector (F:=F) (Mat:=Mat)) :
  findPatternMatch queryDescriptors patternIdx d = Ok d' ->
  exists ms fs hs,
    d' = set_slots ms fs hs d /\
    length ms = length (m_matches d) /\
    length fs = length (m_matches_homographyFound d) /\
    length hs = length (m_matches_homography d) /\
    (slots_sound (m_matches_homographyFound d) (m_matches d) -> slots_sound fs ms).
Proof.
  unfold findPatternMatch. intros H.
  apply bind_Ok in H as (matcher & _ & H).
  apply bind_Ok in H as (matches & _ & H).
  apply bind_Ok in H as (pattern & _ & H).
  apply bind_Ok in H as ([[found matches'] h'] & Hr & H).
  apply bind_Ok in H as (ms & Hms & H).
  apply bind_Ok in H as (hs & Hhs & H).
  apply bind_Ok in H as (fs & Hfs & [= <-]).
  apply vec_set_Ok in Hms as (_ & Hlm & ->).
  apply vec_set_Ok in Hhs as (_ & Hlh & ->).
  apply vec_set_Ok in Hfs as (_ & Hlf & ->).
  do 3 eexists. split; [reflexivity|]. rewrite !length_insert.
  repeat split. intros Hs. apply slots_sound_insert; try assumption.
  by eapply refineMatchesWithHomography_found.
Qed.

Lemma PatternMatch_slots (queryDescriptors : Mat) (range : list nat) :
  forall d d' : PatternDetector,
    PatternMatch queryDescriptors range d = Ok d' ->
    exists ms fs hs,
      d' = set_slots ms fs hs d /\
      length ms = length (m_matches d) /\
      length fs = length (m_matches_homographyFound d) /\
      length hs = length (m_matches_homography d) /\
      (slots_sound (m_matches_homographyFound d) (m_matches d) -> slots_sound fs ms).
Proof.
  induction range as [|i rest IH]; intros d d'; simpl.
  - intros [= <-]. exists (m_matches d), (m_matches_homographyFound d), (m_matches_homography d).
    by rewrite set_slots_id.
  - intros H. apply bind_Ok in H as (d1 & H1 & H).
    apply findPatternMatch_slots in H1 as (ms1 & fs1 & hs1 & -> & Hm1 & Hf1 & Hh1 & Hs1).
    apply IH in H as (ms & fs & hs & -> & Hm & Hf & Hh & Hs).
    exists ms, fs, hs. cbn [set_slots m_matches m_matches_homographyFound m_matches_homography] in *.
    split; [reflexivity|]. repeat split; try congruence. auto.
Qed.

(** After the matching stage: the query is the one extracted from the
    frame, there is one result slot per pattern, and a slot that reports a
    homography holds more than 25 matches. *)
Lemma matchStage_slots (image : Mat) (d d1 : PatternDetector (F:=F) (Mat:=Mat)) :
  matchStage image d = Ok d1 ->
  exists b kps ds ms fs hs,
    extractFeatures (getGray image (m_grayImg d)) (m_queryKeypoints d)
      (m_queryDescriptors d) = Ok (b, kps, ds) /\
    d1 = set_slots ms fs hs (set_query (getGray image (m_grayImg d)) kps ds d) /\
    length ms = length (m_patterns d) /\
    length fs = length (m_patterns d) /\
    length hs = length (m_patterns d) /\
    slots_sound fs ms.
Proof.
  unfold matchStage. intros H.
  apply bind_Ok in H as ([[b kps] ds] & He & H).
  apply PatternMatch_slots in H as (ms & fs & hs & -> & Hm & Hf & Hh & Hs).
  cbn [set_slots set_query m_matches m_matches_homographyFound m_matches_homography
       m_patterns] in *.
  rewrite length_replicate in Hm. rewrite length_replicate in Hf.
  rewrite length_replicate in Hh.
  exists b, kps, ds, ms, fs, hs. repeat split; try assumption.
  apply Hs. intros i ms' Hi _. apply lookup_replicate in Hi as [? _]. discriminate.
Qed.

End MatchStage.

Section Selection.
Context {F : Type} {FO : FloatOps F} {Mat : Type} {CV : OpenCV (F:=F) (Mat:=Mat)}.

Lemma findPattern_unfold (image : Mat) (info : PatternTrackingInfo (F:=F) (Mat:=Mat))
  (d d1 : PatternDetector (F:=F) (Mat:=Mat)) (sel : Selection) :
  matchStage image d = Ok d1 -> selectBest d1 = Ok sel ->
  findPattern image info d
  = if homographyFound sel then reportWinner sel info d1 else Ok (false, info, d1).
Proof.
  intros Hm Hs. unfold findPattern. rewrite Hm. cbn [bind]. rewrite Hs. cbn [bind].
  by destruct (homographyFound sel).
Qed.

(** C7.  After the matching stage, with the number of patterns and the
    numbers of matches within the range of [int], the selection loop of
    [findPattern] ends with: no pattern selected exactly when no result
    slot reports a homography, and [findPattern] then returns [false];
    otherwise the selected index is the first one, in store order, whose
    slot reports a homography and holds the largest number of matches:
    every other such slot holds at most as many, every earlier one
    strictly fewer. *)
Theorem findPattern_selects_first_largest (image : Mat) (info : PatternTrackingInfo (F:=F) (Mat:=Mat))
  (d d1 : PatternDetector (F:=F) (Mat:=Mat)) :
  matchStage image d = Ok d1 ->
  vec_size (m_patterns d) < 2 ^ 31 ->
  Forall (fun ms => vec_size ms < 2 ^ 31) (m_matches d1) ->
  exists sel,
    selectBest d1 = Ok sel /\
    (homographyFound sel = false <->
     forall i, m_matches_homographyFound d1 !! i <> Some true) /\
    (homographyFound sel = false ->
     findPattern image info d = Ok (false, info, d1)) /\
    (homographyFound sel = true ->
     exists i, maxFoundIdx sel = Z.of_nat i /\
               first_largest (m_matches_homographyFound d1) (m_matches d1) i (maxFound sel) /\
               findPattern image info d = reportWinner sel info d1).
Proof.
  intros Hm Hn Hsz.
  destruct (matchStage_slots _ _ _ Hm) as (b & kps & ds & ms & fs & hs & _ & Hd1 & Hlm & Hlf & _ & Hsound).
  assert (Hpat : m_patterns d1 = m_patterns d) by (by rewrite Hd1).
  assert (Hfs : m_matches_homographyFound d1 = fs) by (by rewrite Hd1).
  assert (Hms : m_matches d1 = ms) by (by rewrite Hd1).
  rewrite Hfs, Hms in *. unfold vec_size in Hn.
  destruct (selectLoop_scanned fs ms (length (m_patterns d)))
    as (sel & Hsel & Hmax & Hle & Hacc); try lia; try assumption.
  assert (Hsb : selectBest d1 = Ok sel).
  { unfold selectBest. by rewrite Hpat, Hfs, Hms. }
  assert (Hall : forall j c, candidate fs ms j c -> c <= maxFound sel).
  { intros j c Hc. apply (Hle j c); [|exact Hc].
    destruct Hc as (Hj & _). apply lookup_lt_Some in Hj. lia. }
  exists sel. split; [exact Hsb|].
  pose proof (findPattern_unfold image info d d1 sel Hm Hsb) as Hfp.
  destruct (homographyFound sel) eqn:Hhf.
  - destruct Hacc as (Hpos & i & Hi & Hidx & Hc & Hfirst).
    split; [|split]; [| discriminate |].
    + split; [discriminate|]. intros Hnone. destruct Hc as (Hf & _).
      by apply Hnone in Hf.
    + intros _. exists i. split; [exact Hidx|]. split; [|exact Hfp].
      split; [exact Hc|]. split; [exact Hall | exact Hfirst].
  - destruct Hacc as (Hzero & _).
    split; [|split]; [| intros _; exact Hfp | discriminate].
    split; [|reflexivity]. intros _ i Hi.
    destruct (lookup_lt_is_Some_2 ms i) as [ms' Hms'].
    { apply lookup_lt_Some in Hi. lia. }
    pose proof (Hsound i ms' Hi Hms') as H25.
    assert (Hc : candidate fs ms i (vec_size ms')) by (split; [exact Hi | by exists ms']).
    apply Hall in Hc. lia.
Qed.

End Selection.

(** A frame showing 30 features against a store of four patterns with 28,
    30, 30 and 10 of them. *)
Lemma findPattern_selects_first_largest_witness :
  exists d1,
    matchStage (CV:=cv32) Sample.frame (Sample.trained false) = Ok d1 /\
    exists sel,
      selectBest d1 = Ok sel /\
      (homographyFound sel = false <->
       forall i, m_matches_homographyFound d1 !! i <> Some true) /\
      (homographyFound sel = false ->
       findPattern (CV:=cv32) Sample.frame Sample.info0 (Sample.trained false)
       = Ok (false, Sample.info0, d1)) /\
      (homographyFound sel = true ->
       exists i, maxFoundIdx sel = Z.of_nat i /\
                 first_largest (m_matches_homographyFound d1) (m_matches d1) i (maxFound sel) /\
                 findPattern (CV:=cv32) Sample.frame Sample.info0 (Sample.trained false)
                 = reportWinner sel Sample.info0 d1).
Proof.
  eexists. split; [vm_compute; reflexivity|].
  apply (findPattern_selects_first_largest (CV:=cv32) Sample.frame Sample.info0
           (Sample.trained false)).
  - vm_compute. reflexivity.
  - vm_compute. reflexivity.
  - compute_done.
Defined.

(** In that run the slots hold 28, 30, 30 and 10 matches, the last one
    without a homography; the second pattern wins over the third. *)
Example selectBest_tie_goes_to_first :
  exists d1,
    matchStage (CV:=cv32) Sample.frame (Sample.trained false) = Ok d1 /\
    m_matches_homographyFound d1 = [true; true; true; false] /\
    map vec_size (m_matches d1) = [28; 30; 30; 10] /\
    selectBest d1 = Ok (mkSelection true 30 1).
Proof.
  eexists. split; [vm_compute; reflexivity|].
  repeat split; vm_compute; reflexivity.
Qed.

(** ** The refinement stage *)

Section Refinement.
Context {F : Type} {FO : FloatOps F} {Mat : Type} {CV : OpenCV (F:=F) (Mat:=Mat)}.

(** The matching stage leaves the configuration and the pattern store
    alone. *)
Lemma matchStage_config (image : Mat) (d d1 : PatternDetector (F:=F) (Mat:=Mat)) :
  matchStage image d = Ok d1 ->
  enableHomographyRefinement d1 = enableHomographyRefinement d /\
  enableRatioTest d1 = enableRatioTest d /\
  m_patterns d1 = m_patterns d /\
  m_matchers d1 = m_matchers d.
Proof.
  intros Hm.
  destruct (matchStage_slots _ _ _ Hm) as (b & kps & ds & ms & fs & hs & _ & -> & _).
  repeat split.
Qed.

(** With fewer than 25 matches on the warped view the estimation stops at
    its first gate and leaves [m_refinedHomography] as it was. *)
Lemma estimateRefinement_stops_at_gate (maxFoundIdx : Z)
  (d : PatternDetector (F:=F) (Mat:=Mat)) (b : bool)
  (warpedKeypoints : list (KeyPoint (F:=F))) (newQueryDescriptors : Mat)
  (refinedMatches : list (DMatch (F:=F))) :
  let warpedImg :=
    warpPerspective (m_grayImg d) (m_roughHomography d) (pattern_size (m_pattern d)) in
  extractFeatures warpedImg [] Mat_new = Ok (b, warpedKeypoints, newQueryDescriptors) ->
  getMatches newQueryDescriptors maxFoundIdx d = Ok refinedMatches ->
  vec_size refinedMatches < 25 ->
  estimateRefinement maxFoundIdx d = Ok (false, warpedImg, m_refinedHomography d).
Proof.
  intros warpedImg He Hg Hlt. unfold estimateRefinement. fold warpedImg.
  rewrite He. cbn [bind]. rewrite Hg. cbn [bind].
  unfold refineMatchesWithHomography, minNumberMatchesAllowed.
  by destruct (Z.ltb_spec (vec_size refinedMatches) 25); [|lia].
Qed.

(** C8.  With refinement enabled, when the matching stage and the
    selection loop found a winning pattern with its rough homography but
    the estimation on the warped view returns [false], leaving [refined]
    in [m_refinedHomography]: [findPattern] still evaluates the product
    [rough * refined] (line 240) before it returns.  When one of the two
    matrices has no entries the product throws and the call does not
    return at all; otherwise the call returns [false], with the product
    stored in [info]. *)
Theorem findPattern_refinement_failure (image : Mat)
  (info : PatternTrackingInfo (F:=F) (Mat:=Mat))
  (d d1 : PatternDetector (F:=F) (Mat:=Mat)) (sel : Selection)
  (rough : Mat) (pattern : Pattern (F:=F) (Mat:=Mat)) (warped refined : Mat) :
  enableHomographyRefinement d = true ->
  matchStage image d = Ok d1 ->
  selectBest d1 = Ok sel ->
  homographyFound sel = true ->
  vec_at (m_matches_homography d1) (maxFoundIdx sel) = Ok rough ->
  vec_at (m_patterns d1) (maxFoundIdx sel) = Ok pattern ->
  estimateRefinement (maxFoundIdx sel) (set_winner rough pattern d1)
  = Ok (false, warped, refined) ->
  findPattern image info d
  = if Mat_empty rough || Mat_empty refined then Fatal CvException
    else Ok (false,
             mkInfo (maxFoundIdx sel) (Mat_mul rough refined)
               (perspectiveTransform (pattern_points2d pattern) (Mat_mul rough refined)),
             set_refined warped refined (set_winner rough pattern d1)).
Proof.
  intros Hen Hm Hs Hf Hr Hp He.
  rewrite (findPattern_unfold image info d d1 sel Hm Hs), Hf.
  destruct (matchStage_config _ _ _ Hm) as (Hen1 & _).
  unfold reportWinner. rewrite Hr, Hp. cbn [bind].
  replace (enableHomographyRefinement (set_winner rough pattern d1)) with true
    by (cbn [set_winner enableHomographyRefinement]; congruence).
  rewrite He. cbn [bind]. unfold Mat_product.
  cbn [set_refined set_winner m_roughHomography m_refinedHomography m_pattern].
  by destruct (Mat_empty rough || Mat_empty refined).
Qed.

(** C9.  When [findPattern] returns [true], the reported pattern index
    is the selected one, [rough] is the homography of its result slot and
    [pattern] its entry in the store.  With refinement enabled the
    estimation on the warped view succeeded with some [refined], the
    reported homography is the product [rough * refined] and the reported
    points are the pattern's [points2d] transformed by that product; with
    refinement disabled the reported homography is [rough] and the points
    are the pattern's [points2d] transformed by [rough]. *)
Theorem findPattern_reported_homography (image : Mat)
  (info info' : PatternTrackingInfo (F:=F) (Mat:=Mat))
  (d d' : PatternDetector (F:=F) (Mat:=Mat)) :
  findPattern image info d = Ok (true, info', d') ->
  exists d1 sel rough pattern,
    matchStage image d = Ok d1 /\
    selectBest d1 = Ok sel /\
    homographyFound sel = true /\
    vec_at (m_matches_homography d1) (maxFoundIdx sel) = Ok rough /\
    vec_at (m_patterns d) (maxFoundIdx sel) = Ok pattern /\
    info_patternIdx info' = maxFoundIdx sel /\
    if enableHomographyRefinement d then
      exists warped refined,
        estimateRefinement (maxFoundIdx sel) (set_winner rough pattern d1)
        = Ok (true, warped, refined) /\
        info_homography info' = Mat_mul rough refined /\
        info_points2d info'
        = perspectiveTransform (pattern_points2d pattern) (Mat_mul rough refined)
    else
      info_homography info' = rough /\
      info_points2d info' = perspectiveTransform (pattern_points2d pattern) rough.
Proof.
  unfold findPattern. intros H.
  apply bind_Ok in H as (d1 & Hm & H).
  apply bind_Ok in H as (sel & Hs & H).
  destruct (homographyFound sel) eqn:Hf; cbn [negb] in H; [|discriminate].
  destruct (matchStage_config _ _ _ Hm) as (Hen & _ & Hpat & _).
  unfold reportWinner in H.
  apply bind_Ok in H as (rough & Hr & H).
  apply bind_Ok in H as (pattern & Hp & H).
  exists d1, sel, rough, pattern. rewrite <- Hpat, <- Hen.
  do 5 (split; [assumption || reflexivity|]).
  cbn [set_winner enableHomographyRefinement] in H.
  destruct (enableHomographyRefinement d1).
  - apply bind_Ok in H as ([[found warped] refined] & He & H).
    apply bind_Ok in H as (homography & Hprod & H).
    unfold Mat_product in Hprod.
    cbn [set_refined set_winner m_roughHomography m_refinedHomography] in Hprod.
    destruct (Mat_empty rough || Mat_empty refined); [discriminate|].
    injection Hprod as <-. injection H as -> <- _. split; [reflexivity|].
    exists warped, refined. repeat split. exact He.
  - injection H as _ <- _. repeat split.
Qed.

End Refinement.

(** The first frame after training, with the pattern registered with a
    size of 10 x 10: the rough stage finds it with 30 inliers, the warped
    view keeps 7 features only, the estimation stops at its first gate
    and [m_refinedHomography] is still the [cv::Mat()] of the
    constructor. *)
Lemma findPattern_refinement_failure_witness :
  findPattern (CV:=cv32) Sample.frame Sample.info0 (Sample.trained_cramped true)
  = Fatal CvException.
Proof.
  etransitivity.
  - eapply (findPattern_refinement_failure (CV:=cv32) Sample.frame Sample.info0
              (Sample.trained_cramped true)).
    + reflexivity.
    + vm_compute. reflexivity.
    + vm_compute. reflexivity.
    + reflexivity.
    + vm_compute. reflexivity.
    + vm_compute. reflexivity.
    + vm_compute. reflexivity.
  - reflexivity.
Defined.

(** The store of four patterns, with refinement and without. *)
Lemma findPattern_reported_homography_witness :
  (exists info' d',
     findPattern (CV:=cv32) Sample.frame Sample.info0 (Sample.trained true)
     = Ok (true, info', d') /\
     info_patternIdx info' = 1 /\
     info_homography info' = Stub.Homography [30; 30] /\
     m_roughHomography d' = Stub.Homography [30]) /\
  (exists info' d',
     findPattern (CV:=cv32) Sample.frame Sample.info0
       (set_enableHomographyRefinement false (Sample.trained true))
     = Ok (true, info', d') /\
     info_patternIdx info' = 1 /\
     info_homography info' = Stub.Homography [30] /\
     m_roughHomography d' = Stub.Homography [30]).
Proof.
  split.
  - do 2 eexists. split; [vm_compute; reflexivity|].
    match goal with
    | |- info_patternIdx ?i = _ /\ _ /\ m_roughHomography ?d = _ =>
        assert (Hrun : findPattern (CV:=cv32) Sample.frame Sample.info0 (Sample.trained true)
                       = Ok (true, i, d)) by (vm_compute; reflexivity);
        pose proof (findPattern_reported_homography (CV:=cv32) _ _ _ _ _ Hrun) as Hout
    end.
    repeat split.
  - do 2 eexists. split; [vm_compute; reflexivity|].
    match goal with
    | |- info_patternIdx ?i = _ /\ _ /\ m_roughHomography ?d = _ =>
        assert (Hrun : findPattern (CV:=cv32) Sample.frame Sample.info0
                         (set_enableHomographyRefinement false (Sample.trained true))
                       = Ok (true, i, d)) by (vm_compute; reflexivity);
        pose proof (findPattern_reported_homography (CV:=cv32) _ _ _ _ _ Hrun) as Hout
    end.
    repeat split.
Defined.

(** ** Ratio test against plain matching *)

Section RatioTest.
Context {F : Type} {FO : FloatOps F} {Mat : Type} {CV : OpenCV (F:=F) (Mat:=Mat)}.

(** On rows of at least two matches the loop does not fail, and appends
    the best match of each row whose ratio is below [minRatio]. *)
Lemma ratioTestLoop_kept (knnMatches : list (list (DMatch (F:=F)))) :
  forall matches : list (DMatch (F:=F)),
    Forall (fun row => (2 <= length row)%nat) knnMatches ->
    ratioTestLoop knnMatches matches
    = Ok (matches ++ flat_map ratio_kept_of knnMatches).
Proof.
  induction knnMatches as [|row rest IH]; intros matches Hrows; simpl.
  - by rewrite app_nil_r.
  - apply Forall_cons in Hrows as [Hrow Hrest].
    destruct row as [|bestMatch [|betterMatch row]]; simpl in Hrow; try lia.
    change (vec_at (bestMatch :: betterMatch :: row) 0) with (Ok bestMatch).
    change (vec_at (bestMatch :: betterMatch :: row) 1) with (Ok betterMatch).
    cbn [bind ratio_kept_of].
    destruct (fltb (distanceRatio bestMatch betterMatch) minRatio).
    + rewrite IH by assumption. by rewrite <- app_assoc.
    + by apply IH.
Qed.

Lemma flat_map_ratio_kept_length (knnMatches : list (list (DMatch (F:=F)))) :
  (length (flat_map ratio_kept_of knnMatches) <= length knnMatches)%nat.
Proof.
  induction knnMatches as [|row rest IH]; simpl; [lia|].
  rewrite length_app.
  assert (length (ratio_kept_of row) <= 1)%nat; [|lia].
  destruct row as [|b [|s row]]; simpl; try lia.
  destruct (fltb _ _); simpl; lia.
Qed.

(** C10.  For a trained pattern index, when [knnMatch] with [k = 2]
    returns two or more matches for each query descriptor and as many
    rows as [match] returns matches (one per query descriptor), both modes
    of [getMatches] return, and the ratio test keeps at most as many
    matches as plain matching yields. *)
Theorem ratio_test_never_adds_matches (queryDescriptors : Mat) (patternIdx : Z)
  (d : PatternDetector (F:=F) (Mat:=Mat)) (matcher : DescriptorMatcher (Mat:=Mat)) :
  vec_at (m_matchers d) patternIdx = Ok matcher ->
  Forall (fun row => (2 <= length row)%nat)
    (knnMatch (trainDescCollection matcher) queryDescriptors 2) ->
  length (knnMatch (trainDescCollection matcher) queryDescriptors 2)
  = length (matchNearest (trainDescCollection matcher) queryDescriptors) ->
  exists ratio plain,
    getMatches queryDescriptors patternIdx (set_enableRatioTest true d) = Ok ratio /\
    getMatches queryDescriptors patternIdx (set_enableRatioTest false d) = Ok plain /\
    (length ratio <= length plain)%nat.
Proof.
  intros Hm Hrows Hlen. unfold getMatches.
  cbn [set_enableRatioTest m_matchers enableRatioTest]. rewrite Hm. cbn [bind].
  unfold matchDescriptors. rewrite ratioTestLoop_kept by assumption.
  do 2 eexists. split; [reflexivity|]. split; [reflexivity|].
  cbn [app]. rewrite <- Hlen. apply flat_map_ratio_kept_length.
Qed.

End RatioTest.

(** The 30 feature descriptors against the pattern showing 28 of them:
    the two descriptors without a twin have two equally near neighbours
    and are dropped by the ratio test. *)
Lemma ratio_test_never_adds_matches_witness :
  exists ratio plain,
    getMatches (CV:=cv32) (Sample.descriptors 30) 0
      (set_enableRatioTest true (Sample.trained true)) = Ok ratio /\
    getMatches (CV:=cv32) (Sample.descriptors 30) 0
      (set_enableRatioTest false (Sample.trained true)) = Ok plain /\
    (length ratio <= length plain)%nat.
Proof.
  eapply (ratio_test_never_adds_matches (CV:=cv32) (Sample.descriptors 30) 0
            (Sample.trained true)).
  - vm_compute. reflexivity.
  - compute_done.
  - vm_compute. reflexivity.
Defined.

Example ratio_test_run :
  exists ratio plain,
    getMatches (CV:=cv32) (Sample.descriptors 30) 0 (Sample.trained true) = Ok ratio /\
    getMatches (CV:=cv32) (Sample.descriptors 30) 0 (Sample.trained false) = Ok plain /\
    length ratio = 28%nat /\ length plain = 30%nat.
Proof.
  do 2 eexists. split; [vm_compute; reflexivity|]. split; [vm_compute; reflexivity|].
  split; reflexivity.
Qed.

(** ** A frame without features *)

(** C4.  [extractFeatures] returns [false] for a frame without keypoints
    and leaves its [descriptors] argument, the member [m_queryDescriptors],
    as the previous frame left it; [findPattern] drops the returned
    [bool] and goes on to match.  After a frame with 30 features, plain
    matching of the stale descriptors yields 30 matches for each pattern,
    and [refineMatchesWithHomography] indexes the now empty
    [m_queryKeypoints]: the run ends out of range instead of returning
    [false]. *)
Theorem findPattern_blank_after_frame_out_of_range :
  exists info1 d1,
    findPattern (CV:=cv32) Sample.frame Sample.info0 (Sample.trained false)
    = Ok (true, info1, d1) /\
    detect (OpenCV:=cv32) Sample.blank = [] /\
    extractFeatures (CV:=cv32) (getGray Sample.blank (m_grayImg d1))
      (m_queryKeypoints d1) (m_queryDescriptors d1)
    = Ok (false, [], m_queryDescriptors d1) /\
    m_queryDescriptors d1 = Sample.descriptors 30 /\
    findPattern (CV:=cv32) Sample.blank info1 d1 = Fatal OutOfRange.
Proof.
  do 2 eexists. split; [vm_compute; reflexivity|].
  repeat split; vm_compute; reflexivity.
Qed.

(** The same blank frame given to the detector right after training,
    when [m_queryDescriptors] is still empty, is answered with [false]. *)
Example findPattern_blank_first_frame :
  exists d1,
    findPattern (CV:=cv32) Sample.blank Sample.info0 (Sample.trained false)
    = Ok (false, Sample.info0, d1).
Proof. eexists. vm_compute. reflexivity. Qed.

(** * Further properties of the code *)

(** ** Faults *)

Lemma vec_at_fault {A} (v : list A) (i : Z) (w : fault) :
  vec_at v i = Fatal w -> w = OutOfRange.
Proof.
  unfold vec_at. destruct (i <? 0); [by intros [= <-]|].
  destruct (v !! Z.to_nat i); [discriminate | by intros [= <-]].
Qed.

Lemma vec_set_fault {A} (v : list A) (i : Z) (x : A) (w : fault) :
  vec_set v i x = Fatal w -> w = OutOfRange.
Proof.
  unfold vec_set. destruct (i <? 0); [by intros [= <-]|].
  destruct (i <? Z.of_nat (length v)); [discriminate | by intros [= <-]].
Qed.

Lemma bind_Fatal {A B} (m : outcome A) (k : A -> outcome B) (w : fault) :
  bind m k = Fatal w -> m = Fatal w \/ exists a, m = Ok a /\ k a = Fatal w.
Proof. destruct m as [a|w']; simpl; [eauto | intros [= ->]; by left]. Qed.

Section EstimationMore.
Context {F : Type} {FO : FloatOps F} {Mat : Type} {CV : OpenCV (F:=F) (Mat:=Mat)}.

Lemma collectPoints_fault (queryKeypoints trainKeypoints : list (KeyPoint (F:=F)))
  (matches : list (DMatch (F:=F))) (w : fault) :
  collectPoints queryKeypoints trainKeypoints matches = Fatal w -> w = OutOfRange.
Proof.
  induction matches as [|m rest IH]; simpl; [discriminate|]. intros H.
  apply bind_Fatal in H as [H|(src & _ & H)]; [by eapply vec_at_fault|].
  apply bind_Fatal in H as [H|(dst & _ & H)]; [by eapply vec_at_fault|].
  apply bind_Fatal in H as [H|(r & _ & H)]; [by apply IH | discriminate].
Qed.

Lemma collectInliers_fault (inliersMask : list Z) (matches : list (DMatch (F:=F))) :
  forall (i : nat) (inliers : list (DMatch (F:=F))) (w : fault),
    collectInliers inliersMask i matches inliers = Fatal w -> w = OutOfRange.
Proof.
  induction inliersMask as [|b mask IH]; intros i inliers w; simpl; [discriminate|].
  destruct (b =? 0); [apply IH|]. intros H.
  apply bind_Fatal in H as [H|(m & _ & H)]; [by eapply vec_at_fault | by eapply IH].
Qed.

(** The estimator can only end in an out-of-range read. *)
Lemma refineMatchesWithHomography_fault
  (queryKeypoints trainKeypoints : list (KeyPoint (F:=F))) (reprojectionThreshold : F)
  (matches : list (DMatch (F:=F))) (homography : Mat) (w : fault) :
  refineMatchesWithHomography queryKeypoints trainKeypoints reprojectionThreshold
    matches homography = Fatal w -> w = OutOfRange.
Proof.
  unfold refineMatchesWithHomography.
  destruct (vec_size matches <? minNumberMatchesAllowed); [discriminate|]. intros H.
  apply bind_Fatal in H as [H|([src dst] & _ & H)]; [by eapply collectPoints_fault|].
  destruct (findHomography src dst reprojectionThreshold) as [h mask].
  apply bind_Fatal in H as [H|(r & _ & H)]; [by eapply collectInliers_fault | discriminate].
Qed.

Lemma collectPoints_in_range (queryKeypoints trainKeypoints : list (KeyPoint (F:=F)))
  (matches : list (DMatch (F:=F))) (srcPoints dstPoints : list (Point2f (F:=F))) :
  collectPoints queryKeypoints trainKeypoints matches = Ok (srcPoints, dstPoints) ->
  Forall (keypoints_in_range queryKeypoints trainKeypoints) matches.
Proof.
  revert srcPoints dstPoints.
  induction matches as [|m rest IH]; intros src dst; simpl; [constructor|]. intros H.
  apply bind_Ok in H as (s & Hs & H). apply bind_Ok in H as (q & Hq & H).
  apply bind_Ok in H as ([src' dst'] & Hr & _).
  apply vec_at_Ok in Hs as [Hs0 Hs]. apply vec_at_Ok in Hq as [Hq0 Hq].
  apply lookup_lt_Some in Hs, Hq.
  constructor; [|by eapply IH].
  unfold keypoints_in_range, vec_size. lia.
Qed.

Lemma collectInliers_sublist (inliersMask : list Z) (matches : list (DMatch (F:=F))) :
  forall (i : nat) (inliers result : list (DMatch (F:=F))),
    collectInliers inliersMask i matches inliers = Ok result ->
    exists kept, result = inliers ++ kept /\ sublist kept (drop i matches).
Proof.
  induction inliersMask as [|b mask IH]; intros i inliers result; simpl.
  - intros [= <-]. exists []. split; [by rewrite app_nil_r | apply sublist_nil_l].
  - destruct (b =? 0).
    + intros H. apply IH in H as (kept & -> & Hsub). exists kept. split; [reflexivity|].
      etransitivity; [exact Hsub|].
      replace (drop (S i) matches) with (drop 1 (drop i matches))
        by (rewrite drop_drop; f_equal; lia).
      apply sublist_drop.
    + intros H. apply bind_Ok in H as (m & Hm & H).
      rewrite vec_at_nat in Hm. destruct (matches !! i) as [m'|] eqn:Hi; [|discriminate].
      injection Hm as ->. apply IH in H as (kept & -> & Hsub).
      exists (m :: kept). split; [by rewrite <- app_assoc|].
      rewrite (drop_S _ _ _ Hi). by apply sublist_skip.
Qed.

Lemma refineMatchesWithHomography_sublist
  (queryKeypoints trainKeypoints : list (KeyPoint (F:=F))) (reprojectionThreshold : F)
  (matches matches' : list (DMatch (F:=F))) (homography homography' : Mat)
  (found : bool) :
  refineMatchesWithHomography queryKeypoints trainKeypoints reprojectionThreshold
    matches homography = Ok (found, matches', homography') ->
  sublist matches' matches.
Proof.
  unfold refineMatchesWithHomography.
  destruct (vec_size matches <? minNumberMatchesAllowed); [by intros [= _ <- _]|].
  intros H. apply bind_Ok in H as ([src dst] & _ & H).
  destruct (findHomography src dst reprojectionThreshold) as [h mask].
  apply bind_Ok in H as (inliers & Hi & [= _ <- _]).
  by apply collectInliers_sublist in Hi as (kept & -> & Hsub).
Qed.

Lemma refineMatchesWithHomography_gate
  (queryKeypoints trainKeypoints : list (KeyPoint (F:=F))) (reprojectionThreshold : F)
  (matches matches' : list (DMatch (F:=F))) (homography homography' : Mat)
  (found : bool) :
  refineMatchesWithHomography queryKeypoints trainKeypoints reprojectionThreshold
    matches homography = Ok (found, matches', homography') ->
  25 <= vec_size matches ->
  Forall (keypoints_in_range queryKeypoints trainKeypoints) matches.
Proof.
  unfold refineMatchesWithHomography, minNumberMatchesAllowed.
  destruct (Z.ltb_spec (vec_size matches) 25) as [Hlt|Hge]; [intros; lia|].
  intros H _. apply bind_Ok in H as ([src dst] & Hp & _).
  by eapply collectPoints_in_range.
Qed.

(** What a positive answer of the estimator implies. *)
Lemma refineMatchesWithHomography_true
  (queryKeypoints trainKeypoints : list (KeyPoint (F:=F))) (reprojectionThreshold : F)
  (matches matches' : list (DMatch (F:=F))) (homography homography' : Mat) :
  refineMatchesWithHomography queryKeypoints trainKeypoints reprojectionThreshold
    matches homography = Ok (true, matches', homography') ->
  sublist matches' matches /\ 25 < vec_size matches' /\
  Forall (keypoints_in_range queryKeypoints trainKeypoints) matches.
Proof.
  intros H.
  pose proof (refineMatchesWithHomography_sublist _ _ _ _ _ _ _ _ H) as Hsub.
  pose proof (refineMatchesWithHomography_found _ _ _ _ _ _ _ _ H eq_refl) as H25.
  split; [exact Hsub|]. split; [exact H25|].
  eapply refineMatchesWithHomography_gate; [exact H|].
  apply sublist_length in Hsub. unfold vec_size in *. lia.
Qed.

(** X1.  When the estimator returns, the matches it leaves are a sublist
    of the ones it received and the returned flag says whether more than
    25 are left.  It never asserts or throws; where it does not return, the
    gate of 25 was passed and [operator[]] was applied out of range: a
    received match has an index outside its keypoint vector, or the inlier
    mask is longer than the match list. *)
Theorem refineMatchesWithHomography_returns
  (queryKeypoints trainKeypoints : list (KeyPoint (F:=F))) (reprojectionThreshold : F)
  (matches : list (DMatch (F:=F))) (homography : Mat) :
  match refineMatchesWithHomography queryKeypoints trainKeypoints reprojectionThreshold
          matches homography with
  | Ok (found, matches', _) =>
      sublist matches' matches /\ (found = true <-> 25 < vec_size matches')
  | Fatal w =>
      w = OutOfRange /\ 25 <= vec_size matches /\
      (~ Forall (keypoints_in_range queryKeypoints trainKeypoints) matches \/
       (length matches
        < length (snd (estimateOf queryKeypoints trainKeypoints reprojectionThreshold
                         matches)))%nat)
  end.
Proof.
  destruct (refineMatchesWithHomography _ _ _ _ _) as [[[found matches'] h']|w] eqn:H.
  - split; [by eapply refineMatchesWithHomography_sublist|].
    split; [by eapply refineMatchesWithHomography_found|].
    revert H. unfold refineMatchesWithHomography, minNumberMatchesAllowed.
    destruct (Z.ltb_spec (vec_size matches) 25) as [Hlt|Hge].
    + intros [= <- <- _]. lia.
    + intros H. apply bind_Ok in H as ([src dst] & _ & H).
      destruct (findHomography src dst reprojectionThreshold) as [h mask].
      apply bind_Ok in H as (inliers & _ & [= <- <- _]). apply Z.ltb_lt.
  - split; [by eapply refineMatchesWithHomography_fault|].
    revert H. unfold refineMatchesWithHomography, minNumberMatchesAllowed, estimateOf.
    destruct (Z.ltb_spec (vec_size matches) 25) as [Hlt|Hge]; [discriminate|].
    intros H. split; [exact Hge|].
    destruct (collectPoints queryKeypoints trainKeypoints matches) as [[src dst]|w'] eqn:Hcp.
    + right. cbn [bind] in H.
      destruct (findHomography src dst reprojectionThreshold) as [h mask]. cbn [snd].
      destruct (Nat.le_gt_cases (length mask) (length matches)) as [Hle|Hgt]; [|exact Hgt].
      rewrite collectInliers_select in H by (simpl; lia). discriminate.
    + left. intros Hall. apply collectPoints_Ok in Hall as (src & dst & Hok & _).
      congruence.
Qed.

(** X2.  Twenty-five correspondences pass the first gate but can never
    succeed: a positive answer needs at least 26 of them. *)
Theorem refineMatchesWithHomography_needs_26
  (queryKeypoints trainKeypoints : list (KeyPoint (F:=F))) (reprojectionThreshold : F)
  (matches matches' : list (DMatch (F:=F))) (homography homography' : Mat) :
  refineMatchesWithHomography queryKeypoints trainKeypoints reprojectionThreshold
    matches homography = Ok (true, matches', homography') ->
  26 <= vec_size matches.
Proof.
  intros H. apply refineMatchesWithHomography_true in H as (Hsub & H25 & _).
  apply sublist_length in Hsub. unfold vec_size in *. lia.
Qed.

(** X3.  Nothing checks the indices of a match: with at least 25
    matches, one whose [trainIdx] or [queryIdx] lies outside its keypoint
    vector makes the estimator apply [operator[]] out of range.  Any match
    does when a keypoint vector is empty. *)
Theorem refineMatchesWithHomography_out_of_range
  (queryKeypoints trainKeypoints : list (KeyPoint (F:=F))) (reprojectionThreshold : F)
  (matches : list (DMatch (F:=F))) (homography : Mat) :
  25 <= vec_size matches ->
  (queryKeypoints = [] \/ trainKeypoints = [] \/
   ~ Forall (keypoints_in_range queryKeypoints trainKeypoints) matches) ->
  refineMatchesWithHomography queryKeypoints trainKeypoints reprojectionThreshold
    matches homography = Fatal OutOfRange.
Proof.
  intros Hge Hbad.
  assert (Hnot : ~ Forall (keypoints_in_range queryKeypoints trainKeypoints) matches).
  { destruct Hbad as [->|[->|Hbad]]; [| |exact Hbad]; intros Hall;
      (destruct matches as [|m rest]; [unfold vec_size in Hge; simpl in Hge; lia|]);
      apply Forall_cons in Hall as [[Ht Hq] _]; unfold vec_size in *; simpl in *; lia. }
  unfold refineMatchesWithHomography, minNumberMatchesAllowed.
  destruct (Z.ltb_spec (vec_size matches) 25) as [Hlt|_]; [lia|].
  destruct (collectPoints queryKeypoints trainKeypoints matches) as [[src dst]|w] eqn:Hcp.
  - by apply collectPoints_in_range in Hcp.
  - apply collectPoints_fault in Hcp as Hw. by subst w.
Qed.

End EstimationMore.

(** ** The ratio test, continued *)

Section RatioTestMore.
Context {F : Type} {FO : FloatOps F} {Mat : Type} {CV : OpenCV (F:=F) (Mat:=Mat)}.

Lemma ratioTestLoop_fault (knnMatches : list (list (DMatch (F:=F)))) :
  forall (matches : list (DMatch (F:=F))) (w : fault),
    ratioTestLoop knnMatches matches = Fatal w -> w = OutOfRange.
Proof.
  induction knnMatches as [|row rest IH]; intros matches w; simpl; [discriminate|].
  intros H. apply bind_Fatal in H as [H|(b & _ & H)]; [by eapply vec_at_fault|].
  apply bind_Fatal in H as [H|(s & _ & H)]; [by eapply vec_at_fault|].
  destruct (fltb _ _); by eapply IH.
Qed.

Lemma ratioTestLoop_Ok (knnMatches : list (list (DMatch (F:=F)))) :
  forall matches result : list (DMatch (F:=F)),
    ratioTestLoop knnMatches matches = Ok result ->
    result = matches ++ flat_map ratio_kept_of knnMatches.
Proof.
  induction knnMatches as [|row rest IH]; intros matches result; simpl.
  - intros [= <-]. by rewrite app_nil_r.
  - destruct row as [|bestMatch [|betterMatch row]]; try discriminate.
    change (vec_at (bestMatch :: betterMatch :: row) 0) with (Ok bestMatch).
    change (vec_at (bestMatch :: betterMatch :: row) 1) with (Ok betterMatch).
    cbn [bind ratio_kept_of].
    destruct (fltb (distanceRatio bestMatch betterMatch) minRatio); intros H;
      apply IH in H as ->; [by rewrite <- app_assoc | reflexivity].
Qed.

(** X4.  The loop reads [knnMatches[i][1]] without a check: it runs to the end
    exactly when every row holds two matches or more, and otherwise ends
    in an out-of-range read. *)
Theorem ratioTestLoop_total (knnMatches : list (list (DMatch (F:=F)))) :
  forall matches : list (DMatch (F:=F)),
    ratioTestLoop knnMatches matches
    = if forallb (fun row => (2 <=? length row)%nat) knnMatches
      then Ok (matches ++ flat_map ratio_kept_of knnMatches)
      else Fatal OutOfRange.
Proof.
  induction knnMatches as [|row rest IH]; intros matches; simpl.
  - by rewrite app_nil_r.
  - destruct row as [|bestMatch [|betterMatch row]]; try reflexivity.
    change (vec_at (bestMatch :: betterMatch :: row) 0) with (Ok bestMatch).
    change (vec_at (bestMatch :: betterMatch :: row) 1) with (Ok betterMatch).
    cbn [bind ratio_kept_of length Nat.leb andb].
    destruct (fltb (distanceRatio bestMatch betterMatch) minRatio); rewrite IH;
      destruct (forallb _ rest); try reflexivity.
    by rewrite <- app_assoc.
Qed.

Lemma ratio_kept_sublist (knnMatches : list (list (DMatch (F:=F)))) :
  sublist (flat_map ratio_kept_of knnMatches) (flat_map (take 1) knnMatches).
Proof.
  induction knnMatches as [|row rest IH]; simpl; [constructor|].
  apply sublist_app; [|exact IH].
  destruct row as [|b [|s row]]; simpl; try apply sublist_nil_l.
  destruct (fltb _ _); [reflexivity | apply sublist_nil_l].
Qed.

Lemma ratio_kept_passed (knnMatches : list (list (DMatch (F:=F)))) :
  Forall (fun m => exists betterMatch rest,
                     m :: betterMatch :: rest ∈ knnMatches /\
                     fltb (distanceRatio m betterMatch) minRatio = true)
    (flat_map ratio_kept_of knnMatches).
Proof.
  induction knnMatches as [|row rest IH]; simpl; [constructor|].
  apply Forall_app. split.
  - destruct row as [|b [|s row]]; simpl; try constructor.
    destruct (fltb _ _) eqn:Hp; constructor; [|constructor].
    exists s, row. split; [left | exact Hp].
  - eapply Forall_impl; [exact IH|]. intros m (s & row' & Hin & Hp).
    exists s, row'. split; [by right | exact Hp].
Qed.

(** X5.  In ratio-test mode the matches returned are best matches of
    [knnMatch] rows, in row order, and each of them passed the comparison
    with the second match of its row. *)
Theorem matchDescriptors_ratio_keeps_best (matcher : DescriptorMatcher (Mat:=Mat))
  (queryDescriptors : Mat) (matches : list (DMatch (F:=F))) :
  matchDescriptors true matcher queryDescriptors = Ok matches ->
  let knnMatches := knnMatch (trainDescCollection matcher) queryDescriptors 2 in
  sublist matches (flat_map (take 1) knnMatches) /\
  Forall (fun m => exists betterMatch rest,
                     m :: betterMatch :: rest ∈ knnMatches /\
                     fltb (distanceRatio m betterMatch) minRatio = true) matches.
Proof.
  unfold matchDescriptors. intros H. apply ratioTestLoop_Ok in H as ->. cbn [app].
  split; [apply ratio_kept_sublist | apply ratio_kept_passed].
Qed.

End RatioTestMore.

Lemma ratio_decision_agrees_spec (n : nat) :
  ratio_decision_agrees n = true ->
  forall a b : Z,
    0 <= a <= Z.of_nat n -> 0 <= b <= Z.of_nat n ->
    fltb (fdiv (Binary32.of_int a) (Binary32.of_int b)) (minRatio (F:=Binary32.float))
    = (3 * a <? 2 * b).
Proof.
  unfold ratio_decision_agrees. cbv zeta. intros H a b Ha Hb.
  assert (Hin : forall z, 0 <= z <= Z.of_nat n -> In z (map Z.of_nat (seq 0 (S n)))).
  { intros z Hz. apply in_map_iff. exists (Z.to_nat z). split; [lia|].
    apply in_seq. lia. }
  pose proof (proj1 (forallb_forall _ _) H a (Hin a Ha)) as Hrow.
  pose proof (proj1 (forallb_forall _ _) Hrow b (Hin b Hb)) as Hab.
  by apply Bool.eqb_prop in Hab.
Qed.

Lemma ratio_decision_agrees_256 : ratio_decision_agrees 256 = true.
Proof. vm_compute. reflexivity. Qed.

(** X6.  In binary32, for integer distances up to 256 (the Hamming distances
    of 32-byte descriptors) the test [best / second < 1.f / 1.5f] holds
    exactly when [3 best < 2 second]: the rounding of the quotient and of
    the threshold never changes the decision, and [0 / 0] is rejected. *)
Theorem ratio_test_binary32_decision (bestMatch betterMatch : DMatch (F:=Binary32.float))
  (a b : Z) :
  0 <= a <= 256 -> 0 <= b <= 256 ->
  distance bestMatch = of_int a -> distance betterMatch = of_int b ->
  fltb (distanceRatio bestMatch betterMatch) minRatio = (3 * a <? 2 * b).
Proof.
  intros Ha Hb Hda Hdb. unfold distanceRatio. rewrite Hda, Hdb.
  apply (ratio_decision_agrees_spec 256 ratio_decision_agrees_256); lia.
Qed.

Lemma matchDescriptors_ratio_keeps_best_witness :
  exists matches,
    matchDescriptors (CV:=cv32) true (mkMatcher [Sample.descriptors 28])
      (Sample.descriptors 30) = Ok matches /\
    sublist matches
      (flat_map (take 1) (knnMatch (OpenCV:=cv32) [Sample.descriptors 28]
                            (Sample.descriptors 30) 2)) /\
    length matches = 28%nat.
Proof.
  eexists. split; [vm_compute; reflexivity|].
  match goal with
  | |- sublist ?ms _ /\ _ =>
      assert (Hrun : matchDescriptors (CV:=cv32) true (mkMatcher [Sample.descriptors 28])
                       (Sample.descriptors 30) = Ok ms) by (vm_compute; reflexivity);
      pose proof (matchDescriptors_ratio_keeps_best (CV:=cv32) _ _ _ Hrun) as [Hsub _]
  end.
  split; [exact Hsub | reflexivity].
Defined.

(** Distances 2 and 3: the quotient rounds to the threshold itself and
    the match is dropped, as [3 * 2 < 2 * 3] is false. *)
Lemma ratio_test_binary32_decision_witness :
  fltb (distanceRatio (F:=Binary32.float) (mkDMatch 0 0 0 (of_int 2))
          (mkDMatch 0 1 0 (of_int 3))) minRatio = false.
Proof.
  apply (ratio_test_binary32_decision (mkDMatch 0 0 0 (of_int 2))
           (mkDMatch 0 1 0 (of_int 3)) 2 3); [lia | lia | reflexivity | reflexivity].
Defined.

(** ** The matching jobs *)

Section Dispatch.
Context {F : Type} {FO : FloatOps F} {Mat : Type} {CV : OpenCV (F:=F) (Mat:=Mat)}.
Implicit Types (d : PatternDetector (F:=F) (Mat:=Mat)).

Lemma findPatternMatch_split (queryDescriptors : Mat) (patternIdx : Z) d :
  findPatternMatch queryDescriptors patternIdx d
  = bind (matchJob queryDescriptors patternIdx d) (fun r => writeSlot patternIdx r d).
Proof.
  unfold findPatternMatch, matchJob, writeSlot.
  destruct (vec_at (m_matchers d) patternIdx) as [matcher|]; [|reflexivity]. cbn [bind].
  destruct (matchDescriptors _ matcher queryDescriptors) as [matches|]; [|reflexivity].
  cbn [bind].
  destruct (vec_at (m_patterns d) patternIdx) as [pattern|]; [|reflexivity]. cbn [bind].
  destruct (refineMatchesWithHomography _ _ _ _ _) as [[[found ms] h]|]; reflexivity.
Qed.

Lemma matchJob_fault (queryDescriptors : Mat) (patternIdx : Z) d (w : fault) :
  matchJob queryDescriptors patternIdx d = Fatal w -> w = OutOfRange.
Proof.
  unfold matchJob. intros H.
  apply bind_Fatal in H as [H|(matcher & _ & H)]; [by eapply vec_at_fault|].
  apply bind_Fatal in H as [H|(matches & _ & H)].
  { unfold matchDescriptors in H. destruct (enableRatioTest d); [|discriminate].
    by eapply ratioTestLoop_fault. }
  apply bind_Fatal in H as [H|(pattern & _ & H)]; [by eapply vec_at_fault|].
  by eapply refineMatchesWithHomography_fault.
Qed.

Lemma writeSlot_nat (i : nat) (found : bool) (matches : list (DMatch (F:=F)))
  (homography : Mat) d :
  writeSlot (Z.of_nat i) (found, matches, homography) d
  = if has_slot i d
    then Ok (set_slots (<[i := matches]> (m_matches d))
               (<[i := found]> (m_matches_homographyFound d))
               (<[i := homography]> (m_matches_homography d)) d)
    else Fatal OutOfRange.
Proof.
  unfold writeSlot, vec_set, has_slot.
  destruct (Z.ltb_spec (Z.of_nat i) 0); [lia|]. rewrite Nat2Z.id.
  destruct (Z.ltb_spec (Z.of_nat i) (Z.of_nat (length (m_matches d))));
    destruct (Nat.ltb_spec i (length (m_matches d))); try lia; [|reflexivity].
  cbn [bind andb].
  destruct (Z.ltb_spec (Z.of_nat i) (Z.of_nat (length (m_matches_homography d))));
    destruct (Nat.ltb_spec i (length (m_matches_homography d))); try lia; [|reflexivity].
  cbn [bind andb].
  destruct (Z.ltb_spec (Z.of_nat i) (Z.of_nat (length (m_matches_homographyFound d))));
    destruct (Nat.ltb_spec i (length (m_matches_homographyFound d))); try lia;
    reflexivity.
Qed.

(** A job reads the configuration, the store and the query, not the
    result slots. *)
Lemma matchJob_set_slots (queryDescriptors : Mat) (patternIdx : Z)
  (ms : list (list (DMatch (F:=F)))) (fs : list bool) (hs : list Mat) d :
  matchJob queryDescriptors patternIdx (set_slots ms fs hs d)
  = matchJob queryDescriptors patternIdx d.
Proof. reflexivity. Qed.

(** One job as an equation. *)
Lemma findPatternMatch_nat (queryDescriptors : Mat) (i : nat) d :
  findPatternMatch queryDescriptors (Z.of_nat i) d
  = match matchJob queryDescriptors (Z.of_nat i) d with
    | Ok (found, matches, homography) =>
        if has_slot i d
        then Ok (set_slots (<[i := matches]> (m_matches d))
                   (<[i := found]> (m_matches_homographyFound d))
                   (<[i := homography]> (m_matches_homography d)) d)
        else Fatal OutOfRange
    | Fatal _ => Fatal OutOfRange
    end.
Proof.
  rewrite findPatternMatch_split.
  destruct (matchJob queryDescriptors (Z.of_nat i) d) as [[[found ms] h]|w] eqn:Hj.
  - cbn [bind]. apply writeSlot_nat.
  - apply matchJob_fault in Hj as ->. reflexivity.
Qed.

(** X7.  One job fails, out of range, when its computation fails or its
    slot does not exist; otherwise it stores its result in slot [i] of
    each of the three result vectors, leaves every other slot as it was
    and changes no other member. *)
Theorem findPatternMatch_writes_own_slot (queryDescriptors : Mat) (i : nat) d :
  match findPatternMatch queryDescriptors (Z.of_nat i) d with
  | Ok d' =>
      exists found matches homography,
        matchJob queryDescriptors (Z.of_nat i) d = Ok (found, matches, homography) /\
        m_matches d' !! i = Some matches /\
        m_matches_homographyFound d' !! i = Some found /\
        m_matches_homography d' !! i = Some homography /\
        (forall j, j <> i ->
           m_matches d' !! j = m_matches d !! j /\
           m_matches_homographyFound d' !! j = m_matches_homographyFound d !! j /\
           m_matches_homography d' !! j = m_matches_homography d !! j) /\
        d' = set_slots (m_matches d') (m_matches_homographyFound d')
               (m_matches_homography d') d
  | Fatal w =>
      w = OutOfRange /\
      (has_slot i d = false \/
       matchJob queryDescriptors (Z.of_nat i) d = Fatal OutOfRange)
  end.
Proof.
  rewrite findPatternMatch_nat.
  destruct (matchJob queryDescriptors (Z.of_nat i) d) as [[[found ms] h]|w] eqn:Hj.
  - destruct (has_slot i d) eqn:Hs; [|split; [reflexivity | by left]].
    unfold has_slot in Hs. apply andb_prop in Hs as [Hs H3].
    apply andb_prop in Hs as [H1 H2]. apply Nat.ltb_lt in H1, H2, H3.
    exists found, ms, h.
    cbn [set_slots m_matches m_matches_homographyFound m_matches_homography].
    split; [reflexivity|]. rewrite !list_lookup_insert_eq by assumption.
    do 3 (split; [reflexivity|]). split; [|reflexivity].
    intros j Hne. by rewrite !list_lookup_insert_ne by congruence.
  - split; [reflexivity|]. right. by apply matchJob_fault in Hj as ->.
Qed.

Lemma has_slot_set_slots_insert (i j : nat) d
  (ms : list (DMatch (F:=F))) (f : bool) (h : Mat) :
  has_slot i (set_slots (<[j := ms]> (m_matches d))
                (<[j := f]> (m_matches_homographyFound d))
                (<[j := h]> (m_matches_homography d)) d)
  = has_slot i d.
Proof.
  unfold has_slot. cbn [set_slots m_matches m_matches_homography m_matches_homographyFound].
  by rewrite !length_insert.
Qed.

Lemma findPatternMatch_commute (queryDescriptors : Mat) (i j : nat) d :
  bind (findPatternMatch queryDescriptors (Z.of_nat i) d)
       (findPatternMatch queryDescriptors (Z.of_nat j))
  = bind (findPatternMatch queryDescriptors (Z.of_nat j) d)
         (findPatternMatch queryDescriptors (Z.of_nat i)).
Proof.
  destruct (decide (i = j)) as [->|Hne]; [reflexivity|].
  rewrite (findPatternMatch_nat _ i d), (findPatternMatch_nat _ j d).
  destruct (matchJob queryDescriptors (Z.of_nat i) d) as [[[fi mi] hi]|wi] eqn:Hi;
    destruct (matchJob queryDescriptors (Z.of_nat j) d) as [[[fj mj] hj]|wj] eqn:Hj;
    destruct (has_slot i d) eqn:Hsi; destruct (has_slot j d) eqn:Hsj;
    cbn [bind]; try reflexivity;
    rewrite ?findPatternMatch_nat, ?matchJob_set_slots, ?Hi, ?Hj,
      ?has_slot_set_slots_insert, ?Hsi, ?Hsj; try reflexivity.
  cbn [set_slots m_matches m_matches_homography m_matches_homographyFound
       enableRatioTest enableHomographyRefinement homographyReprojectionThreshold
       m_patterns m_matchers m_grayImg m_warpedImg m_queryKeypoints m_queryDescriptors
       m_roughHomography m_refinedHomography m_pattern].
  rewrite (list_insert_insert_ne (m_matches d) j i) by congruence.
  rewrite (list_insert_insert_ne (m_matches_homographyFound d) j i) by congruence.
  rewrite (list_insert_insert_ne (m_matches_homography d) j i) by congruence.
  reflexivity.
Qed.

(** X8.  The order in which the jobs run does not matter: any two schedules
    of the same indices end in the same detector state, or both fail. *)
Theorem PatternMatch_schedule_independent (queryDescriptors : Mat)
  (range range' : list nat) :
  Permutation range range' ->
  forall d, PatternMatch queryDescriptors range d = PatternMatch queryDescriptors range' d.
Proof.
  induction 1 as [|i l l' _ IH|i j l|l l' l'' _ IH1 _ IH2]; intros d.
  - reflexivity.
  - simpl. destruct (findPatternMatch _ _ d); simpl; [apply IH | reflexivity].
  - change (PatternMatch queryDescriptors (j :: i :: l) d)
      with (bind (findPatternMatch queryDescriptors (Z.of_nat j) d)
              (fun d1 => bind (findPatternMatch queryDescriptors (Z.of_nat i) d1)
                           (PatternMatch queryDescriptors l))).
    change (PatternMatch queryDescriptors (i :: j :: l) d)
      with (bind (findPatternMatch queryDescriptors (Z.of_nat i) d)
              (fun d1 => bind (findPatternMatch queryDescriptors (Z.of_nat j) d1)
                           (PatternMatch queryDescriptors l))).
    pose proof (findPatternMatch_commute queryDescriptors i j d) as Hc.
    destruct (findPatternMatch queryDescriptors (Z.of_nat i) d) as [di|wi];
      destruct (findPatternMatch queryDescriptors (Z.of_nat j) d) as [dj|wj];
      cbn [bind] in *.
    + destruct (findPatternMatch queryDescriptors (Z.of_nat j) di);
        destruct (findPatternMatch queryDescriptors (Z.of_nat i) dj);
        cbn [bind]; congruence.
    + destruct (findPatternMatch queryDescriptors (Z.of_nat j) di);
        cbn [bind]; congruence.
    + destruct (findPatternMatch queryDescriptors (Z.of_nat i) dj);
        cbn [bind]; congruence.
    + congruence.
  - by rewrite IH1, IH2.
Qed.

End Dispatch.

(** ** What a positive answer guarantees *)

Section FindPatternMore.
Context {F : Type} {FO : FloatOps F} {Mat : Type} {CV : OpenCV (F:=F) (Mat:=Mat)}.
Implicit Types (d : PatternDetector (F:=F) (Mat:=Mat)).



Lemma reportWinner_state (sel : Selection) (info info' : PatternTrackingInfo (F:=F) (Mat:=Mat))
  d d' (b : bool) :
  reportWinner sel info d = Ok (b, info', d') ->
  enableRatioTest d' = enableRatioTest d /\
  enableHomographyRefinement d' = enableHomographyRefinement d /\
  homographyReprojectionThreshold d' = homographyReprojectionThreshold d /\
  m_patterns d' = m_patterns d /\
  m_matchers d' = m_matchers d /\
  m_queryKeypoints d' = m_queryKeypoints d /\
  m_matches d' = m_matches d /\
  m_matches_homographyFound d' = m_matches_homographyFound d /\
  info_patternIdx info' = maxFoundIdx sel.
Proof.
  unfold reportWinner. intros H.
  apply bind_Ok in H as (rough & _ & H).
  apply bind_Ok in H as (pattern & _ & H).
  cbn [set_winner enableHomographyRefinement] in H.
  destruct (enableHomographyRefinement d) eqn:He.
  - apply bind_Ok in H as ([[found warped] refined] & _ & H).
    apply bind_Ok in H as (homography & _ & [= _ <- <-]).
    repeat split. exact He.
  - injection H as _ <- <-. repeat split. exact He.
Qed.

(** X10.  [findPattern] never changes what [train] and the constructor set up:
    the two switches, the threshold, the pattern store and the matchers. *)
Theorem findPattern_keeps_training (image : Mat)
  (info info' : PatternTrackingInfo (F:=F) (Mat:=Mat)) d d' (b : bool) :
  findPattern image info d = Ok (b, info', d') ->
  enableRatioTest d' = enableRatioTest d /\
  enableHomographyRefinement d' = enableHomographyRefinement d /\
  homographyReprojectionThreshold d' = homographyReprojectionThreshold d /\
  m_patterns d' = m_patterns d /\
  m_matchers d' = m_matchers d.
Proof.
  unfold findPattern. intros H.
  apply bind_Ok in H as (d1 & Hm & H).
  apply bind_Ok in H as (sel & _ & H).
  destruct (matchStage_slots _ _ _ Hm) as (b0 & kps & ds & ms & fs & hs & _ & Hd1 & _).
  destruct (negb (homographyFound sel)).
  - injection H as _ _ <-. by rewrite Hd1.
  - apply reportWinner_state in H as (-> & -> & -> & -> & -> & _). by rewrite Hd1.
Qed.

(** X11.  When [findPattern] returns [true] (the pattern count and the
    match counts within the range of [int]), the reported index is that
    of a pattern of the store, and the result slot with that index reports
    a homography and holds more than 25 matches. *)
Theorem findPattern_true_is_backed (image : Mat)
  (info info' : PatternTrackingInfo (F:=F) (Mat:=Mat)) d d' :
  findPattern image info d = Ok (true, info', d') ->
  vec_size (m_patterns d) < 2 ^ 31 ->
  Forall (fun ms => vec_size ms < 2 ^ 31) (m_matches d') ->
  exists (i : nat) pattern ms,
    info_patternIdx info' = Z.of_nat i /\
    m_patterns d !! i = Some pattern /\
    m_matches_homographyFound d' !! i = Some true /\
    m_matches d' !! i = Some ms /\
    25 < vec_size ms.
Proof.
  unfold findPattern. intros H Hn Hsz.
  apply bind_Ok in H as (d1 & Hm & H).
  apply bind_Ok in H as (sel & Hs & H).
  destruct (homographyFound sel) eqn:Hf; cbn [negb] in H; [|discriminate].
  apply reportWinner_state in H as (_ & _ & _ & _ & _ & _ & Hms & Hfs & Hidx).
  rewrite Hms, Hfs in *. clear Hms Hfs.
  destruct (matchStage_slots _ _ _ Hm)
    as (b0 & kps & ds & ms0 & fs0 & hs0 & _ & Hd1 & Hlm & Hlf & _ & Hsound).
  assert (Hpat : m_patterns d1 = m_patterns d) by (by rewrite Hd1).
  assert (Hfs : m_matches_homographyFound d1 = fs0) by (by rewrite Hd1).
  assert (Hms : m_matches d1 = ms0) by (by rewrite Hd1).
  unfold selectBest in Hs. rewrite Hpat in Hs. unfold vec_size in Hn.
  destruct (selectLoop_scanned (m_matches_homographyFound d1) (m_matches d1)
              (length (m_patterns d)))
    as (sel' & Hsel & _ & _ & Hacc);
    [rewrite Hfs; lia | rewrite Hms; lia | lia | assumption |].
  rewrite Hs in Hsel. injection Hsel as <-. rewrite Hf in Hacc.
  destruct Hacc as (_ & i & Hlt & Hi & (Hfi & ms & Hmi & _) & _).
  destruct (lookup_lt_is_Some_2 (m_patterns d) i Hlt) as [pattern Hp].
  exists i, pattern, ms. rewrite Hidx.
  do 4 (split; [assumption|]).
  rewrite Hfs in Hfi. rewrite Hms in Hmi. by eapply Hsound.
Qed.

End FindPatternMore.

(** ** Feature extraction, grey conversion, registration, training *)

Section Frontend.
Context {F : Type} {FO : FloatOps F} {Mat : Type} {CV : OpenCV (F:=F) (Mat:=Mat)}.
Implicit Types (d : PatternDetector (F:=F) (Mat:=Mat)).

Lemma extractFeatures_Fatal (image : Mat) (keypoints : list (KeyPoint (F:=F)))
  (descriptors : Mat) (w : fault) :
  extractFeatures image keypoints descriptors = Fatal w ->
  w = AssertFailed /\ ~ assertions_hold image.
Proof.
  unfold extractFeatures, assertions_hold.
  destruct (Mat_empty image) eqn:He.
  { intros [= <-]. split; [reflexivity|]. intros [? _]. discriminate. }
  destruct (Z.eqb_spec (Mat_channels image) 1) as [Hc|Hc]; cbn [negb].
  2:{ intros [= <-]. split; [reflexivity|]. intros [_ ?]. contradiction. }
  destruct (detect image) as [|k ks]; [discriminate|].
  by destruct (compute image (k :: ks)) as [[|k' ks'] ds'].
Qed.

Lemma extractFeatures_Ok_assertions (image : Mat) (keypoints : list (KeyPoint (F:=F)))
  (descriptors : Mat) (r : bool * list (KeyPoint (F:=F)) * Mat) :
  extractFeatures image keypoints descriptors = Ok r -> assertions_hold image.
Proof.
  unfold extractFeatures, assertions_hold.
  destruct (Mat_empty image); [discriminate|].
  destruct (Z.eqb_spec (Mat_channels image) 1); [by split | discriminate].
Qed.

Lemma extractFeatures_none (image : Mat) (keypoints : list (KeyPoint (F:=F)))
  (descriptors : Mat) :
  assertions_hold image -> detect image = [] ->
  extractFeatures image keypoints descriptors = Ok (false, [], descriptors).
Proof.
  intros [He Hc] Hd. unfold extractFeatures. by rewrite He, Hc, Hd.
Qed.

(** X12.  [extractFeatures] returns exactly when its two assertions hold, and
    fails on an assertion otherwise; the returned flag says whether
    keypoints are left; when the detector finds nothing the [descriptors]
    argument is left as it was. *)
Theorem extractFeatures_returns (image : Mat) (keypoints : list (KeyPoint (F:=F)))
  (descriptors : Mat) :
  match extractFeatures image keypoints descriptors with
  | Ok (b, keypoints', descriptors') =>
      assertions_hold image /\
      (b = true <-> keypoints' <> []) /\
      (detect image = [] -> keypoints' = [] /\ descriptors' = descriptors)
  | Fatal w => w = AssertFailed /\ ~ assertions_hold image
  end.
Proof.
  unfold extractFeatures, assertions_hold.
  destruct (Mat_empty image) eqn:He.
  { split; [reflexivity|]. intros [? _]. discriminate. }
  destruct (Z.eqb_spec (Mat_channels image) 1) as [Hc|Hc]; cbn [negb].
  2:{ split; [reflexivity|]. intros [_ ?]. contradiction. }
  destruct (detect image) as [|k ks] eqn:Hd.
  { repeat split; try discriminate; congruence. }
  destruct (compute image (k :: ks)) as [[|k' ks'] ds'].
  - repeat split; try discriminate; congruence.
  - repeat split; try discriminate; congruence.
Qed.

Lemma getGray_unsupported (image gray : Mat) :
  Mat_channels image <> 3 -> Mat_channels image <> 4 -> Mat_channels image <> 1 ->
  getGray image gray = gray.
Proof.
  intros H3 H4 H1. unfold getGray.
  destruct (Z.eqb_spec (Mat_channels image) 3); [contradiction|].
  destruct (Z.eqb_spec (Mat_channels image) 4); [contradiction|].
  destruct (Z.eqb_spec (Mat_channels image) 1); [contradiction | reflexivity].
Qed.

Lemma getGray_self (gray : Mat) :
  Mat_channels gray <> 3 -> Mat_channels gray <> 4 -> getGray gray gray = gray.
Proof.
  intros H3 H4. unfold getGray.
  destruct (Z.eqb_spec (Mat_channels gray) 3); [contradiction|].
  destruct (Z.eqb_spec (Mat_channels gray) 4); [contradiction|].
  by destruct (Mat_channels gray =? 1).
Qed.

(** X13.  A frame with a channel count other than 1, 3 or 4 is not looked at:
    [getGray] leaves [m_grayImg] as the previous call left it, and
    [findPattern] answers for that earlier grey image again. *)
Theorem findPattern_unsupported_channels (image : Mat)
  (info : PatternTrackingInfo (F:=F) (Mat:=Mat)) d :
  Mat_channels image <> 1 -> Mat_channels image <> 3 -> Mat_channels image <> 4 ->
  Mat_channels (m_grayImg d) <> 3 -> Mat_channels (m_grayImg d) <> 4 ->
  findPattern image info d = findPattern (m_grayImg d) info d.
Proof.
  intros H1 H3 H4 G3 G4. unfold findPattern, matchStage.
  by rewrite getGray_unsupported, getGray_self.
Qed.

Lemma buildPattern_returns (image : Mat) :
  match buildPattern image with
  | Ok p => registered image p
  | Fatal w => w = AssertFailed /\ ~ assertions_hold (getGray image Mat_new)
  end.
Proof.
  unfold buildPattern, registered.
  destruct (extractFeatures (getGray image Mat_new) [] Mat_new)
    as [[[b kps] ds]|w] eqn:He; cbn [bind].
  - apply extractFeatures_Ok_assertions in He as Ha.
    cbn [pattern_size pattern_points2d pattern_keypoints pattern_descriptors].
    repeat split; try apply Ha. by exists b.
  - by apply extractFeatures_Fatal in He.
Qed.

Lemma buildPatternsLoop_returns (images : list Mat) :
  forall acc : list (Pattern (F:=F) (Mat:=Mat)),
    match buildPatternsLoop images acc with
    | Ok patterns => exists ps, patterns = acc ++ ps /\ Forall2 registered images ps
    | Fatal w =>
        w = AssertFailed /\
        Exists (fun image => ~ assertions_hold (getGray image Mat_new)) images
    end.
Proof.
  induction images as [|image rest IH]; intros acc; simpl.
  - exists []. split; [by rewrite app_nil_r | constructor].
  - pose proof (buildPattern_returns image) as Hb.
    destruct (buildPattern image) as [p|w]; cbn [bind].
    + specialize (IH (acc ++ [p])).
      destruct (buildPatternsLoop rest (acc ++ [p])) as [patterns|w].
      * destruct IH as (ps & -> & Hall). exists (p :: ps).
        split; [by rewrite <- app_assoc | by constructor].
      * destruct IH as [-> Hex]. split; [reflexivity | by apply Exists_cons_tl].
    + destruct Hb as [-> Hn]. split; [reflexivity | by apply Exists_cons_hd].
Qed.

(** X14.  [buildPatternsFromImages] returns one pattern per image, in order,
    each with the image's size, the four image corners in the order top
    left, top right, bottom right, bottom left, and the keypoints and
    descriptors extracted from the grey image; it fails, on an assertion,
    exactly when the grey conversion of some image is empty or not
    single-channel (a channel count other than 1, 3 or 4 leaves it
    empty). *)
Theorem buildPatternsFromImages_returns (images : list Mat) :
  match buildPatternsFromImages images with
  | Ok patterns => Forall2 registered images patterns
  | Fatal w =>
      w = AssertFailed /\
      Exists (fun image => ~ assertions_hold (getGray image Mat_new)) images
  end.
Proof.
  unfold buildPatternsFromImages.
  pose proof (buildPatternsLoop_returns images []) as H.
  destruct (buildPatternsLoop images []) as [patterns|w]; [|exact H].
  by destruct H as (ps & -> & Hall).
Qed.

(** X15.  [train] is not incremental: training again replaces the store and
    the matchers, and matcher [i] holds the descriptors of pattern [i]
    and nothing else. *)
Theorem train_replaces (patterns patterns0 : list (Pattern (F:=F) (Mat:=Mat))) d :
  train patterns (train patterns0 d) = train patterns d /\
  m_patterns (train patterns d) = patterns /\
  Forall2 (fun p m => trainDescCollection m = [pattern_descriptors p])
    patterns (m_matchers (train patterns d)).
Proof.
  split; [reflexivity|]. split; [reflexivity|].
  unfold train. cbn [set_trained m_matchers].
  induction patterns as [|p ps IH]; simpl; constructor; [reflexivity | exact IH].
Qed.

End Frontend.

(** ** A frame without features, on a detector without stale matches *)

Section NoFeatures.
Context {F : Type} {FO : FloatOps F} {Mat : Type} {CV : OpenCV (F:=F) (Mat:=Mat)}.
Implicit Types (d : PatternDetector (F:=F) (Mat:=Mat)).

Lemma selectLoop_all_false (found : list bool) (matches : list (list (DMatch (F:=F))))
  (range : list nat) (acc : Selection) :
  Forall (eq false) found ->
  Forall (fun i => (i < length found)%nat) range ->
  selectLoop found matches range acc = Ok acc.
Proof.
  intros Hf Hr. induction Hr as [|i rest Hi _ IH]; simpl; [reflexivity|].
  unfold selectStep. rewrite vec_at_nat.
  destruct (lookup_lt_is_Some_2 found i Hi) as [f Hfi]. rewrite Hfi.
  pose proof (proj1 (Forall_lookup _ _) Hf i f Hfi) as <-. cbn [bind]. exact IH.
Qed.

(** Jobs that all end without a homography leave every flag [false]. *)
Lemma PatternMatch_none (queryDescriptors : Mat) d0 (range : list nat) :
  Forall (fun i => exists ms h, matchJob queryDescriptors (Z.of_nat i) d0
                                = Ok (false, ms, h)) range ->
  forall (ms : list (list (DMatch (F:=F)))) (fs : list bool) (hs : list Mat),
    Forall (fun i => (i < length ms)%nat /\ (i < length fs)%nat /\ (i < length hs)%nat)
      range ->
    Forall (eq false) fs ->
    exists ms' fs' hs',
      PatternMatch queryDescriptors range (set_slots ms fs hs d0)
      = Ok (set_slots ms' fs' hs' d0) /\
      length fs' = length fs /\ Forall (eq false) fs'.
Proof.
  induction 1 as [|i rest (mi & hi & Hjob) _ IH]; intros ms fs hs Hlen Hfalse; simpl.
  - by exists ms, fs, hs.
  - apply Forall_cons in Hlen as [(Hm & Hf & Hh) Hlen].
    rewrite findPatternMatch_nat, matchJob_set_slots, Hjob.
    unfold has_slot. cbn [set_slots m_matches m_matches_homography
                          m_matches_homographyFound].
    rewrite (proj2 (Nat.ltb_lt _ _) Hm), (proj2 (Nat.ltb_lt _ _) Hf),
      (proj2 (Nat.ltb_lt _ _) Hh).
    cbn [andb bind].
    destruct (IH (<[i := mi]> ms) (<[i := false]> fs) (<[i := hi]> hs))
      as (ms' & fs' & hs' & Hrun & Hl & Hall).
    + eapply Forall_impl; [exact Hlen|]. intros j. by rewrite !length_insert.
    + by apply Forall_insert.
    + exists ms', fs', hs'. rewrite length_insert in Hl.
      split; [exact Hrun|]. by split.
Qed.

(** X16.  The answer to a frame without features, under the condition
    the code needs: when
    the detector finds no keypoint in the frame and the descriptors left
    in [m_queryDescriptors] give fewer than 25 matches against every
    trained matcher (as the empty matrix of a new detector does),
    [findPattern] returns [false] and leaves [info] as it was. *)
Theorem findPattern_no_features (image : Mat)
  (info : PatternTrackingInfo (F:=F) (Mat:=Mat)) d :
  assertions_hold (getGray image (m_grayImg d)) ->
  detect (getGray image (m_grayImg d)) = [] ->
  length (m_matchers d) = length (m_patterns d) ->
  Forall (fun matcher =>
            exists ms, matchDescriptors (enableRatioTest d) matcher (m_queryDescriptors d)
                       = Ok ms /\ vec_size ms < 25) (m_matchers d) ->
  exists d', findPattern image info d = Ok (false, info, d') /\
             m_queryKeypoints d' = [].
Proof.
  intros Ha Hd Hlen Hfew.
  pose proof (extractFeatures_none _ (m_queryKeypoints d) (m_queryDescriptors d) Ha Hd)
    as Hex.
  unfold findPattern, matchStage. rewrite Hex. cbn [bind].
  cbn [set_query set_slots m_patterns m_queryDescriptors].
  set (n := length (m_patterns d)).
  set (d0 := set_query (getGray image (m_grayImg d)) [] (m_queryDescriptors d) d).
  destruct (PatternMatch_none (m_queryDescriptors d) d0 (seq 0 n))
    with (ms := replicate n ([] : list (DMatch (F:=F)))) (fs := replicate n false)
         (hs := replicate n (Mat_new (F:=F)))
    as (ms' & fs' & hs' & Hrun & Hl & Hall).
  - apply Forall_forall. intros i Hi. apply elem_of_seq in Hi as [_ Hi]. simpl in Hi.
    destruct (lookup_lt_is_Some_2 (m_matchers d) i) as [matcher Hm]; [lia|].
    destruct (lookup_lt_is_Some_2 (m_patterns d) i) as [pattern Hp]; [exact Hi|].
    destruct (proj1 (Forall_lookup _ _) Hfew i matcher Hm) as (ms & Hmd & Hsz).
    exists ms, Mat_new. unfold matchJob, d0.
    cbn [set_query m_matchers m_patterns enableRatioTest m_queryKeypoints
         homographyReprojectionThreshold].
    rewrite !vec_at_nat, Hm, Hp. cbn [bind]. rewrite Hmd. cbn [bind].
    unfold refineMatchesWithHomography, minNumberMatchesAllowed.
    destruct (Z.ltb_spec (vec_size ms) 25); [reflexivity | lia].
  - apply Forall_forall. intros i Hi. apply elem_of_seq in Hi as [_ Hi]. simpl in Hi.
    rewrite !length_replicate. lia.
  - apply Forall_replicate. reflexivity.
  - fold d0. rewrite Hrun. cbn [bind]. unfold selectBest.
    cbn [set_slots m_matches_homographyFound m_matches m_patterns].
    unfold d0 at 1. cbn [set_query m_patterns]. fold n.
    rewrite selectLoop_all_false; [| exact Hall |].
    + cbn [bind homographyFound negb]. eexists. split; reflexivity.
    + rewrite Hl, length_replicate. apply Forall_forall. intros i Hi.
      apply elem_of_seq in Hi. simpl in Hi. lia.
Qed.

End NoFeatures.

(** ** Runs for the properties above *)

Lemma refineMatchesWithHomography_needs_26_witness :
  26 <= vec_size (Sample.crossed (F:=Binary32.float) 30).
Proof.
  assert (Hrun : refineMatchesWithHomography (CV:=cv32) (Sample.keypoints 30)
                   (Sample.keypoints 30) (of_int 3) (Sample.crossed 30) Stub.Empty
                 = Ok (true, drop 2 (Sample.crossed 30), Stub.Homography [28]))
    by (vm_compute; reflexivity).
  exact (refineMatchesWithHomography_needs_26 (CV:=cv32) _ _ _ _ _ _ _ Hrun).
Defined.

(** Thirty matches and no query keypoint, as after a blank frame. *)
Lemma refineMatchesWithHomography_out_of_range_witness :
  refineMatchesWithHomography (CV:=cv32) [] (Sample.keypoints 30) (of_int 3)
    (Sample.pairs 30) Stub.Empty
  = Fatal OutOfRange.
Proof.
  apply (refineMatchesWithHomography_out_of_range (CV:=cv32)).
  - vm_compute. discriminate.
  - by left.
Defined.

(** The four jobs of the sample store in another order. *)
Lemma PatternMatch_schedule_independent_witness :
  exists d1 : PatternDetector (F:=Binary32.float) (Mat:=Stub.mat),
    matchStage (CV:=cv32) Sample.frame (Sample.trained true) = Ok d1 /\
    PatternMatch (CV:=cv32) (Sample.descriptors 30) [1; 0; 3; 2]%nat d1
    = PatternMatch (CV:=cv32) (Sample.descriptors 30) [0; 1; 2; 3]%nat d1.
Proof.
  eexists. split; [vm_compute; reflexivity|].
  apply (PatternMatch_schedule_independent (CV:=cv32)).
  apply perm_trans with [0; 1; 3; 2]%nat; [apply perm_swap|].
  do 2 apply perm_skip. apply perm_swap.
Defined.


Lemma findPattern_keeps_training_witness :
  exists info' d',
    findPattern (CV:=cv32) Sample.frame Sample.info0 (Sample.trained true)
    = Ok (true, info', d') /\
    enableRatioTest d' = true /\
    enableHomographyRefinement d' = true /\
    homographyReprojectionThreshold d' = of_int 3 /\
    m_patterns d' = m_patterns (Sample.trained true) /\
    m_matchers d' = m_matchers (Sample.trained true).
Proof.
  do 2 eexists. split; [vm_compute; reflexivity|].
  match goal with
  | |- enableRatioTest ?d' = _ /\ _ =>
      assert (Hrun : exists info',
                 findPattern (CV:=cv32) Sample.frame Sample.info0 (Sample.trained true)
                 = Ok (true, info', d')) by (eexists; vm_compute; reflexivity)
  end.
  destruct Hrun as [info' Hrun].
  exact (findPattern_keeps_training (CV:=cv32) _ _ _ _ _ _ Hrun).
Defined.

Lemma findPattern_true_is_backed_witness :
  exists info' d',
    findPattern (CV:=cv32) Sample.frame Sample.info0 (Sample.trained true)
    = Ok (true, info', d') /\
    exists (i : nat) pattern ms,
      info_patternIdx info' = Z.of_nat i /\
      m_patterns (Sample.trained true) !! i = Some pattern /\
      m_matches_homographyFound d' !! i = Some true /\
      m_matches d' !! i = Some ms /\
      25 < vec_size ms.
Proof.
  do 2 eexists. split; [vm_compute; reflexivity|].
  match goal with
  | |- exists i pattern ms, info_patternIdx ?info' = _ /\ _ /\
                            m_matches_homographyFound ?d' !! _ = _ /\ _ =>
      assert (Hrun : findPattern (CV:=cv32) Sample.frame Sample.info0 (Sample.trained true)
                     = Ok (true, info', d')) by (vm_compute; reflexivity);
      assert (Hsz : Forall (fun ms => vec_size ms < 2 ^ 31) (m_matches d'))
        by compute_done;
      assert (Hn : vec_size (m_patterns (Sample.trained (F:=Binary32.float) true)) < 2 ^ 31)
        by (vm_compute; reflexivity);
      exact (findPattern_true_is_backed (CV:=cv32) _ _ _ _ _ Hrun Hn Hsz)
  end.
Defined.

(** After the sample frame, a two-channel frame is answered from the
    grey image of the sample frame. *)
Lemma findPattern_unsupported_channels_witness :
  exists info1 d1,
    findPattern (CV:=cv32) Sample.frame Sample.info0 (Sample.trained true)
    = Ok (true, info1, d1) /\
    findPattern (CV:=cv32) Sample.two_channel info1 d1
    = findPattern (CV:=cv32) (m_grayImg d1) info1 d1.
Proof.
  do 2 eexists. split; [vm_compute; reflexivity|].
  apply (findPattern_unsupported_channels (CV:=cv32));
    intros E; vm_compute in E; discriminate.
Defined.

(** The blank frame as the first frame after training. *)
Lemma findPattern_no_features_witness :
  exists d',
    findPattern (CV:=cv32) Sample.blank Sample.info0 (Sample.trained false)
    = Ok (false, Sample.info0, d') /\
    m_queryKeypoints d' = [].
Proof.
  apply (findPattern_no_features (CV:=cv32) Sample.blank Sample.info0 (Sample.trained false)).
  - split; reflexivity.
  - reflexivity.
  - reflexivity.
  - repeat (constructor; [exists []; split; [vm_compute; reflexivity | reflexivity]|]).
    constructor.
Defined.

(** ** The normalised pattern plane, in binary32 *)

Lemma Binary32_of_int_finite (z : Z) :
  0 < z < 2 ^ 24 -> exists m e, Binary32.of_int z = S754_finite false m e.
Proof.
  intros Hz. destruct z as [|p|p]; try lia.
  assert (Hd : Z.pos (digits2_pos p) <= 24).
  { pose proof (digits2_pos_lower p) as Hl.
    destruct (Z.le_gt_cases (Z.pos (digits2_pos p)) 24) as [|Hgt]; [assumption|].
    assert (2 ^ 24 <= 2 ^ (Z.pos (digits2_pos p) - 1)) by (apply Z.pow_le_mono_r; lia).
    lia. }
  unfold Binary32.of_int, binary_normalize, binary_round.
  assert (Hal : exists mz ez, shl_align p 0 (fexp Binary32.prec Binary32.emax
                                              (Z.pos (digits2_pos p) + 0)) = (mz, ez) /\
                              Z.pos (digits2_pos mz) = 24 /\ -23 <= ez <= 0).
  { unfold shl_align, fexp, emin, Binary32.prec, Binary32.emax.
    rewrite Z.add_0_r, Z.sub_0_r. rewrite Z.max_l by lia.
    destruct (Z.pos (digits2_pos p) - 24) as [|k|k] eqn:Hk.
    - exists p, 0. repeat split; lia.
    - lia.
    - exists (Pos.iter xO p k), (Z.neg k). split; [reflexivity|].
      rewrite digits2_pos_iter_xO. lia. }
  destruct Hal as (mz & ez & -> & Hmz & Hez).
  unfold binary_round_aux, shr_fexp, Zdigits2. rewrite Hmz.
  unfold fexp, emin, Binary32.prec, Binary32.emax.
  replace (Z.max (24 + ez - 24) (3 - 128 - 24) - ez) with 0 by lia.
  cbn [shr shr_record_of_loc shr_m loc_of_shr_record round_nearest_even Zdigits2].
  rewrite Hmz.
  replace (Z.max (24 + ez - 24) (3 - 128 - 24) - ez) with 0 by lia.
  cbn [shr shr_m].
  destruct (Z.leb_spec ez (128 - 24)); [by eauto | lia].
Qed.

(** X17.  In binary32, for an image with sides below [2^24] (the integers a
    [float] holds exactly), the corners stored in [points3d] are
    [(-unitW, -unitH, 0)], [(unitW, -unitH, 0)], [(unitW, unitH, 0)],
    [(-unitW, unitH, 0)] with exact negations, and [unitW] or [unitH] is
    exactly [1.0f]: the half extent along the longer side is not
    affected by rounding. *)
Theorem points3d_binary32_unit_extent {Mat : Type}
  {CV : OpenCV (F:=Binary32.float) (Mat:=Mat)}
  (images : list Mat) (patterns : list (Pattern (F:=Binary32.float) (Mat:=Mat)))
  (i : nat) (image : Mat) (p : Pattern (F:=Binary32.float) (Mat:=Mat)) :
  buildPatternsFromImages images = Ok patterns ->
  images !! i = Some image -> patterns !! i = Some p ->
  0 < Mat_cols image < 2 ^ 24 -> 0 < Mat_rows image < 2 ^ 24 ->
  exists unitW unitH : Binary32.float,
    pattern_points3d p =
      [mkPoint3f (SFopp unitW) (SFopp unitH) (S754_zero false);
       mkPoint3f unitW (SFopp unitH) (S754_zero false);
       mkPoint3f unitW unitH (S754_zero false);
       mkPoint3f (SFopp unitW) unitH (S754_zero false)] /\
    (unitW = S754_finite false 8388608 (-23) \/
     unitH = S754_finite false 8388608 (-23)).
Proof.
  intros Hb Hi Hp Hw Hh.
  pose proof (buildPatternsFromImages_lookup _ _ _ _ _ Hb Hi Hp) as Hbp.
  apply buildPattern_points3d in Hbp. cbv zeta in Hbp.
  destruct (Binary32_of_int_finite _ Hw) as (mw & ew & Ew).
  destruct (Binary32_of_int_finite _ Hh) as (mh & eh & Eh).
  cbn [of_int fneg fdiv fltb binary32_ops] in Hbp. unfold fmax in Hbp.
  cbn [fltb binary32_ops] in Hbp. rewrite Ew, Eh in Hbp.
  do 2 eexists. split; [exact Hbp|].
  destruct (Binary32.ltb _ _); [right | left]; apply Binary32_div_self.
Qed.

Lemma points3d_binary32_unit_extent_witness :
  exists p unitW unitH,
    buildPatternsFromImages (CV:=cv32) [Sample.reference] = Ok [p] /\
    pattern_points3d p =
      [mkPoint3f (SFopp unitW) (SFopp unitH) (S754_zero false);
       mkPoint3f unitW (SFopp unitH) (S754_zero false);
       mkPoint3f unitW unitH (S754_zero false);
       mkPoint3f (SFopp unitW) unitH (S754_zero false)] /\
    (unitW = S754_finite false 8388608 (-23) \/
     unitH = S754_finite false 8388608 (-23)).
Proof.
  assert (Hrun : exists p, buildPatternsFromImages (CV:=cv32) [Sample.reference] = Ok [p])
    by (eexists; vm_compute; reflexivity).
  destruct Hrun as [p Hrun].
  destruct (points3d_binary32_unit_extent (CV:=cv32) [Sample.reference] [p] 0%nat
              Sample.reference p Hrun eq_refl eq_refl)
    as (unitW & unitH & Hpts & Hone); [vm_compute; by split | vm_compute; by split|].
  exists p, unitW, unitH. by repeat split.
Defined.

(** ** Asking again for the same frame *)

Section Replay.
Context {F : Type} {FO : FloatOps F} {Mat : Type} {CV : OpenCV (F:=F) (Mat:=Mat)}.
Implicit Types (d : PatternDetector (F:=F) (Mat:=Mat)).

Lemma refineMatchesWithHomography_replay
  (queryKeypoints trainKeypoints : list (KeyPoint (F:=F))) (reprojectionThreshold : F)
  (matches matches' : list (DMatch (F:=F))) (homography homography' : Mat)
  (found : bool) :
  refineMatchesWithHomography queryKeypoints trainKeypoints reprojectionThreshold
    matches homography = Ok (found, matches', homography') ->
  refineMatchesWithHomography queryKeypoints trainKeypoints reprojectionThreshold
    matches homography' = Ok (found, matches', homography').
Proof.
  unfold refineMatchesWithHomography.
  destruct (vec_size matches <? minNumberMatchesAllowed).
  - by intros [= <- <- <-].
  - intros H. exact H.
Qed.

Lemma getGray_replay (image gray : Mat) :
  getGray image (getGray image gray) = getGray image gray.
Proof.
  unfold getGray.
  destruct (Mat_channels image =? 3); [reflexivity|].
  destruct (Mat_channels image =? 4); [reflexivity|].
  by destruct (Mat_channels image =? 1).
Qed.

Lemma extractFeatures_replay (image : Mat) (keypoints keypoints' keypoints'' : list (KeyPoint (F:=F)))
  (descriptors descriptors' : Mat) (b : bool) :
  extractFeatures image keypoints descriptors = Ok (b, keypoints', descriptors') ->
  extractFeatures image keypoints'' descriptors' = Ok (b, keypoints', descriptors').
Proof.
  unfold extractFeatures.
  destruct (Mat_empty image); [discriminate|].
  destruct (negb (Mat_channels image =? 1)); [discriminate|].
  destruct (detect image) as [|k ks]; [by intros [= <- <- <-]|].
  destruct (compute image (k :: ks)) as [[|k' ks'] ds]; by intros [= <- <- <-].
Qed.

Lemma matchJob_agree (queryDescriptors : Mat) (patternIdx : Z) d d' :
  enableRatioTest d' = enableRatioTest d ->
  homographyReprojectionThreshold d' = homographyReprojectionThreshold d ->
  m_patterns d' = m_patterns d ->
  m_matchers d' = m_matchers d ->
  m_queryKeypoints d' = m_queryKeypoints d ->
  matchJob queryDescriptors patternIdx d' = matchJob queryDescriptors patternIdx d.
Proof. unfold matchJob. by intros -> -> -> -> ->. Qed.

Lemma PatternMatch_agree (queryDescriptors : Mat) (range : list nat) :
  forall d d' d1,
    enableRatioTest d' = enableRatioTest d ->
    homographyReprojectionThreshold d' = homographyReprojectionThreshold d ->
    m_patterns d' = m_patterns d ->
    m_matchers d' = m_matchers d ->
    m_queryKeypoints d' = m_queryKeypoints d ->
    m_matches d' = m_matches d ->
    m_matches_homographyFound d' = m_matches_homographyFound d ->
    m_matches_homography d' = m_matches_homography d ->
    PatternMatch queryDescriptors range d = Ok d1 ->
    PatternMatch queryDescriptors range d'
    = Ok (set_slots (m_matches d1) (m_matches_homographyFound d1)
            (m_matches_homography d1) d').
Proof.
  induction range as [|i rest IH]; intros d d' d1 E1 E2 E3 E4 E5 E6 E7 E8; simpl.
  - intros [= <-]. rewrite <- E6, <- E7, <- E8. by rewrite set_slots_id.
  - intros H. apply bind_Ok in H as (da & Ha & H).
    rewrite findPatternMatch_nat in Ha |- *.
    rewrite (matchJob_agree _ _ d d') by assumption.
    assert (Hs : has_slot i d' = has_slot i d) by (unfold has_slot; by rewrite E6, E7, E8).
    rewrite Hs.
    destruct (matchJob queryDescriptors (Z.of_nat i) d) as [[[f ms] h]|]; [|discriminate].
    destruct (has_slot i d); [|discriminate]. injection Ha as <-. cbn [bind].
    rewrite E6, E7, E8.
    erewrite (IH _ _ d1); [reflexivity | .. | exact H]; try assumption; reflexivity.
Qed.

Lemma matchStage_replay (image : Mat) d d1 d' :
  matchStage image d = Ok d1 -> same_but_scratch d1 d' -> matchStage image d' = Ok d'.
Proof.
  intros Hm (E1 & E2 & E3 & E4 & E5 & E6 & E7 & E8 & E9 & E10 & E11).
  unfold matchStage in Hm |- *.
  apply bind_Ok in Hm as ([[b kps] ds] & Hex & Hm).
  pose proof (PatternMatch_slots _ _ _ _ Hm) as (ms & fs & hs & Hd1 & _).
  cbn [set_query set_slots m_patterns m_queryDescriptors] in Hm.
  assert (G : m_grayImg d1 = getGray image (m_grayImg d)) by (by rewrite Hd1).
  assert (D : m_queryDescriptors d1 = ds) by (by rewrite Hd1).
  assert (K : m_queryKeypoints d1 = kps) by (by rewrite Hd1).
  assert (P : m_patterns d1 = m_patterns d) by (by rewrite Hd1).
  assert (R : enableRatioTest d1 = enableRatioTest d) by (by rewrite Hd1).
  assert (T : homographyReprojectionThreshold d1 = homographyReprojectionThreshold d)
    by (by rewrite Hd1).
  assert (M : m_matchers d1 = m_matchers d) by (by rewrite Hd1).
  rewrite E6, G, getGray_replay, E8, D.
  rewrite (extractFeatures_replay _ _ _ (m_queryKeypoints d') _ _ _ Hex). cbn [bind].
  cbn [set_query set_slots m_patterns m_queryDescriptors]. rewrite E4, P.
  set (n := length (m_patterns d)) in *.
  set (gray := getGray image (m_grayImg d)) in *.
  rewrite (PatternMatch_agree ds (seq 0 n)
             (set_slots (replicate n []) (replicate n false) (replicate n Mat_new)
                (set_query gray kps ds d))
             (set_slots (replicate n []) (replicate n false) (replicate n Mat_new)
                (set_query gray kps ds d'))
             d1); try reflexivity; try exact Hm.
  - f_equal. rewrite <- E9, <- E10, <- E11.
    rewrite <- G, <- E6, <- D, <- E8, <- K, <- E7. by destruct d'.
  - cbn [set_slots set_query enableRatioTest]. congruence.
  - cbn [set_slots set_query homographyReprojectionThreshold]. congruence.
  - cbn [set_slots set_query m_patterns]. congruence.
  - cbn [set_slots set_query m_matchers]. congruence.
Qed.

Lemma estimateRefinement_replay (maxFoundIdx : Z) d (found : bool) (warped refined : Mat) :
  estimateRefinement maxFoundIdx d = Ok (found, warped, refined) ->
  estimateRefinement maxFoundIdx (set_refined warped refined d)
  = Ok (found, warped, refined).
Proof.
  unfold estimateRefinement.
  cbn [set_refined m_grayImg m_roughHomography m_pattern
       homographyReprojectionThreshold m_refinedHomography].
  intros H. apply bind_Ok in H as ([[b kps] ds] & -> & H). cbn [bind].
  change (getMatches ds maxFoundIdx (set_refined warped refined d))
    with (getMatches ds maxFoundIdx d).
  apply bind_Ok in H as (rm & -> & H). cbn [bind].
  apply bind_Ok in H as ([[f rm'] r] & Hr & [= <- <- <-]).
  by rewrite (refineMatchesWithHomography_replay _ _ _ _ _ _ _ _ Hr).
Qed.

(** X18.  Asking again for the same frame changes nothing: called on the state
    and the [info] the first call left, [findPattern] returns the same
    answer, the same [info] and the same state. *)
Theorem findPattern_replay (image : Mat)
  (info info' : PatternTrackingInfo (F:=F) (Mat:=Mat)) d d' (b : bool) :
  findPattern image info d = Ok (b, info', d') ->
  findPattern image info' d' = Ok (b, info', d').
Proof.
  unfold findPattern at 1. intros H.
  apply bind_Ok in H as (d1 & Hm & H).
  apply bind_Ok in H as (sel & Hs & H).
  destruct (homographyFound sel) eqn:Hf; cbn [negb] in H.
  - unfold reportWinner in H.
    apply bind_Ok in H as (rough & Hr & H).
    apply bind_Ok in H as (pattern & Hp & H).
    cbn [set_winner enableHomographyRefinement] in H.
    destruct (enableHomographyRefinement d1) eqn:He.
    + apply bind_Ok in H as ([[found warped] refined] & Hest & H).
      apply bind_Ok in H as (homography & Hprod & [= <- <- <-]).
      set (d2 := set_winner rough pattern d1) in *.
      assert (Hm' : matchStage image (set_refined warped refined d2)
                    = Ok (set_refined warped refined d2)).
      { eapply matchStage_replay; [exact Hm|]. repeat split. }
      unfold findPattern. rewrite Hm'. cbn [bind].
      change (selectBest (set_refined warped refined d2)) with (selectBest d1).
      rewrite Hs. cbn [bind]. rewrite Hf. cbn [negb]. unfold reportWinner.
      change (m_matches_homography (set_refined warped refined d2))
        with (m_matches_homography d1).
      change (m_patterns (set_refined warped refined d2)) with (m_patterns d1).
      rewrite Hr, Hp. cbn [bind].
      change (set_winner rough pattern (set_refined warped refined d2))
        with (set_refined warped refined d2).
      change (enableHomographyRefinement (set_refined warped refined d2))
        with (enableHomographyRefinement d1).
      rewrite He. rewrite (estimateRefinement_replay _ _ _ _ _ Hest). cbn [bind].
      change (Mat_product _ _)
        with (Mat_product (m_roughHomography (set_refined warped refined d2))
                (m_refinedHomography (set_refined warped refined d2))).
      rewrite Hprod. reflexivity.
    + injection H as <- <- <-.
      set (d2 := set_winner rough pattern d1) in *.
      assert (Hm' : matchStage image d2 = Ok d2).
      { eapply matchStage_replay; [exact Hm|]. repeat split. }
      unfold findPattern. rewrite Hm'. cbn [bind].
      change (selectBest d2) with (selectBest d1).
      rewrite Hs. cbn [bind]. rewrite Hf. cbn [negb]. unfold reportWinner.
      change (m_matches_homography d2) with (m_matches_homography d1).
      change (m_patterns d2) with (m_patterns d1).
      rewrite Hr, Hp. cbn [bind].
      change (set_winner rough pattern d2) with d2.
      change (enableHomographyRefinement d2) with (enableHomographyRefinement d1).
      rewrite He, Hf. reflexivity.
  - injection H as <- <- <-.
    assert (Hm' : matchStage image d1 = Ok d1).
    { eapply matchStage_replay; [exact Hm|]. repeat split. }
    unfold findPattern. rewrite Hm'. cbn [bind]. rewrite Hs. cbn [bind].
    by rewrite Hf.
Qed.

End Replay.

Lemma findPattern_replay_witness :
  exists info' d',
    findPattern (CV:=cv32) Sample.frame Sample.info0 (Sample.trained true)
    = Ok (true, info', d') /\
    findPattern (CV:=cv32) Sample.frame info' d' = Ok (true, info', d').
Proof.
  assert (Hrun : exists info' d',
             findPattern (CV:=cv32) Sample.frame Sample.info0 (Sample.trained true)
             = Ok (true, info', d')) by (do 2 eexists; vm_compute; reflexivity).
  destruct Hrun as (info' & d' & Hrun). exists info', d'.
  split; [exact Hrun|]. exact (findPattern_replay (CV:=cv32) _ _ _ _ _ _ Hrun).
Defined.
